(** * Appointment backend: OTP store, availability registry, booking engine

    A shallow embedding of the parts of the backend that carry invariants:
    - [services/otpService.js]: the in-memory OTP map and [verifyOTP];
    - the Express handlers of the main server file for time slots, public
      listings, appointment creation/update and the payment webhook.

    JavaScript strings are modelled as [string] (sequences of 8-bit code
    units, which covers ASCII request data), numbers that the code only uses
    as integers as [Z], the [Map] holding OTP entries as a [gmap] and every
    SQL table as a [gmap] from its integer primary key to a row record.
    [Date.now()], [CURDATE()] and the server's time zone are explicit
    arguments. Handlers return the response together with the new table.

    Three things outside the JavaScript text shape what the handlers do and
    are modelled where they matter: the column types of the schema the
    server creates (TIME, DATE, ENUM, the unique key on time slots), the
    driver's treatment of bound parameters and of DATE and TIME results,
    and the engine's reading of text compared with an INT column, which is
    kept abstract in the class [SqlEngine]. Foreign keys and the audit
    columns are not modelled. *)

From Stdlib Require Import ZArith List Bool Ascii String Lia.
From Stdlib Require Import DecimalString DecimalZ.
From stdpp Require Import base option strings gmap sorting.

Local Open Scope string_scope.
Local Open Scope Z_scope.

(** ** JavaScript string primitives used by the source *)
Module JS.

(** [s.startsWith(p)] *)
Fixpoint startsWith (p s : string) : bool :=
  match p, s with
  | EmptyString, _ => true
  | String a p', String b s' => if Ascii.eqb a b then startsWith p' s' else false
  | String _ _, EmptyString => false
  end.

(** [Number.prototype.toString()] on an integer-valued number. *)
Definition number_toString (z : Z) : string :=
  NilEmpty.string_of_int (Z.to_int z).
Arguments number_toString : simpl never.

(** Strings are falsy exactly when empty. *)
Definition truthy (s : string) : bool :=
  match s with EmptyString => false | _ => true end.

(** Relational comparison of two strings: lexicographic on code units. *)
Fixpoint str_ltb (a b : string) : bool :=
  match a, b with
  | _, EmptyString => false
  | EmptyString, String _ _ => true
  | String x a', String y b' =>
    if (nat_of_ascii x <? nat_of_ascii y)%nat then true
    else if (nat_of_ascii y <? nat_of_ascii x)%nat then false
    else str_ltb a' b'
  end.

(** [a >= b] on strings. *)
Definition str_geb (a b : string) : bool := negb (str_ltb a b).

Definition is_digit (c : ascii) : bool :=
  let n := nat_of_ascii c in ((48 <=? n) && (n <=? 57))%nat.

(** White space as [trim] and [parseInt] see it, within the 8-bit range:
    TAB, LF, VT, FF, CR, SP and NBSP. *)
Definition is_space (c : ascii) : bool :=
  let n := nat_of_ascii c in
  (((9 <=? n) && (n <=? 13)) || (n =? 32) || (n =? 160))%nat.

Fixpoint rev_append (s acc : string) : string :=
  match s with
  | EmptyString => acc
  | String c s' => rev_append s' (String c acc)
  end.

Definition rev (s : string) : string := rev_append s EmptyString.

Fixpoint trimStart (s : string) : string :=
  match s with
  | String c s' => if is_space c then trimStart s' else s
  | EmptyString => EmptyString
  end.

Definition trimEnd (s : string) : string := rev (trimStart (rev s)).

(** [s.trim()] *)
Definition trim (s : string) : string := trimEnd (trimStart s).

(** [s.split(sep)] for a non-empty separator string. [skip] counts the
    code units of a separator occurrence still to be passed over, [acc]
    holds the current piece in reverse. *)
Fixpoint split_aux (sep : string) (skip : nat) (acc s : string) : list string :=
  match s with
  | EmptyString => [rev acc]
  | String c s' =>
    match skip with
    | S k => split_aux sep k acc s'
    | O =>
      if startsWith sep s
      then rev acc :: split_aux sep (String.length sep - 1) EmptyString s'
      else split_aux sep O (String c acc) s'
    end
  end.

Definition split (sep s : string) : list string := split_aux sep O EmptyString s.

(** [s.includes(t)] *)
Fixpoint includes (t s : string) : bool :=
  startsWith t s ||
  match s with
  | EmptyString => false
  | String _ s' => includes t s'
  end.

(** [s.slice(n)] *)
Fixpoint drop (n : nat) (s : string) : string :=
  match n, s with
  | O, _ => s
  | S k, String _ s' => drop k s'
  | S _, EmptyString => EmptyString
  end.

(** [s.replace(pat, by)] with a string pattern: only the first occurrence
    is replaced. *)
Fixpoint replace (pat by_ s : string) : string :=
  if startsWith pat s then by_ +:+ drop (String.length pat) s
  else match s with
       | EmptyString => EmptyString
       | String c s' => String c (replace pat by_ s')
       end.

(** [s.padStart(n, '0')] *)
Fixpoint zeros (n : nat) : string :=
  match n with O => EmptyString | S k => String "0" (zeros k) end.

Definition padStart0 (n : nat) (s : string) : string :=
  zeros (n - String.length s) +:+ s.

(** Numbers as the time conversion meets them: [NaN] or an integer
    (exact for magnitudes below 2^53, where doubles are exact and
    [toString] prints plain decimal digits). *)
Inductive num : Type := NaN | Int (z : Z).

Definition num_toString (n : num) : string :=
  match n with NaN => "NaN" | Int z => number_toString z end.

Definition num_add (n : num) (k : Z) : num :=
  match n with NaN => NaN | Int z => Int (z + k) end.

Definition digit_val (c : ascii) : Z := Z.of_nat (nat_of_ascii c) - 48.

(** The longest prefix of decimal digits, as a value; [None] when the
    prefix is empty. *)
Fixpoint digits_prefix (acc : option Z) (s : string) : option Z :=
  match s with
  | String c s' =>
    if is_digit c
    then digits_prefix (Some (10 * default 0 acc + digit_val c)) s'
    else acc
  | EmptyString => acc
  end.

(** [parseInt(s, 10)]: leading white space, an optional sign, then digits. *)
Definition parseInt10 (s : string) : num :=
  let t := trimStart s in
  let '(neg, body) :=
    match t with
    | String "-" r => (true, r)
    | String "+" r => (false, r)
    | _ => (false, t)
    end in
  match digits_prefix None body with
  | None => NaN
  | Some z => Int (if neg then - z else z)
  end.

(** *** Regular expressions

    The patterns in the source are anchored on both sides and use only
    classes, concatenation, alternation and [?]; whether such a pattern
    accepts a string is decided by derivatives. *)
Inductive regex : Type :=
| Void
| Eps
| Class (p : ascii -> bool)
| Cat (r1 r2 : regex)
| Alt (r1 r2 : regex).

Definition Opt (r : regex) : regex := Alt r Eps.

Fixpoint nullable (r : regex) : bool :=
  match r with
  | Void => false
  | Eps => true
  | Class _ => false
  | Cat a b => nullable a && nullable b
  | Alt a b => nullable a || nullable b
  end.

Fixpoint deriv (c : ascii) (r : regex) : regex :=
  match r with
  | Void => Void
  | Eps => Void
  | Class p => if p c then Eps else Void
  | Cat a b =>
    if nullable a then Alt (Cat (deriv c a) b) (deriv c b)
    else Cat (deriv c a) b
  | Alt a b => Alt (deriv c a) (deriv c b)
  end.

(** No string at all is accepted. *)
Fixpoint dead (r : regex) : bool :=
  match r with
  | Void => true
  | Eps => false
  | Class _ => false
  | Cat a b => dead a || dead b
  | Alt a b => dead a && dead b
  end.

(** [/^r$/.test(s)] *)
Fixpoint test (r : regex) (s : string) : bool :=
  match s with
  | EmptyString => nullable r
  | String c s' =>
    let r' := deriv c r in
    if dead r' then false else test r' s'
  end.

(** The length of the longest accepted string; [None] when there is none. *)
Fixpoint maxlen (r : regex) : option nat :=
  match r with
  | Void => None
  | Eps => Some O
  | Class _ => Some 1%nat
  | Cat a b =>
    match maxlen a, maxlen b with
    | Some x, Some y => Some (x + y)%nat
    | _, _ => None
    end
  | Alt a b =>
    match maxlen a, maxlen b with
    | Some x, Some y => Some (Nat.max x y)
    | Some x, None => Some x
    | None, o => o
    end
  end.

(** The strings a pattern denotes. *)
Inductive lang : regex -> string -> Prop :=
| lang_eps : lang Eps EmptyString
| lang_class p c : p c = true -> lang (Class p) (String c EmptyString)
| lang_cat a b s1 s2 : lang a s1 -> lang b s2 -> lang (Cat a b) (s1 +:+ s2)
| lang_alt_l a b s : lang a s -> lang (Alt a b) s
| lang_alt_r a b s : lang b s -> lang (Alt a b) s.

Definition chr (a : ascii) : regex := Class (Ascii.eqb a).
Definition range (lo hi : ascii) : regex :=
  Class (fun c => ((nat_of_ascii lo <=? nat_of_ascii c) &&
                   (nat_of_ascii c <=? nat_of_ascii hi))%nat).
Definition digit : regex := Class is_digit.

End JS.

(** ** services/otpService.js *)
Module Otp.

(** The object stored in [otpStorage]: [{ otp, expiresAt, attempts }]. *)
Record otp_entry : Type := OtpEntry {
  otp : string;
  expiresAt : Z;
  attempts : Z
}.

(** The five ways [verifyOTP] returns on a phone number and a code that are
    strings (the [catch] branch needs a throwing operation, and none of the
    operations below throws on string input). *)
Inductive verify_outcome : Type :=
| Verified
| NotFound
| Expired
| AttemptsExceeded
| Mismatch (remaining : Z).

Definition success (r : verify_outcome) : bool :=
  match r with Verified => true | _ => false end.

Definition message (r : verify_outcome) : string :=
  match r with
  | Verified => "OTP verified successfully"
  | NotFound => "OTP not found or expired"
  | Expired => "OTP has expired"
  | AttemptsExceeded => "Maximum verification attempts exceeded"
  | Mismatch k => "Invalid OTP. " +:+ JS.number_toString k +:+ " attempts remaining"
  end.

(** [if (!formattedPhone.startsWith('+')) formattedPhone = '+' + formattedPhone] *)
Definition formatPhone (phoneNumber : string) : string :=
  if JS.startsWith "+" phoneNumber then phoneNumber else "+" +:+ phoneNumber.

(** The write every send path performs before delivery:
    [otpStorage.set(formattedPhone, { otp, expiresAt: Date.now() + 5*60*1000, attempts: 0 })]. *)
Definition storeOTP (now : Z) (phoneNumber code : string)
    (otpStorage : gmap string otp_entry) : gmap string otp_entry :=
  <[formatPhone phoneNumber := OtpEntry code (now + 5 * 60 * 1000) 0]> otpStorage.

(** [verifyOTP(phoneNumber, otp)], with [Date.now()] and the module-level map
    made explicit. *)
Definition verifyOTP (now : Z) (phoneNumber code : string)
    (otpStorage : gmap string otp_entry)
  : verify_outcome * gmap string otp_entry :=
  let formattedPhone := formatPhone phoneNumber in
  match otpStorage !! formattedPhone with
  | None => (NotFound, otpStorage)
  | Some storedData =>
    if expiresAt storedData <? now then
      (Expired, delete formattedPhone otpStorage)
    else if 3 <=? attempts storedData then
      (AttemptsExceeded, delete formattedPhone otpStorage)
    else if String.eqb (otp storedData) code then
      (Verified, delete formattedPhone otpStorage)
    else
      let storedData' :=
        OtpEntry (otp storedData) (expiresAt storedData) (attempts storedData + 1) in
      (Mismatch (3 - attempts storedData'),
       <[formattedPhone := storedData']> otpStorage)
  end.

(** The store after a series of [verifyOTP] calls for one phone, each
    given by its clock value and its code. *)
Fixpoint verify_run (calls : list (Z * string)) (phoneNumber : string)
    (otpStorage : gmap string otp_entry) : gmap string otp_entry :=
  match calls with
  | [] => otpStorage
  | (now, code) :: rest =>
    verify_run rest phoneNumber (verifyOTP now phoneNumber code otpStorage).2
  end.

(** [cleanExpiredOTPs()] *)
Definition cleanExpiredOTPs (now : Z) (otpStorage : gmap string otp_entry)
  : gmap string otp_entry :=
  filter (fun kv => negb (expiresAt (snd kv) <? now) = true) otpStorage.

End Otp.

(** ** Calendar dates, JavaScript [Date] and the SQL temporal types *)
Module Calendar.

(** Day number (days since 1970-01-01) of a proleptic Gregorian date. *)
Definition days_from_civil (y m d : Z) : Z :=
  let y' := if m <=? 2 then y - 1 else y in
  let era := y' / 400 in
  let yoe := y' - era * 400 in
  let mp := if 2 <? m then m - 3 else m + 9 in
  let doy := (153 * mp + 2) / 5 + d - 1 in
  let doe := yoe * 365 + yoe / 4 - yoe / 100 + doy in
  era * 146097 + doe - 719468.

(** The inverse: year, month and day of a day number. *)
Definition civil_from_days (z : Z) : Z * Z * Z :=
  let z' := z + 719468 in
  let era := z' / 146097 in
  let doe := z' - era * 146097 in
  let yoe := (doe - doe / 1460 + doe / 36524 - doe / 146096) / 365 in
  let doy := doe - (365 * yoe + yoe / 4 - yoe / 100) in
  let mp := (5 * doy + 2) / 153 in
  let d := doy - (153 * mp + 2) / 5 + 1 in
  let m := if mp <? 10 then mp + 3 else mp - 9 in
  (yoe + era * 400 + (if m <=? 2 then 1 else 0), m, d).

Definition is_leap (y : Z) : bool :=
  ((y mod 4 =? 0) && negb (y mod 100 =? 0)) || (y mod 400 =? 0).

Definition days_in_month (y m : Z) : Z :=
  if m =? 2 then (if is_leap y then 29 else 28)
  else if (m =? 4) || (m =? 6) || (m =? 9) || (m =? 11) then 30 else 31.

Definition pad (n : nat) (z : Z) : string := JS.padStart0 n (JS.number_toString z).

Definition all_digits (s : string) : bool :=
  JS.truthy s && forallb JS.is_digit (list_ascii_of_string s).

Definition digits_value (s : string) : Z := default 0 (JS.digits_prefix None s).

(** ['YYYY-MM-DD'] of a day number (years 0 to 9999). *)
Definition format_date (days : Z) : string :=
  let '(y, m, d) := civil_from_days days in
  pad 4 y +:+ "-" +:+ pad 2 m +:+ "-" +:+ pad 2 d.

(** The day number written as ['YYYY-MM-DD'] (a date of the calendar);
    [None] for any other text. The engine also reads looser spellings of
    a date; requests that use them are outside this model, which treats
    them as a conversion error. *)
Definition date_of_string (s : string) : option Z :=
  match JS.split "-" s with
  | [ys; ms; ds] =>
    let y := digits_value ys in
    let m := digits_value ms in
    let d := digits_value ds in
    if all_digits ys && all_digits ms && all_digits ds
       && (String.length ys =? 4)%nat && (String.length ms =? 2)%nat
       && (String.length ds =? 2)%nat
       && (1 <=? m) && (m <=? 12) && (1 <=? d) && (d <=? days_in_month y m)
    then Some (days_from_civil y m d) else None
  | _ => None
  end.

(** [new Date(s).getTime()] for the date-only ISO form, which ECMAScript
    reads as midnight UTC whatever the local zone. Every other spelling is
    reported as an invalid date by this model. *)
Definition Date_parse (s : string) : option Z :=
  (fun days => days * 86400000) <$> date_of_string s.

(** [new Date(ms).toISOString()]: always UTC. *)
Definition toISOString (ms : Z) : string :=
  let days := ms / 86400000 in
  let r := ms mod 86400000 in
  format_date days +:+ "T" +:+ pad 2 (r / 3600000) +:+ ":" +:+
  pad 2 (r / 60000 mod 60) +:+ ":" +:+ pad 2 (r / 1000 mod 60) +:+ "." +:+
  pad 3 (r mod 1000) +:+ "Z".

(** [new Date(y, m - 1, d).getTime()]: local midnight in a zone [tz]
    minutes east of UTC. *)
Definition local_midnight (tz : Z) (days : Z) : Z :=
  days * 86400000 - tz * 60000.

(** A TIME value is a number of seconds. The texts ['H:MM'], ['HH:MM'] and
    ['HH:MM:SS'] denote times of day (['9:00'] is 09:00:00); other
    spellings are outside this model, which treats them as a conversion
    error. *)
Definition time_of_string (s : string) : option Z :=
  let field_ok f := all_digits f && (String.length f <=? 2)%nat in
  match JS.split ":" s with
  | [h; m] =>
    if field_ok h && field_ok m && (digits_value m <? 60)
    then Some (digits_value h * 3600 + digits_value m * 60) else None
  | [h; m; sec] =>
    if field_ok h && field_ok m && field_ok sec
       && (digits_value m <? 60) && (digits_value sec <? 60)
    then Some (digits_value h * 3600 + digits_value m * 60 + digits_value sec)
    else None
  | _ => None
  end.

(** A TIME value as the driver hands it to JavaScript: ['HH:MM:SS']. *)
Definition time_to_string (t : Z) : string :=
  pad 2 (t / 3600) +:+ ":" +:+ pad 2 (t / 60 mod 60) +:+ ":" +:+ pad 2 (t mod 60).

(** [iso.split('T')[0]]: the calendar date an ISO instant text shows. *)
Definition date_part (iso : string) : string :=
  default EmptyString (JS.split "T" iso !! 0%nat).

Definition date_part_ok (rest : string) (d : Z) : bool :=
  String.eqb (date_part (format_date d +:+ "T" +:+ rest)) (format_date d).

Definition date_roundtrip_ok (d : Z) : bool :=
  bool_decide (date_of_string (format_date d) = Some d).

Definition time_roundtrip_ok (t : Z) : bool :=
  bool_decide (time_of_string (time_to_string t) = Some t).

End Calendar.

(** ** Request values, responses and the SQL engine *)
Module Http.

(** A property of a JSON body as the handlers destructure it:
    [undefined] when the key is missing, [null], or a value. *)
Inductive field (A : Type) : Type :=
| Absent
| Null
| Val (a : A).
Arguments Absent {A}.
Arguments Null {A}.
Arguments Val {A} a.

(** [x] in a boolean position, for a string-valued property. *)
Definition supplied {A} (is_true : A -> bool) (f : field A) : bool :=
  match f with Val a => is_true a | _ => false end.

(** A bound statement parameter. The driver's [execute] refuses
    [undefined] with a TypeError before anything reaches the server;
    [null] is bound as SQL NULL. *)
Definition bind {A} (f : field A) : option (option A) :=
  match f with
  | Absent => None
  | Null => Some None
  | Val a => Some (Some a)
  end.

Record response : Type := Response { status : Z; message : string }.

End Http.

(** How the SQL engine compares an INT column with a text parameter. Only
    its behaviour on plain decimal numerals is fixed here. *)
Class SqlEngine : Type := {
  (** the integer a text denotes in a comparison with an INT column, if any *)
  int_of_text : string -> option Z;
  (** whether a data-changing statement accepts the text in such a comparison *)
  strict_ok : string -> bool;
  (** equality of two texts under the column's collation *)
  text_eq : string -> string -> bool;
  int_of_text_decimal : forall z, int_of_text (JS.number_toString z) = Some z;
  strict_ok_decimal : forall z, strict_ok (JS.number_toString z) = true;
  text_eq_refl : forall s, text_eq s s = true
}.

(** An engine that reads decimal numerals and matches nothing else. *)
Definition decimal_int_of_text (s : string) : option Z :=
  Z.of_int <$> NilEmpty.int_of_string s.

Definition decimal_engine : SqlEngine.
Proof.
  refine {| int_of_text := decimal_int_of_text;
            strict_ok := fun s =>
              match decimal_int_of_text s with Some _ => true | None => false end;
            text_eq := String.eqb |}.
  - intros z. unfold decimal_int_of_text, JS.number_toString.
    rewrite NilEmpty.isi. simpl. f_equal. apply DecimalZ.of_to.
  - intros z. unfold decimal_int_of_text, JS.number_toString.
    rewrite NilEmpty.isi. reflexivity.
  - apply String.eqb_refl.
Defined.

(** ** Availability registry: time slots *)
Module Slots.
Import Http.

(** A row of [available_time_slots] without its key and audit columns. *)
Record time_slot : Type := TimeSlot {
  start_time : Z;                      (* TIME NOT NULL, in seconds *)
  end_time : Z;                        (* TIME NOT NULL *)
  is_available : option bool;          (* BOOLEAN DEFAULT TRUE *)
  extra_price : option Z;              (* DECIMAL(10,2), in hundredths *)
  date : Z;                            (* DATE NOT NULL, as a day number *)
  service_category_id : option Z       (* INT NULL *)
}.

(** The table, keyed by its primary key [id]. *)
Abbreviation table := (gmap Z time_slot).

(** [/^([01]?[0-9]|2[0-3]):[0-5][0-9]$/] *)
Definition timeRegex : JS.regex :=
  JS.Cat (JS.Alt (JS.Cat (JS.Opt (JS.range "0" "1")) JS.digit)
                 (JS.Cat (JS.chr "2") (JS.range "0" "3")))
         (JS.Cat (JS.chr ":") (JS.Cat (JS.range "0" "5") JS.digit)).

(** [is_available = 1] *)
Definition available (r : time_slot) : bool :=
  match is_available r with Some true => true | _ => false end.

(** The three conditions of the overlap query, for a stored row and the
    bound start [s] and end [e]:
    [(start_time <= s AND end_time > s) OR (start_time < e AND end_time >= e)
     OR (start_time >= s AND end_time <= e)]. *)
Definition tested_overlap (r : time_slot) (s e : Z) : bool :=
  ((start_time r <=? s) && (s <? end_time r)) ||
  ((start_time r <? e) && (e <=? end_time r)) ||
  ((s <=? start_time r) && (end_time r <=? e)).

(** [(service_category_id = ? OR (service_category_id IS NULL AND ? IS NULL))] *)
Definition same_scope (c p : option Z) : bool :=
  match c, p with
  | Some a, Some b => a =? b
  | None, None => true
  | _, _ => false
  end.

(** [SELECT ... WHERE P] *)
Definition select {A} (P : Z -> A -> bool) (t : gmap Z A) : list (Z * A) :=
  List.filter (fun kr => P kr.1 kr.2) (map_to_list t).

(** AUTO_INCREMENT: a key above every stored one. *)
Definition next_id {A} (t : gmap Z A) : Z :=
  1 + map_fold (fun k _ acc => Z.max k acc) 0 t.

(** [UNIQUE KEY unique_time_slot (date, start_time, end_time)], checked
    against every row but [self]. *)
Definition unique_key_taken (self : option Z) (r : time_slot) (t : table) : bool :=
  negb (bool_decide (select (fun k x =>
    negb (bool_decide (Some k = self)) &&
    (date x =? date r) && (start_time x =? start_time r) &&
    (end_time x =? end_time r)) t = [])).

Definition bad_request (m : string) : response := Response 400 m.
Definition server_error : response := Response 500 "Internal server error".

Record create_body : Type := CreateBody {
  cb_start_time : field string;
  cb_end_time : field string;
  cb_is_available : field bool;
  cb_extra_price : field Z;
  cb_date : field string;
  cb_service_category_id : field Z
}.

(** POST /api/admin/available-time-slots

    The two time texts are validated in JavaScript: pattern, then the
    string comparison [start_time >= end_time]. The overlap query and the
    INSERT bind them to TIME columns, where the engine converts them, so
    the three conditions compare times. A bound parameter that is
    [undefined], a text that does not convert and a duplicate key all end
    in the handler's [catch]. *)
Definition createTimeSlot (b : create_body) (t : table) : response * table :=
  match cb_start_time b, cb_end_time b, cb_date b with
  | Val start_time, Val end_time, Val date =>
    if negb (JS.truthy start_time) || negb (JS.truthy end_time) || negb (JS.truthy date)
    then (bad_request "Start time, end time, and date are required", t)
    else if negb (JS.test timeRegex start_time) || negb (JS.test timeRegex end_time)
    then (bad_request "Invalid time format. Use HH:MM format", t)
    else if JS.str_geb start_time end_time
    then (bad_request "End time must be after start time", t)
    else
      match bind (cb_service_category_id b),
            Calendar.date_of_string date,
            Calendar.time_of_string start_time,
            Calendar.time_of_string end_time with
      | Some cat, Some d, Some s, Some e =>
        let overlapping :=
          select (fun _ r => (Slots.date r =? d) && available r &&
                             same_scope (service_category_id r) cat &&
                             tested_overlap r s e) t in
        if negb (bool_decide (overlapping = []))
        then (bad_request "Time slot overlaps with existing available slot", t)
        else
          match bind (cb_is_available b) with
          | Some av =>
            let price :=
              match cb_extra_price b with
              | Absent => Some 0
              | Null => None
              | Val p => Some p
              end in
            let row := TimeSlot s e av price d cat in
            if unique_key_taken None row t then (server_error, t)
            else (Response 201 "Time slot created successfully",
                  <[next_id t := row]> t)
          | None => (server_error, t)
          end
      | _, _, _, _ => (server_error, t)
      end
  | _, _, _ => (bad_request "Start time, end time, and date are required", t)
  end.

Record update_body : Type := UpdateBody {
  ub_start_time : field string;
  ub_end_time : field string;
  ub_is_available : field bool;
  ub_extra_price : field Z;
  ub_service_category_id : field Z
}.

(** [x || y] for a string property and a stored text. *)
Definition or_else (f : field string) (y : string) : string :=
  match f with
  | Val x => if JS.truthy x then x else y
  | _ => y
  end.

(** [COALESCE(?, col)] for a bound parameter already converted to the
    column type. *)
Definition coalesce {A} (p : option A) (col : A) : A :=
  match p with Some a => a | None => col end.

(** A bound TIME parameter: NULL, or text that must convert. *)
Definition bind_time (f : field string) : option (option Z) :=
  match f with
  | Absent => None
  | Null => Some None
  | Val x => Some <$> Calendar.time_of_string x
  end.

(** [ORDER BY start_time ASC] *)
Definition by_start_time (a b : Z * time_slot) : Prop :=
  start_time a.2 <= start_time b.2.

#[export] Instance by_start_time_dec : RelDecision by_start_time.
Proof. intros a b. unfold by_start_time. apply _. Defined.

Section Handlers.
Context `{SqlEngine}.

(** The block guarded by [if (start_time || end_time)]: [None] when the
    checks pass, otherwise the response sent. *)
Definition revalidate (id : Z) (currentSlot : time_slot) (b : update_body)
    (t : table) : option response :=
  if supplied JS.truthy (ub_start_time b) || supplied JS.truthy (ub_end_time b) then
    let newStartTime :=
      or_else (ub_start_time b) (Calendar.time_to_string (start_time currentSlot)) in
    let newEndTime :=
      or_else (ub_end_time b) (Calendar.time_to_string (end_time currentSlot)) in
    if negb (JS.test timeRegex newStartTime) || negb (JS.test timeRegex newEndTime)
    then Some (bad_request "Invalid time format. Use HH:MM format")
    else if JS.str_geb newStartTime newEndTime
    then Some (bad_request "End time must be after start time")
    else
      match Calendar.time_of_string newStartTime,
            Calendar.time_of_string newEndTime with
      | Some s, Some e =>
        let overlapping :=
          select (fun k r => negb (k =? id) && (date r =? date currentSlot) &&
                             available r && tested_overlap r s e) t in
        if negb (bool_decide (overlapping = []))
        then Some (bad_request "Time slot overlaps with existing available slot")
        else None
      | _, _ => Some server_error
      end
  else None.

(** PUT /api/admin/available-time-slots/:id

    [currentSlot] is the row as the driver returns it: its times are
    ['HH:MM:SS'] texts and its date is passed back to the query unchanged.
    The row exists when the UPDATE runs, so [affectedRows] is not 0. *)
Definition updateTimeSlot (id : string) (b : update_body) (t : table)
  : response * table :=
  match int_of_text id ≫= (fun k => (fun r => (k, r)) <$> t !! k) with
  | None => (Response 404 "Time slot not found", t)
  | Some (k, currentSlot) =>
    match revalidate k currentSlot b t with
    | Some r => (r, t)
    | None =>
      match bind_time (ub_start_time b), bind_time (ub_end_time b),
            bind (ub_is_available b), bind (ub_extra_price b),
            bind (ub_service_category_id b) with
      | Some st, Some en, Some av, Some price, Some cat =>
        let row :=
          TimeSlot (coalesce st (start_time currentSlot))
                   (coalesce en (end_time currentSlot))
                   (match av with Some v => Some v | None => is_available currentSlot end)
                   (match price with Some v => Some v | None => extra_price currentSlot end)
                   (date currentSlot)
                   cat in
        if unique_key_taken (Some k) row t then (server_error, t)
        else (Response 200 "Time slot updated successfully", <[k := row]> t)
      | _, _, _, _, _ => (server_error, t)
      end
    end
  end.

(** The category condition both public listings append to their query. *)
Definition category_condition (categoryId : option string) (c : option Z) : bool :=
  match categoryId with
  | Some q =>
    if JS.truthy q then
      if String.eqb q "null" || String.eqb q EmptyString
      then bool_decide (c = None)
      else match c with
           | Some v => bool_decide (int_of_text q = Some v)
           | None => false
           end
    else true
  | None => true
  end.

(** GET /api/available-time-slots. A date text that does not convert is
    refused by the engine and ends in the handler's [catch]. *)
Definition listAvailableTimeSlots (date categoryId : option string) (t : table)
  : response * list (Z * time_slot) :=
  match date with
  | Some date =>
    if negb (JS.truthy date) then (bad_request "Date parameter is required", [])
    else
      let dateOnly :=
        if JS.includes "T" date then default EmptyString (JS.split "T" date !! 0%nat)
        else date in
      match Calendar.date_of_string dateOnly with
      | Some d =>
        let rows :=
          select (fun _ r => (Slots.date r =? d) && available r &&
                             category_condition categoryId (service_category_id r)) t in
        (Response 200 EmptyString, merge_sort by_start_time rows)
      | None => (server_error, [])
      end
  | None => (bad_request "Date parameter is required", [])
  end.

End Handlers.

(** A row of [available_dates]. *)
Record available_date : Type := AvailableDate {
  ad_date : Z;
  ad_service_category_id : option Z;
  ad_is_available : option bool;
  ad_max_appointments : option Z
}.

(** [ORDER BY ad.date ASC] *)
Definition by_date (a b : Z * available_date) : Prop :=
  ad_date a.2 <= ad_date b.2.

#[export] Instance by_date_dec : RelDecision by_date.
Proof. intros a b. unfold by_date. apply _. Defined.

Section Dates.
Context `{SqlEngine}.

(** GET /api/available-dates, with [CURDATE()] as [today]. The rows are
    returned whole; the handler's SELECT formats their date and joins the
    category name. *)
Definition listAvailableDates (today : Z) (categoryId : option string)
    (t : gmap Z available_date) : list (Z * available_date) :=
  let rows :=
    select (fun _ r => bool_decide (ad_is_available r = Some true) &&
                       (today <=? ad_date r) &&
                       category_condition categoryId (ad_service_category_id r)) t in
  merge_sort by_date rows.

End Dates.

(** Two slots share an instant: the half-open rule. *)
Definition overlaps (a b : time_slot) : Prop :=
  start_time a < end_time b /\ start_time b < end_time a.

(** No two distinct available slots of one date and category scope overlap. *)
Definition no_overlap (t : table) : Prop :=
  forall i j a b, i <> j -> t !! i = Some a -> t !! j = Some b ->
    available a = true -> available b = true ->
    date a = date b -> service_category_id a = service_category_id b ->
    ~ overlaps a b.

(** The minute [m] of the day written ['HH:MM'], with a two-digit hour. *)
Definition hhmm_text (m : Z) : string :=
  Calendar.pad 2 (m / 60) +:+ ":" +:+ Calendar.pad 2 (m mod 60).

Definition hhmm_text_ok (m : Z) : bool :=
  JS.truthy (hhmm_text m) && JS.test timeRegex (hhmm_text m) &&
  bool_decide (Calendar.time_of_string (hhmm_text m) = Some (60 * m)) &&
  (if m <? 1439 then JS.str_ltb (hhmm_text m) (hhmm_text (m + 1)) else true).

Definition conflictb (x y : Z * time_slot) : bool :=
  negb (x.1 =? y.1) && available x.2 && available y.2 &&
  (date x.2 =? date y.2) &&
  bool_decide (service_category_id x.2 = service_category_id y.2) &&
  (start_time x.2 <? end_time y.2) && (start_time y.2 <? end_time x.2).

(** [no_overlap] as a check over the stored rows. *)
Definition no_overlapb (t : table) : bool :=
  forallb (fun x => forallb (fun y => negb (conflictb x y)) (map_to_list t))
          (map_to_list t).

End Slots.

(** ** Appointment time normalisation (POST /api/user/appointments) *)
Module Booking.

(** [/^\d{2}:\d{2}(:\d{2})?$/] *)
Definition canonicalTime : JS.regex :=
  JS.Cat JS.digit (JS.Cat JS.digit (JS.Cat (JS.chr ":") (JS.Cat JS.digit (JS.Cat JS.digit
    (JS.Opt (JS.Cat (JS.chr ":") (JS.Cat JS.digit JS.digit))))))).

(** The local [hours] is first a string and, in the PM branch, a number. *)
Inductive hours_val : Type :=
| HStr (s : string)
| HNum (n : JS.num).

Definition hours_toString (h : hours_val) : string :=
  match h with HStr s => s | HNum n => JS.num_toString n end.

(** A destructured array element that may be missing, as a template
    literal prints it. *)
Definition show_elem (o : option string) : string :=
  match o with Some s => s | None => "undefined" end.

(** [convertTo24Hour(time12h)] *)
Definition convertTo24Hour (time12h : string) : string :=
  let parts := JS.split " " (JS.trim time12h) in
  let time := default EmptyString (parts !! 0%nat) in
  let modifier := parts !! 1%nat in
  let hm := JS.split ":" time in
  let hours := default EmptyString (hm !! 0%nat) in
  let minutes := hm !! 1%nat in
  let hours := if String.eqb hours "12" then "00" else hours in
  let hours :=
    match modifier with
    | Some m => if String.eqb m "PM"
                then HNum (JS.num_add (JS.parseInt10 hours) 12)
                else HStr hours
    | None => HStr hours
    end in
  JS.padStart0 2 (hours_toString hours) +:+ ":" +:+ show_elem minutes +:+ ":00".

(** [extractStartTime(timeInput)] on a string input. *)
Definition extractStartTime (timeInput : string) : string :=
  if negb (JS.truthy timeInput) then timeInput
  else if JS.test canonicalTime timeInput then timeInput
  else
    let startTimeStr := default EmptyString (JS.split " - " timeInput !! 0%nat) in
    convertTo24Hour startTimeStr.

(** Shapes of input used to state what the normaliser does. *)
Definition hhmm (a b c d : ascii) : string :=
  String a (String b (String ":" (String c (String d EmptyString)))).

Definition hhmmss (a b c d e f : ascii) : string :=
  String a (String b (String ":" (String c (String d
    (String ":" (String e (String f EmptyString))))))).

Definition two_digits (z : Z) : string := JS.padStart0 2 (JS.number_toString z).

Definition meridiem (pm : bool) : string := if pm then "PM" else "AM".

(** A 12-hour display range whose start is [h:mm AM|PM]; [pad] writes the
    hour with two digits, [rest] is whatever follows the first [" - "]. *)
Definition display_range (pad : bool) (h m : Z) (pm : bool) (rest : string) : string :=
  (if pad then two_digits h else JS.number_toString h) +:+ ":" +:+ two_digits m
    +:+ " " +:+ meridiem pm +:+ " - " +:+ rest.

(** Hour of the day for a 12-hour clock reading. *)
Definition hour24 (h : Z) (pm : bool) : Z := h mod 12 + (if pm then 12 else 0).

Definition zrange (lo : Z) (n : nat) : list Z :=
  map (fun i => lo + Z.of_nat i) (seq 0 n).

Definition display_range_ok (rest : string) (pad : bool) (h m : Z) (pm : bool) : bool :=
  String.eqb (extractStartTime (display_range pad h m pm rest))
             (two_digits (hour24 h pm) +:+ ":" +:+ two_digits m +:+ ":00").

End Booking.

(** ** Appointments and payments *)
Module Appointments.
Import Http.

(** A row of [appointments]; the descriptive columns that the handlers
    below copy verbatim (notes, room and property descriptors, fees) are
    left out. *)
Record appointment : Type := Appointment {
  user_id : Z;
  service : string;
  appointment_date : Z;              (* DATE NOT NULL, as a day number *)
  appointment_time : Z;              (* TIME NOT NULL, in seconds *)
  status : option string;            (* ENUM, DEFAULT 'pending' *)
  location : string;                 (* JSON text *)
  price : Z                          (* DECIMAL(10,2), in hundredths *)
}.

(** A row of [payments], with the columns the webhook reads or writes. *)
Record payment : Type := Payment {
  order_id : string;
  payment_id : string;
  pay_status : option string
}.

Record db : Type := Db {
  payments : gmap Z payment;
  appointments : gmap Z appointment
}.

Definition appointment_statuses : list string :=
  ["pending"; "confirmed"; "in-progress"; "completed"; "cancelled"].

Definition payment_statuses : list string :=
  ["pending"; "completed"; "failed"; "cancelled"].

Definition member (s : string) (l : list string) : bool :=
  existsb (String.eqb s) l.

Definition set_status (v : option string) (a : appointment) : appointment :=
  Appointment (user_id a) (service a) (appointment_date a) (appointment_time a)
              v (location a) (price a).

Definition set_date (d : Z) (a : appointment) : appointment :=
  Appointment (user_id a) (service a) d (appointment_time a)
              (status a) (location a) (price a).

Definition set_time (t : Z) (a : appointment) : appointment :=
  Appointment (user_id a) (service a) (appointment_date a) t
              (status a) (location a) (price a).

Definition set_pay_status (v : option string) (p : payment) : payment :=
  Payment (order_id p) (payment_id p) v.

(** *** POST /api/user/appointments *)
Record create_body : Type := CreateBody {
  cb_service : field string;
  cb_appointment_date : field string;
  cb_appointment_time : field string;
  cb_location : field string;        (* the location object, as JSON text *)
  cb_price : field Z;
  cb_status : field string
}.

(** [extractStartTime] applied to the property: a missing or null value
    is returned as it is. *)
Definition formatted_time (f : field string) : field string :=
  match f with
  | Val s => Val (Booking.extractStartTime s)
  | other => other
  end.

Definition createAppointment (uid : Z) (b : create_body)
    (t : gmap Z appointment) : response * gmap Z appointment :=
  let formattedTime := formatted_time (cb_appointment_time b) in
  match cb_service b, cb_appointment_date b, cb_appointment_time b,
        cb_location b, cb_price b with
  | Val service, Val appointment_date, Val appointment_time, Val location, Val price =>
    if negb (JS.truthy service) || negb (JS.truthy appointment_date)
       || negb (JS.truthy appointment_time) || (price =? 0)
    then (Response 400 "All required fields must be provided", t)
    else
      match Calendar.Date_parse appointment_date with
      | None =>
        (Response 400 "Invalid date format. Please provide date in YYYY-MM-DD format", t)
      | Some ms =>
        let formattedDate := Calendar.date_part (Calendar.toISOString ms) in
        let status := Slots.or_else (cb_status b) "pending" in
        match Calendar.date_of_string formattedDate,
              bind formattedTime ≫= (fun o => o ≫= Calendar.time_of_string) with
        | Some d, Some tm =>
          if member status appointment_statuses
          then (Response 201 "Appointment created successfully",
                <[Slots.next_id t := Appointment uid service d tm (Some status)
                                                 location price]> t)
          else (Response 500 "Server error during appointment creation", t)
        | _, _ =>
          (Response 400 "Invalid time format provided. Please select a valid time slot.", t)
        end
      end
  | _, _, _, _, _ => (Response 400 "All required fields must be provided", t)
  end.

(** *** GET /api/user/appointments/:id

    The row as [res.json] sends it. The pool is created without
    [dateStrings] or [timezone], so the driver hands a DATE column to
    JavaScript as a [Date] at local midnight, which JSON prints through
    [toISOString]; a TIME column arrives as text. [tz] is the server's
    offset from UTC in minutes. *)
Record appointment_json : Type := AppointmentJson {
  j_id : Z;
  j_user_id : Z;
  j_service : string;
  j_appointment_date : string;
  j_appointment_time : string;
  j_status : option string;
  j_location : string;
  j_price : Z
}.

Definition to_json (tz : Z) (id : Z) (a : appointment) : appointment_json :=
  AppointmentJson id (user_id a) (service a)
    (Calendar.toISOString (Calendar.local_midnight tz (appointment_date a)))
    (Calendar.time_to_string (appointment_time a))
    (status a) (location a) (price a).

(** Bound statement parameters. *)
Inductive sqlval : Type :=
| VText (s : string)
| VInt (z : Z).

(** [s.slice(0, -2)] *)
Definition slice_0_minus2 (s : string) : string :=
  JS.rev (JS.drop 2 (JS.rev s)).

Record patch : Type := Patch {
  p_status : field string;
  p_appointment_date : field string;
  p_appointment_time : field string
}.

(** The statement text and values that PUT /api/user/appointments/:id
    assembles. *)
Definition add_field (col : string) (f : field string)
    (acc : string * list sqlval) : string * list sqlval :=
  match f with
  | Val v => if JS.truthy v
             then (acc.1 +:+ col +:+ " = ?, ", (acc.2 ++ [VText v])%list)
             else acc
  | _ => acc
  end.

Definition build_update (id : string) (uid : Z) (p : patch) : string * list sqlval :=
  let acc := ("UPDATE appointments SET ", []) in
  let acc := add_field "status" (p_status p) acc in
  let acc := add_field "appointment_date" (p_appointment_date p) acc in
  let acc := add_field "appointment_time" (p_appointment_time p) acc in
  (slice_0_minus2 acc.1 +:+ " WHERE id = ? AND user_id = ?",
   (acc.2 ++ [VText id; VInt uid])%list).

(** The engine's reading of such a statement: the keyword SET must follow
    the table name and introduce at least one assignment [col = ?] to a
    column of the table, then the WHERE clause. [None] is a syntax error. *)
Definition parse_assignment (a : string) : option string :=
  match JS.split " = " a with
  | [col; "?"] =>
    if member col ["status"; "appointment_date"; "appointment_time"]
    then Some col else None
  | _ => None
  end.

Definition parse_update (q : string) : option (list string) :=
  if JS.startsWith "UPDATE appointments SET " q then
    match JS.split " WHERE " (JS.drop 24 q) with
    | [assigns; cond] =>
      if String.eqb cond "id = ? AND user_id = ?"
      then mapM parse_assignment (JS.split ", " assigns)
      else None
    | _ => None
    end
  else None.

(** One assignment applied to a row; [None] when the value does not
    convert to the column type. *)
Definition assign (col : string) (v : sqlval) (a : appointment) : option appointment :=
  match v with
  | VText x =>
    if String.eqb col "status" then
      if member x appointment_statuses then Some (set_status (Some x) a) else None
    else if String.eqb col "appointment_date" then
      (fun d => set_date d a) <$> Calendar.date_of_string x
    else if String.eqb col "appointment_time" then
      (fun tm => set_time tm a) <$> Calendar.time_of_string x
    else None
  | VInt _ => None
  end.

Fixpoint assign_all (cols : list string) (vals : list sqlval) (a : appointment)
  : option appointment :=
  match cols, vals with
  | [], _ => Some a
  | c :: cols', v :: vals' => assign c v a ≫= assign_all cols' vals'
  | _ :: _, [] => None
  end.

Section Handlers.
Context `{SqlEngine}.

(** [SELECT ... FROM appointments WHERE id = ? AND user_id = ?] *)
Definition select_owned (id : string) (uid : Z) (t : gmap Z appointment)
  : option (Z * appointment) :=
  k ← int_of_text id;
  a ← t !! k;
  if user_id a =? uid then Some (k, a) else None.

Definition getAppointment (tz : Z) (uid : Z) (id : string)
    (t : gmap Z appointment) : response * option appointment_json :=
  match select_owned id uid t with
  | Some (k, a) => (Response 200 EmptyString, Some (to_json tz k a))
  | None => (Response 404 "Appointment not found or not authorized", None)
  end.

(** [pool.execute(updateQuery, updateValues)] for the statements above;
    [None] is a rejected promise. *)
Definition execute_update (q : string) (vals : list sqlval)
    (t : gmap Z appointment) : option (gmap Z appointment) :=
  cols ← parse_update q;
  match List.skipn (List.length cols) vals with
  | [VText id; VInt uid] =>
    if strict_ok id then
      match select_owned id uid t with
      | Some (k, a) => (fun a' => <[k := a']> t) <$> assign_all cols vals a
      | None => Some t
      end
    else None
  | _ => None
  end.

(** PUT /api/user/appointments/:id *)
Definition updateAppointment (uid : Z) (id : string) (p : patch)
    (t : gmap Z appointment) : response * gmap Z appointment :=
  match select_owned id uid t with
  | None => (Response 404 "Appointment not found or not authorized", t)
  | Some _ =>
    let '(updateQuery, updateValues) := build_update id uid p in
    match execute_update updateQuery updateValues t with
    | Some t' => (Response 200 "Appointment updated successfully", t')
    | None => (Response 500 "Server error", t)
    end
  end.

(** *** POST /api/payments/ziina/webhook

    The three properties the handler destructures; when present they are
    texts. *)
Record webhook_body : Type := WebhookBody {
  wb_payment_id : field string;
  wb_status : field string;
  wb_order_id : field string
}.

(** The statements the handler sends, with their bound values. *)
Inductive statement : Type :=
| UpdatePaymentStatus (status payment_id : option string)
| ConfirmAppointment (appointmentId : string).

(** [UPDATE payments SET status = ? WHERE payment_id = ?] *)
Definition update_payment_status (st pid : option string)
    (ps : gmap Z payment) : option (gmap Z payment) :=
  let valid := match st with Some x => member x payment_statuses | None => true end in
  if valid then
    Some (match pid with
          | Some x => (fun p => if text_eq (payment_id p) x
                                then set_pay_status st p else p) <$> ps
          | None => ps
          end)
  else None.

(** [UPDATE appointments SET status = 'confirmed' WHERE id = ?] *)
Definition confirm_appointment (appointmentId : string)
    (t : gmap Z appointment) : option (gmap Z appointment) :=
  if strict_ok appointmentId then
    Some (match int_of_text appointmentId with
          | Some k => alter (set_status (Some "confirmed")) k t
          | None => t
          end)
  else None.

Definition webhook_error : response := Response 500 "Internal server error".

(** The handler returns its response, the tables as it leaves them and
    the statements it sent, in order. There is no transaction: a failure
    of the second statement keeps the effect of the first. *)
Definition ziinaWebhook (b : webhook_body) (d : db)
  : response * db * list statement :=
  match bind (wb_status b), bind (wb_payment_id b) with
  | Some st, Some pid =>
    let log := [UpdatePaymentStatus st pid] in
    match update_payment_status st pid (payments d) with
    | None => (webhook_error, d, log)
    | Some ps =>
      let d1 := Db ps (appointments d) in
      match wb_status b, wb_order_id b with
      | Val status, Val order_id =>
        if String.eqb status "completed" && JS.truthy order_id then
          let appointmentId := JS.replace "appointment_" EmptyString order_id in
          let log := (log ++ [ConfirmAppointment appointmentId])%list in
          match confirm_appointment appointmentId (appointments d) with
          | Some t' => (Response 200 "Webhook processed successfully", Db ps t', log)
          | None => (webhook_error, d1, log)
          end
        else (Response 200 "Webhook processed successfully", d1, log)
      | _, _ => (Response 200 "Webhook processed successfully", d1, log)
      end
    end
  | _, _ => (webhook_error, d, [])
  end.

End Handlers.

(** A property that is present: [null] or a value. *)
Definition present {A} (o : option A) : field A :=
  match o with Some a => Val a | None => Null end.

(** The body of a completed-payment notification for appointment [id],
    with a payment_id that is a text or null. *)
Definition completed_for (pid : option string) (id : Z) : webhook_body :=
  WebhookBody (present pid) (Val "completed")
              (Val ("appointment_" +:+ JS.number_toString id)).


End Appointments.

(** ** Sample data *)
Module Sample.
Import Http Slots.

(** The OTP map after one send to 971501234567 at clock value 1000. *)
Definition demo_store : gmap string Otp.otp_entry :=
  Otp.storeOTP 1000 "971501234567" "123456" ∅.

(** 2025-03-10 *)
Definition day : string := "2025-03-10".

Definition slot (s e : Z) (av : bool) (cat : option Z) : time_slot :=
  TimeSlot s e (Some av) (Some 0) 20157 cat.

(** One available slot 09:00-09:30. *)
Definition morning : table := {[ 1 := slot 32400 34200 true None ]}.

(** One available slot 09:00-11:00. *)
Definition long_morning : table := {[ 1 := slot 32400 39600 true None ]}.

(** 09:00-09:30 uncategorised and 10:00-10:30 for category 7. *)
Definition mixed : table :=
  <[ 2 := slot 36000 37800 true (Some 7) ]> morning.

Definition create_req (s e : string) : create_body :=
  CreateBody (Val s) (Val e) (Val true) Absent (Val day) Null.





(** Dates: 2025-03-10 uncategorised and 2025-03-11 for category 7. *)
Definition dates : gmap Z available_date :=
  <[ 2 := AvailableDate 20158 (Some 7) (Some true) (Some 10) ]>
    {[ 1 := AvailableDate 20157 None (Some true) (Some 10) ]}.

Definition booking : Appointments.appointment :=
  Appointments.Appointment 5 "Deep cleaning" 20157 50400 (Some "pending")
    "{}" 25000.

Definition booked : gmap Z Appointments.appointment := {[ 42 := booking ]}.

Definition booking_req : Appointments.create_body :=
  Appointments.CreateBody (Val "Deep cleaning") (Val day) (Val "2:00 PM - 2:30 PM")
    (Val "{}") (Val 25000) Absent.

End Sample.

(** ** services/otpService.js: the send paths *)
Module OtpSend.
Import Otp.

(** [const TEST_MODE = false] and [const TEST_OTP = '123456'] *)
Definition TEST_MODE : bool := false.
Definition TEST_OTP : string := "123456".

(** [await client.messages.create(...)]: the promise resolves with a
    message that has a [sid], or rejects with an error that has a
    [message]. *)
Inductive delivery : Type :=
| Delivered (sid : string)
| Rejected (error : string).

Inductive channel : Type := WhatsApp | Sms.

(** A message handed to [client.messages.create]: its channel, the [to]
    address and the code written into it. *)
Record sent_message : Type := SentMessage {
  sm_channel : channel;
  sm_to : string;
  sm_code : string
}.

(** The object a send function returns. *)
Record send_result : Type := SendResult {
  sr_success : bool;
  sr_message : string;
  sr_messageId : option string;
  sr_method : option string;
  sr_error : option string;
  sr_fallbackUsed : bool;
  sr_testOtp : option string
}.

(** [sendWhatsAppOTP(phoneNumber)] with the value of [generateOTP()], the
    reading of [Date.now()] and the outcome of the delivery made explicit.
    The entry is written before the message is handed over, so it stays
    when the delivery is rejected. *)
Definition sendWhatsAppOTP (now : Z) (code : string) (d : delivery)
    (phoneNumber : string) (otpStorage : gmap string otp_entry)
  : send_result * gmap string otp_entry * list sent_message :=
  let formattedPhone := formatPhone phoneNumber in
  let otpStorage := <[formattedPhone := OtpEntry code (now + 5 * 60 * 1000) 0]> otpStorage in
  let sent := [SentMessage WhatsApp ("whatsapp:" +:+ formattedPhone) code] in
  match d with
  | Delivered sid =>
    (SendResult true "WhatsApp OTP sent successfully" (Some sid) (Some "whatsapp")
                None false None, otpStorage, sent)
  | Rejected err =>
    (SendResult false "Failed to send WhatsApp OTP" None (Some "whatsapp")
                (Some err) false None, otpStorage, sent)
  end.

(** [sendSMSOTP(phoneNumber)] *)
Definition sendSMSOTP (now : Z) (code : string) (d : delivery)
    (phoneNumber : string) (otpStorage : gmap string otp_entry)
  : send_result * gmap string otp_entry * list sent_message :=
  let formattedPhone := formatPhone phoneNumber in
  let otpStorage := <[formattedPhone := OtpEntry code (now + 5 * 60 * 1000) 0]> otpStorage in
  let sent := [SentMessage Sms formattedPhone code] in
  match d with
  | Delivered sid =>
    (SendResult true "SMS OTP sent successfully" (Some sid) (Some "sms")
                None false None, otpStorage, sent)
  | Rejected err =>
    (SendResult false "Failed to send SMS OTP" None (Some "sms")
                (Some err) false None, otpStorage, sent)
  end.

(** [sendOTP(phoneNumber)]: WhatsApp first, SMS as fallback. [clock k] and
    [codes k] are the [k]-th reading of [Date.now()] and the [k]-th value
    of [generateOTP()] during the call; [wa] and [sms] are the outcomes of
    the two deliveries. *)
Definition sendOTP (clock : nat -> Z) (codes : nat -> string) (wa sms : delivery)
    (phoneNumber : string) (otpStorage : gmap string otp_entry)
  : send_result * gmap string otp_entry * list sent_message :=
  let formattedPhone := formatPhone phoneNumber in
  if TEST_MODE then
    (SendResult true "OTP sent successfully (Test Mode)"
                (Some ("test_" +:+ JS.number_toString (clock 1%nat))) None None false
                (Some TEST_OTP),
     <[formattedPhone := OtpEntry TEST_OTP (clock 0%nat + 5 * 60 * 1000) 0]> otpStorage,
     [])
  else
    let '(whatsappResult, st1, out1) :=
      sendWhatsAppOTP (clock 0%nat) (codes 0%nat) wa formattedPhone otpStorage in
    if sr_success whatsappResult then (whatsappResult, st1, out1)
    else
      let '(smsResult, st2, out2) :=
        sendSMSOTP (clock 1%nat) (codes 1%nat) sms formattedPhone st1 in
      if sr_success smsResult then
        (SendResult true (sr_message smsResult +:+ " (SMS fallback used)")
                    (sr_messageId smsResult) (sr_method smsResult) (sr_error smsResult)
                    true None,
         st2, (out1 ++ out2)%list)
      else
        (SendResult false "Failed to send OTP via WhatsApp and SMS" None None None
                    false None,
         st2, (out1 ++ out2)%list).

Definition delivered (d : delivery) : bool :=
  match d with Delivered _ => true | Rejected _ => false end.

(** The outcomes of a series of [verifyOTP] calls for one phone. *)
Fixpoint verify_outcomes (calls : list (Z * string)) (phoneNumber : string)
    (otpStorage : gmap string otp_entry) : list verify_outcome :=
  match calls with
  | [] => []
  | (now, code) :: rest =>
    let r := verifyOTP now phoneNumber code otpStorage in
    r.1 :: verify_outcomes rest phoneNumber r.2
  end.

Definition is_verified (r : verify_outcome) : bool :=
  match r with Verified => true | _ => false end.

Definition is_mismatch (r : verify_outcome) : bool :=
  match r with Mismatch _ => true | _ => false end.

(** What is left of the three attempts of the entry stored for a phone. *)
Definition attempts_left (phoneNumber : string) (otpStorage : gmap string otp_entry) : Z :=
  match otpStorage !! formatPhone phoneNumber with
  | Some e => Z.max 0 (3 - attempts e)
  | None => 0
  end.

End OtpSend.

(** ** Access control: the middleware in front of the handlers *)
Module Access.
Import Http.

(** A row of [users] with the columns the middleware and the login routes
    read. *)
Record user : Type := User {
  phone : string;                    (* VARCHAR(20) UNIQUE NOT NULL *)
  fullName : string;
  email : string;                    (* VARCHAR(100) UNIQUE NOT NULL *)
  password : string;                 (* the stored hash *)
  role : option string               (* ENUM, DEFAULT 'user' *)
}.

(** A middleware either calls [next()], having left a value on the
    request, or sends a response. *)
Inductive outcome (A : Type) : Type :=
| Next (a : A)
| Reply (r : response).
Arguments Next {A} a.
Arguments Reply {A} r.

Section Guards.
(** [jwt.verify(token, JWT_SECRET, ...)] at the time of the request: the
    [id] in the payload of a token that verifies, [None] for an error. *)
Variable jwt_verify : string -> option Z.

(** A text without a blank. *)
Definition no_space (s : string) : Prop :=
  Forall (fun c => c <> " "%char) (list_ascii_of_string s).

(** [authHeader && authHeader.split(' ')[1]] *)
Definition token_of (authHeader : option string) : option string :=
  match authHeader with
  | Some h => if JS.truthy h then JS.split " " h !! 1%nat else Some h
  | None => None
  end.

(** [authenticateToken(req, res, next)]; on [next()] the request carries
    [req.user], of which the handlers read [id]. *)
Definition authenticateToken (authHeader : option string) : outcome Z :=
  match token_of authHeader with
  | Some token =>
    if JS.truthy token then
      match jwt_verify token with
      | Some id => Next id
      | None => Reply (Response 403 "Invalid or expired token")
      end
    else Reply (Response 401 "Authentication required")
  | None => Reply (Response 401 "Authentication required")
  end.

(** [isSuperAdmin(req, res, next)]; [pool] is [None] before the database
    is initialised. *)
Definition isSuperAdmin (id : Z) (pool : option (gmap Z user)) : outcome Z :=
  match pool with
  | None => Reply (Response 500 "Database not available")
  | Some users =>
    match users !! id with
    | None => Reply (Response 404 "User not found")
    | Some row =>
      if negb (bool_decide (role row = Some "super_admin"))
      then Reply (Response 403 "Super admin access required")
      else Next id
    end
  end.

(** [isAdmin(req, res, next)] *)
Definition isAdmin (id : Z) (pool : option (gmap Z user)) : outcome Z :=
  match pool with
  | None => Reply (Response 500 "Database not available")
  | Some users =>
    match users !! id with
    | None => Reply (Response 404 "User not found")
    | Some row =>
      if negb (bool_decide (role row = Some "admin")) &&
         negb (bool_decide (role row = Some "super_admin"))
      then Reply (Response 403 "Admin access required")
      else Next id
    end
  end.

(** The middleware lists that the route registrations use. *)
Inductive access : Type := Public | LoggedIn | Admin | SuperAdmin.

(** The middleware of a registration, run in order; a public route has no
    [req.user]. *)
Definition guard (a : access) (authHeader : option string)
    (pool : option (gmap Z user)) : outcome (option Z) :=
  match a with
  | Public => Next None
  | LoggedIn =>
    match authenticateToken authHeader with
    | Next id => Next (Some id)
    | Reply r => Reply r
    end
  | Admin =>
    match authenticateToken authHeader with
    | Next id =>
      match isAdmin id pool with
      | Next id => Next (Some id)
      | Reply r => Reply r
      end
    | Reply r => Reply r
    end
  | SuperAdmin =>
    match authenticateToken authHeader with
    | Next id =>
      match isSuperAdmin id pool with
      | Next id => Next (Some id)
      | Reply r => Reply r
      end
    | Reply r => Reply r
    end
  end.

End Guards.

End Access.

(** ** The route table

    Every [app.get], [app.post], [app.put] and [app.delete] of the server
    file in the order of registration, with its source line, its path and
    its middleware. A request goes to the first registration whose path
    and method match; no handler and no middleware passes a request on to
    a later registration. The path of a request is its URL up to the query
    string; a HEAD request is routed as GET, and OPTIONS requests are
    answered by the middleware in front of the router. *)
Module Router.
Import Access.

Inductive method : Type := GET | POST | PUT | DELETE.

Definition method_eqb (a b : method) : bool :=
  match a, b with
  | GET, GET | POST, POST | PUT, PUT | DELETE, DELETE => true
  | _, _ => false
  end.

Record route : Type := Route {
  r_line : Z;
  r_method : method;
  r_path : string;
  r_access : access
}.

Definition routes : list route := [
  Route 65 GET "/api/health" Public;
  Route 102 GET "/api/test-auth" LoggedIn;
  Route 118 GET "/api/debug/db-config" LoggedIn;
  Route 156 GET "/api/test-cors" Public;
  Route 1350 POST "/api/auth/send-otp" Public;
  Route 1412 POST "/api/auth/verify-otp" Public;
  Route 1465 POST "/api/auth/check-phone" Public;
  Route 1483 POST "/api/auth/register" Public;
  Route 1549 POST "/api/auth/login" Public;
  Route 1592 GET "/api/user/profile" LoggedIn;
  Route 1608 PUT "/api/user/profile" LoggedIn;
  Route 1656 GET "/api/user/appointments" LoggedIn;
  Route 1676 GET "/api/user/appointments/:id" LoggedIn;
  Route 1702 GET "/api/user/appointments/upcoming" LoggedIn;
  Route 1722 GET "/api/user/appointments/past" LoggedIn;
  Route 1744 POST "/api/payments/ziina/create" LoggedIn;
  Route 1855 GET "/api/payments/ziina/status/:paymentId" LoggedIn;
  Route 1912 POST "/api/payments/ziina/webhook" Public;
  Route 1942 POST "/api/user/appointments" LoggedIn;
  Route 2149 PUT "/api/user/appointments/:id" LoggedIn;
  Route 2203 GET "/api/user/addresses" LoggedIn;
  Route 2218 POST "/api/user/addresses" LoggedIn;
  Route 2273 PUT "/api/user/addresses/:id" LoggedIn;
  Route 2367 DELETE "/api/user/addresses/:id" LoggedIn;
  Route 2412 GET "/api/user/support-tickets" LoggedIn;
  Route 2427 POST "/api/user/support-tickets" LoggedIn;
  Route 2455 GET "/api/available-dates" Public;
  Route 2505 GET "/api/available-time-slots" Public;
  Route 2554 GET "/api/admin/available-dates" Admin;
  Route 2587 POST "/api/admin/available-dates" Admin;
  Route 2614 PUT "/api/admin/available-dates/:id" Admin;
  Route 2657 DELETE "/api/admin/available-dates/:id" Admin;
  Route 2671 GET "/api/admin/available-time-slots" Admin;
  Route 2715 POST "/api/admin/available-time-slots" Admin;
  Route 2779 PUT "/api/admin/available-time-slots/:id" Admin;
  Route 2867 DELETE "/api/admin/available-time-slots/:id" Admin;
  Route 2881 GET "/api/admin/appointments" Admin;
  Route 2903 PUT "/api/admin/appointments/:id/status" Admin;
  Route 2927 GET "/api/admin/users" Admin;
  Route 2952 PUT "/api/admin/users/:id" Admin;
  Route 2996 DELETE "/api/admin/users/:id" Admin;
  Route 3019 GET "/api/user/profile" LoggedIn;
  Route 3041 PUT "/api/user/profile" LoggedIn;
  Route 3083 PUT "/api/user/change-password" LoggedIn;
  Route 3133 GET "/api/user/addresses" LoggedIn;
  Route 3151 POST "/api/user/addresses" LoggedIn;
  Route 3183 PUT "/api/user/addresses/:id" LoggedIn;
  Route 3227 DELETE "/api/user/addresses/:id" LoggedIn;
  Route 3258 GET "/api/user/support-tickets" LoggedIn;
  Route 3275 POST "/api/user/support-tickets" LoggedIn;
  Route 3302 GET "/api/user/support-tickets/:id" LoggedIn;
  Route 3326 GET "/api/admin/support-tickets" Admin;
  Route 3367 PUT "/api/admin/support-tickets/:id/status" Admin;
  Route 3396 PUT "/api/admin/support-tickets/:id/response" Admin;
  Route 3424 PUT "/api/admin/support-tickets/:id/priority" Admin;
  Route 3452 GET "/api/admin/support-tickets/stats" Admin;
  Route 3477 GET "/api/superadmin/system-stats" SuperAdmin;
  Route 3524 GET "/api/superadmin/api-configs" SuperAdmin;
  Route 3540 POST "/api/superadmin/api-configs" SuperAdmin;
  Route 3579 GET "/api/config/:service" Public;
  Route 3606 GET "/api/superadmin/users" SuperAdmin;
  Route 3651 POST "/api/superadmin/impersonate" SuperAdmin;
  Route 3715 POST "/api/superadmin/create-user" SuperAdmin;
  Route 3779 POST "/api/superadmin/exit-impersonation" LoggedIn;
  Route 3824 GET "/api/superadmin/profile" SuperAdmin;
  Route 3869 PUT "/api/superadmin/profile/personal" SuperAdmin;
  Route 3904 PUT "/api/superadmin/profile/address" SuperAdmin;
  Route 3931 PUT "/api/superadmin/profile/password" SuperAdmin;
  Route 3975 GET "/api/admin/profile" Admin;
  Route 4020 PUT "/api/admin/profile/personal" Admin;
  Route 4055 PUT "/api/admin/profile/address" Admin;
  Route 4082 PUT "/api/admin/profile/password" Admin;
  Route 4126 GET "/api/test/appointments-table" Public;
  Route 4158 GET "/api/service-items/:categorySlug" Public;
  Route 4178 GET "/api/service-item/:slug" Public;
  Route 4201 GET "/api/service-pricing-filtered/:serviceSlug" Public;
  Route 4251 GET "/api/service-categories" Public;
  Route 4265 GET "/api/service-items" Public;
  Route 4283 GET "/api/admin/service-items/by-category/:categoryId" Public;
  Route 4302 GET "/api/admin/service-items" Public;
  Route 4318 POST "/api/admin/service-items" Public;
  Route 4333 PUT "/api/admin/service-items/:id" Public;
  Route 4350 DELETE "/api/admin/service-items/:id" Public;
  Route 4362 GET "/api/service-items-category" Public;
  Route 4428 GET "/api/admin/service-items-category" Public;
  Route 4454 GET "/api/test/service-items-category-table" Public;
  Route 4472 POST "/api/admin/service-items-category" Public;
  Route 4487 PUT "/api/admin/service-items-category/:id" Public;
  Route 4504 DELETE "/api/admin/service-items-category/:id" Public;
  Route 4516 GET "/api/service-items-category/:categoryId/property-types" Public;
  Route 4534 GET "/api/service-items-category-property-types/:categorySlug" Public;
  Route 4553 PUT "/api/admin/service-items-category/:id/property-types" Public;
  Route 4592 GET "/api/property-types" Public;
  Route 4606 GET "/api/property-types/:propertyId/room-types" Public;
  Route 4623 GET "/api/service-pricing" Public;
  Route 4672 GET "/api/admin/service-categories" Admin;
  Route 4686 POST "/api/admin/service-categories" Admin;
  Route 4716 PUT "/api/admin/service-categories/:id" Admin;
  Route 4748 DELETE "/api/admin/service-categories/:id" Admin;
  Route 4774 GET "/api/admin/property-types" Admin;
  Route 4788 POST "/api/admin/property-types" Admin;
  Route 4818 PUT "/api/admin/property-types/:id" Admin;
  Route 4850 DELETE "/api/admin/property-types/:id" Admin;
  Route 4887 GET "/api/admin/room-types" Admin;
  Route 4909 GET "/api/admin/page-contents/:slug" Admin;
  Route 4922 PUT "/api/admin/page-contents/:slug" Admin;
  Route 4949 GET "/api/faqs" Public;
  Route 4981 GET "/api/admin/faqs" Admin;
  Route 4994 POST "/api/admin/faqs" Admin;
  Route 5018 PUT "/api/admin/faqs/:id" Admin;
  Route 5040 DELETE "/api/admin/faqs/:id" Admin;
  Route 5053 GET "/api/terms" Public;
  Route 5066 GET "/api/admin/terms" Admin;
  Route 5077 POST "/api/admin/terms" Admin;
  Route 5101 PUT "/api/admin/terms/:id" Admin;
  Route 5123 DELETE "/api/admin/terms/:id" Admin;
  Route 5136 GET "/api/privacy-policy" Public;
  Route 5149 GET "/api/admin/privacy-policy" Admin;
  Route 5160 POST "/api/admin/privacy-policy" Admin;
  Route 5184 PUT "/api/admin/privacy-policy/:id" Admin;
  Route 5206 DELETE "/api/admin/privacy-policy/:id" Admin;
  Route 5219 GET "/api/sitemap" Public;
  Route 5245 GET "/api/admin/sitemap" Admin;
  Route 5256 POST "/api/admin/sitemap" Admin;
  Route 5280 PUT "/api/admin/sitemap/:id" Admin;
  Route 5302 DELETE "/api/admin/sitemap/:id" Admin;
  Route 5315 GET "/api/careers" Public;
  Route 5328 GET "/api/admin/careers" Admin;
  Route 5339 POST "/api/admin/careers" Admin;
  Route 5363 PUT "/api/admin/careers/:id" Admin;
  Route 5385 DELETE "/api/admin/careers/:id" Admin;
  Route 5398 GET "/api/faqs" Public;
  Route 5424 GET "/api/admin/faqs" Admin;
  Route 5435 POST "/api/admin/faqs" Admin;
  Route 5459 PUT "/api/admin/faqs/:id" Admin;
  Route 5481 DELETE "/api/admin/faqs/:id" Admin;
  Route 5494 GET "/api/terms" Public;
  Route 5507 GET "/api/admin/terms" Admin;
  Route 5518 POST "/api/admin/terms" Admin;
  Route 5542 PUT "/api/admin/terms/:id" Admin;
  Route 5564 DELETE "/api/admin/terms/:id" Admin;
  Route 5576 POST "/api/admin/room-types" Admin;
  Route 5612 PUT "/api/admin/room-types/:id" Admin;
  Route 5646 GET "/api/admin/service-pricing" Admin;
  Route 5674 POST "/api/admin/service-pricing" Admin;
  Route 5715 PUT "/api/admin/service-pricing/:id" Admin;
  Route 5749 DELETE "/api/admin/service-pricing/:id" Admin;
  Route 5866 GET "/api/website-settings" Public;
  Route 5900 GET "/api/admin/website-settings" SuperAdmin;
  Route 5930 PUT "/api/admin/website-settings" SuperAdmin
].

(** Paths are matched without regard to case. *)
Definition lower (c : ascii) : ascii :=
  let n := nat_of_ascii c in
  if ((65 <=? n) && (n <=? 90))%nat then ascii_of_nat (n + 32) else c.

Fixpoint lower_string (s : string) : string :=
  match s with
  | EmptyString => EmptyString
  | String c s' => String (lower c) (lower_string s')
  end.

Definition is_param (seg : string) : bool :=
  match seg with String ":" _ => true | _ => false end.

(** A segment [:name] of a pattern stands for any non-empty text without
    a slash; any other segment stands for itself. *)
Definition seg_matches (pat seg : string) : bool :=
  if is_param pat then JS.truthy seg
  else String.eqb (lower_string pat) (lower_string seg).

(** The segments of the path against those of the pattern; one trailing
    slash is allowed. *)
Fixpoint segs_match (pat segs : list string) : bool :=
  match pat, segs with
  | [], [] => true
  | [], [s] => negb (JS.truthy s)
  | p :: pat', s :: segs' => seg_matches p s && segs_match pat' segs'
  | _, _ => false
  end.

(** Whether the path of a request (the URL up to the query string) matches
    the path of a registration. *)
Definition path_matches (pattern path : string) : bool :=
  match JS.split "/" pattern, JS.split "/" path with
  | EmptyString :: pat, EmptyString :: segs => segs_match pat segs
  | _, _ => false
  end.

Definition route_matches (m : method) (path : string) (r : route) : bool :=
  method_eqb (r_method r) m && path_matches (r_path r) path.

(** The first registration whose path and method match. *)
Fixpoint first_match (i : nat) (rs : list route) (m : method) (path : string)
  : option nat :=
  match rs with
  | [] => None
  | r :: rs' =>
    if route_matches m path r then Some i else first_match (S i) rs' m path
  end.

(** The text matched by a parameter is decoded with [decodeURIComponent];
    [decodes] says whether that succeeds. *)
Fixpoint params_decode (decodes : string -> bool) (pat segs : list string) : bool :=
  match pat, segs with
  | p :: pat', s :: segs' =>
    (if is_param p then decodes s else true) && params_decode decodes pat' segs'
  | _, _ => true
  end.

Inductive layer_match : Type := NoMatch | Matched | BadParam.

(** One registration against the path: no match, a match, or a match
    whose parameter does not decode. *)
Definition match_layer (decodes : string -> bool) (pattern path : string) : layer_match :=
  if path_matches pattern path then
    if params_decode decodes (List.tl (JS.split "/" pattern)) (List.tl (JS.split "/" path))
    then Matched else BadParam
  else NoMatch.

(** Where a request ends up. *)
Inductive routed : Type :=
| Served (i : nat)      (* the handlers of registration [i] run *)
| BadRequest            (* a parameter did not decode: 400 *)
| NotFound.             (* no registration matched: 404 *)

(** The loop of the router over the registrations in order. A decoding
    error is held while the loop goes on, and no later registration
    matches once an error is held; a registration of another method is
    passed over. *)
Fixpoint route_loop (decodes : string -> bool) (i : nat) (pending : bool)
    (rs : list route) (m : method) (path : string) : routed :=
  match rs with
  | [] => if pending then BadRequest else NotFound
  | r :: rs' =>
    match match_layer decodes (r_path r) path with
    | NoMatch => route_loop decodes (S i) pending rs' m path
    | BadParam => route_loop decodes (S i) true rs' m path
    | Matched =>
      if pending then route_loop decodes (S i) pending rs' m path
      else if method_eqb (r_method r) m then Served i
      else route_loop decodes (S i) pending rs' m path
    end
  end.

(** The router on the table of this server. *)
Abbreviation dispatch decodes m path := (route_loop decodes 0 false routes m path).

(** What happens to a request: the router answers, a middleware answers,
    or the handler of a registration runs with [req.user.id]. *)
Inductive served : Type :=
| Unrouted (r : routed)
| Refused (r : Http.response)
| Handled (i : nat) (uid : option Z).

Definition serve (decodes : string -> bool) (jwt_verify : string -> option Z)
    (m : method) (path : string)
    (authHeader : option string) (pool : option (gmap Z user)) : served :=
  match dispatch decodes m path with
  | Served i =>
    match routes !! i with
    | None => Unrouted NotFound
    | Some r =>
      match guard jwt_verify (r_access r) authHeader pool with
      | Next uid => Handled i uid
      | Reply resp => Refused resp
      end
    end
  | other => Unrouted other
  end.

(** Every path the second pattern matches, the first matches too. *)
Definition seg_covers (p q : string) : bool :=
  if is_param p then is_param q || JS.truthy q
  else negb (is_param q) && String.eqb (lower_string p) (lower_string q).

Fixpoint segs_cover (p q : list string) : bool :=
  match p, q with
  | [], [] => true
  | a :: p', b :: q' => seg_covers a b && segs_cover p' q'
  | _, _ => false
  end.

Definition covers (p q : string) : bool :=
  match JS.split "/" p, JS.split "/" q with
  | EmptyString :: ps, EmptyString :: qs => segs_cover ps qs
  | _, _ => false
  end.

(** Registration [i] comes after a registration of the same method whose
    path covers its own. *)
Definition shadowed (i : nat) : bool :=
  match routes !! i with
  | Some r =>
    existsb (fun j =>
      match routes !! j with
      | Some e => method_eqb (r_method e) (r_method r) && covers (r_path e) (r_path r)
      | None => false
      end) (seq 0 i)
  | None => false
  end.

(** A path for a registration: its own, with [x] for every parameter. *)
Fixpoint join (segs : list string) : string :=
  match segs with
  | [] => EmptyString
  | s :: rest => "/" +:+ s +:+ join rest
  end.

Definition sample_path (pattern : string) : string :=
  join (map (fun s => if is_param s then "x" else s)
            (List.tl (JS.split "/" pattern))).

Definition plain (path : string) : bool :=
  forallb (fun s => negb (JS.includes "%" s)) (JS.split "/" path).

Definition reaches_itself (i : nat) : bool :=
  match routes !! i with
  | Some r =>
    plain (sample_path (r_path r)) &&
    bool_decide (first_match 0 routes (r_method r) (sample_path (r_path r)) = Some i)
  | None => false
  end.

(** The positions of the registrations that no request reaches. *)
Definition dead : list nat :=
  [13; 14; 41; 42; 44; 45; 46; 47; 48; 49;
   131; 132; 133; 134; 135; 136; 137; 138; 139; 140]%nat.

End Router.

(** Sample staff: user 7 is an admin, user 8 a customer; the token [abc]
    verifies for user 7 and [xyz] for user 8. *)
Module Staff.
Import Access.

Definition users : gmap Z user :=
  <[ 8 := User "+971500000008" "Customer" "customer@example.com" "hash" (Some "user") ]>
    {[ 7 := User "+971500000007" "Admin" "admin@example.com" "hash" (Some "admin") ]}.

Definition verify (token : string) : option Z :=
  if String.eqb token "abc" then Some 7
  else if String.eqb token "xyz" then Some 8 else None.

(** A decoder that accepts the texts without a percent sign. *)
Definition decodes (s : string) : bool := negb (JS.includes "%" s).

End Staff.

(** ** services/dynamicApiService.js: gateway settings read from the
    database, with a cache *)
Module DynamicApi.
Import Http.

(** [JSON.parse] and [JSON.stringify] on the settings object; a text that
    is not JSON makes [JSON.parse] throw. [column_text] is what
    [JSON.parse] is given for a stored JSON text: the text itself when the
    driver returns a JSON column as text, and the string form of the parsed
    value when the driver returns it parsed. *)
Class Json : Type := {
  json : Type;
  JSON_parse : string -> option json;
  JSON_stringify : json -> string;
  empty_object : json;
  column_text : string -> string
}.

(** Settings without content, read through a driver that returns text:
    every object is [{}]. *)
Definition unit_json : Json :=
  {| json := unit;
     JSON_parse := fun s => if String.eqb s "{}" then Some tt else None;
     JSON_stringify := fun _ => "{}";
     empty_object := tt;
     column_text := fun s => s |}.

(** A row of [api_configurations]. *)
Record config_row : Type := ConfigRow {
  service_name : string;               (* VARCHAR(50) NOT NULL UNIQUE *)
  api_key : string;                    (* TEXT NOT NULL *)
  additional_config : option string;   (* JSON NULL, the stored text *)
  status : option string               (* ENUM('active','inactive','testing') DEFAULT 'active' *)
}.

Section Service.
Context `{SqlEngine} `{Json}.

(** The object [getApiConfig] returns and caches. *)
Record api_config : Type := ApiConfig {
  cfg_api_key : string;
  cfg_additional_config : json
}.

(** The names every object inherits from [Object.prototype]. *)
Definition Object_prototype : list string :=
  ["constructor"; "__defineGetter__"; "__defineSetter__"; "hasOwnProperty";
   "__lookupGetter__"; "__lookupSetter__"; "isPrototypeOf";
   "propertyIsEnumerable"; "toString"; "valueOf"; "__proto__"; "toLocaleString"].

(** A service name that [apiConfigCache[serviceName]] looks up among the
    object's own properties only. *)
Definition plain_name (serviceName : string) : bool :=
  negb (existsb (String.eqb serviceName) Object_prototype).

(** The module state: [apiConfigCache] and [cacheTimestamp]. The cache
    object [{}] is the map of its own properties, which is what a lookup
    and an assignment see for a [plain_name]. For a name of
    [Object_prototype] a lookup on the object finds the inherited member
    where the map has none, and an assignment to [__proto__] stores no
    property: the map is the cache for the other names only. *)
Record cache : Type := Cache {
  apiConfigCache : gmap string api_config;
  cacheTimestamp : Z
}.

Definition CACHE_DURATION : Z := 5 * 60 * 1000.

Definition initial_cache : cache := Cache ∅ 0.

(** [SELECT api_key, additional_config FROM api_configurations
     WHERE service_name = ? AND status = "active"] *)
Definition select_active (serviceName : string) (t : gmap Z config_row)
  : list (Z * config_row) :=
  Slots.select (fun _ r => text_eq (service_name r) serviceName &&
                           bool_decide (status r = Some "active")) t.

(** [getApiConfig(serviceName, pool)] with [Date.now()] explicit; [pool]
    is [None] when no pool is passed. Every exception ends in the [catch],
    which returns [null]. *)
Definition getApiConfig (now : Z) (serviceName : string)
    (pool : option (gmap Z config_row)) (c : cache) : option api_config * cache :=
  let fetch :=
    match pool with
    | None => (None, c)
    | Some t =>
      match select_active serviceName t with
      | [] => (None, c)
      | (_, config) :: _ =>
        let parsed :=
          match additional_config config with
          | Some text =>
            if JS.truthy text then JSON_parse (column_text text) else Some empty_object
          | None => Some empty_object
          end in
        match parsed with
        | None => (None, c)
        | Some extra =>
          let result := ApiConfig (api_key config) extra in
          (Some result, Cache (<[serviceName := result]> (apiConfigCache c)) now)
        end
      end
    end in
  match apiConfigCache c !! serviceName with
  | Some cached =>
    if now - cacheTimestamp c <? CACHE_DURATION then (Some cached, c) else fetch
  | None => fetch
  end.

(** [clearApiConfigCache()] *)
Definition clearApiConfigCache (c : cache) : cache := initial_cache.

(** What [sendSMS] returns. *)
Inductive sms_result : Type :=
| SmsSent (sid : string)
| SmsFailed (error : string).

Definition sms_success (r : sms_result) : bool :=
  match r with SmsSent _ => true | SmsFailed _ => false end.

(** [sendSMS(to, message, pool)]. [gateway] stands for building the
    Twilio client from the settings and handing it the message: it
    resolves with a [sid] or fails with an error message. Without
    settings nothing is handed over. *)
Definition sendSMS (now : Z) (gateway : api_config -> string -> string -> OtpSend.delivery)
    (to message : string) (pool : option (gmap Z config_row)) (c : cache)
  : sms_result * cache :=
  match getApiConfig now "twilio" pool c with
  | (None, c') => (SmsFailed "Twilio not configured", c')
  | (Some config, c') =>
    match gateway config to message with
    | OtpSend.Delivered sid => (SmsSent sid, c')
    | OtpSend.Rejected err => (SmsFailed err, c')
    end
  end.

(** [sendDynamicOTP(phoneNumber, otp, pool)] *)
Definition sendDynamicOTP (now : Z) (gateway : api_config -> string -> string -> OtpSend.delivery)
    (phoneNumber otp : string) (pool : option (gmap Z config_row)) (c : cache)
  : sms_result * cache :=
  let message := "Your verification code is: " +:+ otp +:+
                 ". This code will expire in 10 minutes." in
  sendSMS now gateway phoneNumber message pool c.

(** *** POST /api/superadmin/api-configs

    The body's [additional_config] is an object or missing. The two
    statements bind texts to VARCHAR(50), TEXT and JSON columns; a text
    too long for its column makes the statement fail, which the handler
    answers from its [catch] before the cache is cleared. A new row takes
    the default status. *)
Definition set_config (key : string) (extra : string) (r : config_row) : config_row :=
  ConfigRow (service_name r) key (Some extra) (status r).

Definition saveApiConfig (service_name_ api_key_ : field string)
    (additional_config_ : option json)
    (t : gmap Z config_row) (c : cache) : response * gmap Z config_row * cache :=
  match service_name_, api_key_ with
  | Val name, Val key =>
    if negb (JS.truthy name) || negb (JS.truthy key)
    then (Response 400 "Service name and API key are required", t, c)
    else
      let extra := JSON_stringify (default empty_object additional_config_) in
      let existing := Slots.select (fun _ r => text_eq (service_name r) name) t in
      let saved :=
        match existing with
        | [] =>
          if (String.length name <=? 50)%nat && (Z.of_nat (String.length key) <=? 65535)
          then Some (<[Slots.next_id t := ConfigRow name key (Some extra) (Some "active")]> t)
          else None
        | _ =>
          if Z.of_nat (String.length key) <=? 65535
          then Some ((fun r => if text_eq (service_name r) name
                               then set_config key extra r else r) <$> t)
          else None
        end in
      match saved with
      | Some t' =>
        (Response 200 "API configuration saved successfully", t', clearApiConfigCache c)
      | None => (Response 500 "Server error", t, c)
      end
  | _, _ => (Response 400 "Service name and API key are required", t, c)
  end.

End Service.

End DynamicApi.

(** ** The OTP routes of the server *)
Module OtpRoutes.
Import Http Otp OtpSend Access DynamicApi.

(** The body of a successful or failed answer of POST /api/auth/send-otp. *)
Record send_otp_response : Type := SendOtpResponse {
  so_status : Z;
  so_message : string;
  so_success : option bool;
  so_usingDynamicConfig : option bool
}.

(** The answers of POST /api/auth/verify-otp. *)
Inductive verify_otp_response : Type :=
| Incomplete                                   (* 400, fields missing *)
| OtpRejected (message : string)               (* 400, success: false *)
| LoggedInAs (token : string) (id : Z) (phone fullName email : string)
             (role : option string)            (* 200, the row without its password *)
| PhoneVerified (phone : string).              (* 200, isNewUser: true *)

Definition accepted (r : verify_otp_response) : bool :=
  match r with LoggedInAs _ _ _ _ _ _ | PhoneVerified _ => true | _ => false end.

Section Routes.
Context `{SqlEngine} `{Json}.

(** [jwt.sign({ id }, JWT_SECRET, { expiresIn: '7d' })] *)
Variable jwt_sign : Z -> string.

(** POST /api/auth/send-otp. [otp] is the code the handler generates
    itself and passes to [sendDynamicOTP]; whatever that call returns, the
    handler then calls [sendOTP(phone)], which generates and stores codes of
    its own. *)
Definition sendOtpRoute (phone : field string) (otp : string) (now : Z)
    (gateway : api_config -> string -> string -> delivery)
    (pool : option (gmap Z config_row))
    (clock : nat -> Z) (codes : nat -> string) (wa sms : delivery)
    (c : cache) (otpStorage : gmap string otp_entry)
  : send_otp_response * cache * gmap string otp_entry :=
  match phone with
  | Val phone =>
    if negb (JS.truthy phone)
    then (SendOtpResponse 400 "Phone number is required" None None, c, otpStorage)
    else
      let '(smsResult, c') := sendDynamicOTP now gateway phone otp pool c in
      let '(result, otpStorage', _) := sendOTP clock codes wa sms phone otpStorage in
      let dynamicConfig := sms_success smsResult in
      if sr_success result
      then (SendOtpResponse 200 (sr_message result) (Some true) (Some dynamicConfig),
            c', otpStorage')
      else (SendOtpResponse 500 (sr_message result) (Some false) None, c', otpStorage')
  | _ => (SendOtpResponse 400 "Phone number is required" None None, c, otpStorage)
  end.

(** POST /api/auth/verify-otp. The code is looked up under the number
    with a leading [+]; the user is looked up under the number as sent. *)
Definition verifyOtpRoute (now : Z) (phone otp : field string)
    (users : gmap Z user) (otpStorage : gmap string otp_entry)
  : verify_otp_response * gmap string otp_entry :=
  match phone, otp with
  | Val phone, Val otp =>
    if negb (JS.truthy phone) || negb (JS.truthy otp) then (Incomplete, otpStorage)
    else
      let '(otpResult, otpStorage') := verifyOTP now phone otp otpStorage in
      if negb (success otpResult)
      then (OtpRejected (message otpResult), otpStorage')
      else
        match Slots.select (fun _ u => text_eq (Access.phone u) phone) users with
        | (id, user) :: _ =>
          (LoggedInAs (jwt_sign id) id (Access.phone user) (fullName user) (email user)
                      (role user), otpStorage')
        | [] => (PhoneVerified phone, otpStorage')
        end
  | _, _ => (Incomplete, otpStorage)
  end.

End Routes.

End OtpRoutes.

(** Sample settings: an active Twilio row, and a cache that still holds
    an entry for the maps key, filled at clock value 0. *)
Module Settings.
Import DynamicApi.

Definition table : gmap Z config_row :=
  {[ 1 := ConfigRow "twilio" "AC123" None (Some "active") ]}.

Definition stale : @cache unit_json :=
  Cache {[ "google_maps" := @ApiConfig unit_json "old-key" tt ]} 0.

Definition gateway (up : bool) (cfg : @api_config unit_json) (to message : string)
  : OtpSend.delivery :=
  if up then OtpSend.Delivered "SM1" else OtpSend.Rejected "gateway down".

End Settings.

(** ** Availability registry: the other admin routes *)
Module Registry.
Import Http Slots.

(** What [UNIQUE KEY unique_time_slot (date, start_time, end_time)] keeps:
    no two rows agree on the three columns. *)
Definition unique_slots (t : table) : Prop :=
  forall i j a b, i <> j -> t !! i = Some a -> t !! j = Some b ->
    date a = date b -> start_time a = start_time b -> end_time a = end_time b -> False.

(** [ORDER BY ats.date DESC, ats.start_time ASC] *)
Definition by_date_desc_start (a b : Z * time_slot) : Prop :=
  date b.2 < date a.2 \/ (date a.2 = date b.2 /\ start_time a.2 <= start_time b.2).

#[export] Instance by_date_desc_start_dec : RelDecision by_date_desc_start.
Proof. intros a b. unfold by_date_desc_start. apply _. Defined.

(** The body of POST /api/admin/available-dates. *)
Record date_body : Type := DateBody {
  db_date : field string;
  db_is_available : field bool;
  db_max_appointments : field Z;
  db_service_category_id : field Z
}.

Section Handlers.
Context `{SqlEngine}.

(** DELETE /api/admin/available-time-slots/:id. The statement compares
    the INT key with the text of the path parameter. *)
Definition deleteTimeSlot (id : string) (t : table) : response * table :=
  if strict_ok id then
    (Response 200 "Time slot deleted successfully",
     match int_of_text id with
     | Some k => delete k t
     | None => t
     end)
  else (Response 500 "Server error", t).

(** [(ats.service_category_id = ? OR ats.service_category_id IS NULL)],
    appended when [categoryId] is truthy. *)
Definition admin_category_condition (categoryId : option string) (c : option Z) : bool :=
  match categoryId with
  | Some q =>
    if JS.truthy q then
      match c with
      | Some v => bool_decide (int_of_text q = Some v)
      | None => true
      end
    else true
  | None => true
  end.

(** GET /api/admin/available-time-slots. As in the public listing, a date
    text that does not convert ends in the handler's [catch]. *)
Definition listTimeSlotsAdmin (date categoryId : option string) (t : table)
  : response * list (Z * time_slot) :=
  let dated := match date with Some d => JS.truthy d | None => false end in
  let day :=
    if dated then Some <$> Calendar.date_of_string (default EmptyString date)
    else Some None in
  match day with
  | Some day =>
    let rows :=
      select (fun _ r =>
                match day with Some d => Slots.date r =? d | None => true end &&
                admin_category_condition categoryId (service_category_id r)) t in
    (Response 200 EmptyString, merge_sort by_date_desc_start rows)
  | None => (server_error, [])
  end.

(** The values an INT column takes. *)
Definition int_column (v : Z) : bool :=
  (-2147483648 <=? v) && (v <=? 2147483647).

(** POST /api/admin/available-dates:
    [[date, is_available !== undefined ? is_available : true,
      max_appointments || 10, service_category_id || null, req.user.id]].
    [categories] holds the ids of [service_categories], to which the
    foreign key of [service_category_id] refers; the one of [created_by]
    is met by the caller, whose row [isAdmin] has just read. A number
    outside the INT range and a category id that names no category are
    refused by the engine, and the handler's [catch] answers 500. The
    table has no unique key, so no insert is a duplicate. *)
Definition createAvailableDate (categories : gset Z) (b : date_body)
    (t : gmap Z available_date) : response * gmap Z available_date :=
  match db_date b with
  | Val date =>
    if negb (JS.truthy date) then (bad_request "Date is required", t)
    else
      match Calendar.date_of_string date with
      | Some d =>
        let is_available :=
          match db_is_available b with
          | Absent => Some true
          | Null => None
          | Val v => Some v
          end in
        let max_appointments :=
          match db_max_appointments b with
          | Val v => if v =? 0 then 10 else v
          | _ => 10
          end in
        let service_category_id :=
          match db_service_category_id b with
          | Val v => if v =? 0 then None else Some v
          | _ => None
          end in
        let referenced :=
          match service_category_id with
          | Some c => int_column c && bool_decide (c ∈ categories)
          | None => true
          end in
        if int_column max_appointments && referenced then
          (Response 201 "Available date added successfully",
           <[next_id t := AvailableDate d service_category_id is_available
                                        (Some max_appointments)]> t)
        else (Response 500 "Server error", t)
      | None => (Response 500 "Server error", t)
      end
  | _ => (bad_request "Date is required", t)
  end.

End Handlers.

(** A date text and the same date with a time of day appended. *)
Definition with_time_ok (rest : string) (d : Z) : bool :=
  let s := Calendar.format_date d in
  JS.truthy s && negb (JS.includes "T" s) && JS.includes "T" (s +:+ "T" +:+ rest).

End Registry.

(** ** Appointments: the status route of the admin and the two dated
    listings of the customer *)
Module Schedule.
Import Http Appointments.

(** [ORDER BY appointment_date ASC, appointment_time ASC] *)
Definition by_date_time (a b : Z * appointment) : Prop :=
  appointment_date a.2 < appointment_date b.2 \/
  (appointment_date a.2 = appointment_date b.2 /\
   appointment_time a.2 <= appointment_time b.2).

#[export] Instance by_date_time_dec : RelDecision by_date_time.
Proof. intros a b. unfold by_date_time. apply _. Defined.

(** [ORDER BY appointment_date DESC, appointment_time DESC] *)
Definition by_date_time_desc (a b : Z * appointment) : Prop := by_date_time b a.

#[export] Instance by_date_time_desc_dec : RelDecision by_date_time_desc.
Proof. intros a b. unfold by_date_time_desc. apply _. Defined.

(** [(appointment_date > CURDATE() OR
      (appointment_date = CURDATE() AND appointment_time >= CURTIME())) AND
     status NOT IN ('completed', 'cancelled')]; a NULL status makes the
    last condition NULL, which selects nothing. *)
Definition is_upcoming (today now : Z) (a : appointment) : bool :=
  ((today <? appointment_date a) ||
   ((appointment_date a =? today) && (now <=? appointment_time a))) &&
  match status a with
  | Some s => negb (String.eqb s "completed" || String.eqb s "cancelled")
  | None => false
  end.

(** [(appointment_date < CURDATE() OR
      (appointment_date = CURDATE() AND appointment_time < CURTIME()) OR
      status = 'completed')] *)
Definition is_past (today now : Z) (a : appointment) : bool :=
  (appointment_date a <? today) ||
  ((appointment_date a =? today) && (appointment_time a <? now)) ||
  bool_decide (status a = Some "completed").

(** GET /api/user/appointments/upcoming, with [CURDATE()] and [CURTIME()]
    explicit. *)
Definition listUpcoming (uid today now : Z) (t : gmap Z appointment)
  : list (Z * appointment) :=
  merge_sort by_date_time
    (Slots.select (fun _ a => (user_id a =? uid) && is_upcoming today now a) t).

(** GET /api/user/appointments/past *)
Definition listPast (uid today now : Z) (t : gmap Z appointment)
  : list (Z * appointment) :=
  merge_sort by_date_time_desc
    (Slots.select (fun _ a => (user_id a =? uid) && is_past today now a) t).

Section Handlers.
Context `{SqlEngine}.

(** PUT /api/admin/appointments/:id/status:
    [UPDATE appointments SET status = ? WHERE id = ?] after the two checks
    in JavaScript. *)
Definition adminUpdateStatus (id : string) (status : field string)
    (t : gmap Z appointment) : response * gmap Z appointment :=
  match status with
  | Val status =>
    if negb (JS.truthy status) then (Response 400 "Status is required", t)
    else if negb (member status appointment_statuses)
    then (Response 400 "Invalid status", t)
    else if strict_ok id then
      (Response 200 "Appointment status updated successfully",
       match int_of_text id with
       | Some k => alter (set_status (Some status)) k t
       | None => t
       end)
    else (Response 500 "Server error", t)
  | _ => (Response 400 "Status is required", t)
  end.

End Handlers.

(** A range on the 24-hour clock, [HH:MM - rest]. *)
Definition range24 (h m : Z) (rest : string) : string :=
  Booking.two_digits h +:+ ":" +:+ Booking.two_digits m +:+ " - " +:+ rest.

Definition range24_ok (rest : string) (h m : Z) : bool :=
  String.eqb (Booking.extractStartTime (range24 h m rest))
             (Booking.two_digits (if h =? 12 then 0 else h) +:+ ":" +:+
              Booking.two_digits m +:+ ":00").

(** The text of a whole minute of the day, as stored and as returned. *)
Definition clock_text (h m : Z) : string :=
  Booking.two_digits h +:+ ":" +:+ Booking.two_digits m +:+ ":00".

Definition clock_text_ok (h m : Z) : bool :=
  bool_decide (Calendar.time_of_string (clock_text h m) = Some (3600 * h + 60 * m)) &&
  String.eqb (Calendar.time_to_string (3600 * h + 60 * m)) (clock_text h m).

End Schedule.

(** ** Seeding of the availability tables at start-up
    ([seedInitialData], its first two blocks)

    [now] is the instant [new Date()] returns and [tz] the offset of the
    server's zone from UTC in minutes, taken as fixed over the thirty days.
    Each loop stops at the first statement the engine refuses, which ends
    [seedInitialData] in its [catch]; the flag returned says whether the
    loop ran to its end. *)
Module Seed.
Import Slots.

Definition timeSlots : list (string * string) :=
  [("09:00:00", "09:30:00"); ("10:00:00", "10:30:00"); ("11:00:00", "11:30:00");
   ("14:00:00", "14:30:00"); ("15:00:00", "15:30:00"); ("16:00:00", "16:30:00")].

(** [INSERT INTO available_time_slots (start_time, end_time, is_available,
     extra_price, date) VALUES (?, ?, TRUE, 0.00, ?)] *)
Definition insert_slot (formattedDate : string) (slot : string * string) (t : table)
  : option table :=
  match Calendar.time_of_string slot.1, Calendar.time_of_string slot.2,
        Calendar.date_of_string formattedDate with
  | Some s, Some e, Some d =>
    let row := TimeSlot s e (Some true) (Some 0) d None in
    if unique_key_taken None row t then None else Some (<[next_id t := row]> t)
  | _, _, _ => None
  end.

Fixpoint insert_slots (formattedDate : string) (slots : list (string * string))
    (t : table) : table * bool :=
  match slots with
  | [] => (t, true)
  | slot :: rest =>
    match insert_slot formattedDate slot t with
    | Some t' => insert_slots formattedDate rest t'
    | None => (t, false)
    end
  end.

(** The block that seeds the time slots: it runs when the table is
    empty, and dates every slot [today.toISOString().split('T')[0]]. *)
Definition seedTimeSlots (now : Z) (t : table) : table * bool :=
  match map_to_list t with
  | [] => insert_slots (Calendar.date_part (Calendar.toISOString now)) timeSlots t
  | _ => (t, true)
  end.

(** [getDay()] of a day number: 0 is Sunday (1970-01-01 was a Thursday). *)
Definition day_of_week (days : Z) : Z := (days + 4) mod 7.

(** The day number of an instant in the zone [tz]. *)
Definition local_day (tz ms : Z) : Z := (ms + tz * 60000) / 86400000.

(** Iteration [i] of the loop over the next thirty days:
    [date.setDate(today.getDate() + i)] moves the local date by [i] days,
    [getDay()] is read in local time, and the date inserted is the one
    shown by [toISOString()], which is in UTC. [None] is a day passed over. *)
Definition seed_date (tz now i : Z) : option string :=
  let date := now + i * 86400000 in
  if day_of_week (local_day tz date) =? 0 then None
  else Some (Calendar.date_part (Calendar.toISOString date)).

(** [INSERT INTO available_dates (date, is_available, max_appointments)
     VALUES (?, TRUE, 10)] for the days not passed over. *)
Fixpoint insert_dates (days : list (option string)) (t : gmap Z available_date)
  : gmap Z available_date * bool :=
  match days with
  | [] => (t, true)
  | None :: rest => insert_dates rest t
  | Some formattedDate :: rest =>
    match Calendar.date_of_string formattedDate with
    | Some d =>
      insert_dates rest (<[next_id t := AvailableDate d None (Some true) (Some 10)]> t)
    | None => (t, false)
    end
  end.

Definition seedDates (tz now : Z) (t : gmap Z available_date)
  : gmap Z available_date * bool :=
  match map_to_list t with
  | [] => insert_dates (map (seed_date tz now) (Booking.zrange 0 30)) t
  | _ => (t, true)
  end.

(** The six intervals as the engine stores them, in seconds. *)
Definition seeded_times : list (Z * Z) :=
  [(32400, 34200); (36000, 37800); (39600, 41400);
   (50400, 52200); (54000, 55800); (57600, 59400)].

(** The TIME values of a list of texts, when every text converts. *)
Fixpoint times_of (slots : list (string * string)) : option (list (Z * Z)) :=
  match slots with
  | [] => Some []
  | sl :: rest =>
    match Calendar.time_of_string sl.1, Calendar.time_of_string sl.2, times_of rest with
    | Some s, Some e, Some times => Some ((s, e) :: times)
    | _, _, _ => None
    end
  end.

(** A date as the calendar of the front end sends it: a text without a
    time of day. *)
Definition plain_date_ok (d : Z) : bool :=
  JS.truthy (Calendar.format_date d) &&
  negb (JS.includes "T" (Calendar.format_date d)).

(** The rows of a table, without their keys. *)
Definition holds {A} (t : gmap Z A) (row : A) : Prop := exists k, t !! k = Some row.

End Seed.

(** * Properties *)

Section OtpFacts.
Import Otp Sample.
Implicit Types (st : gmap string otp_entry) (e : otp_entry).

Lemma verifyOTP_absent now phone code st :
  st !! formatPhone phone = None ->
  verifyOTP now phone code st = (NotFound, st).
Proof. intros H. unfold verifyOTP. by rewrite H. Qed.

Lemma verifyOTP_expired now phone code st e :
  st !! formatPhone phone = Some e -> expiresAt e < now ->
  verifyOTP now phone code st = (Expired, delete (formatPhone phone) st).
Proof.
  intros Hl Ht. unfold verifyOTP. rewrite Hl.
  destruct (Z.ltb_spec (expiresAt e) now); [done|lia].
Qed.

Lemma verifyOTP_wrong now phone code st e :
  st !! formatPhone phone = Some e ->
  now <= expiresAt e -> attempts e < 3 -> code <> otp e ->
  verifyOTP now phone code st =
    (Mismatch (3 - (attempts e + 1)),
     <[formatPhone phone := OtpEntry (otp e) (expiresAt e) (attempts e + 1)]> st).
Proof.
  intros Hl Ht Ha Hc. unfold verifyOTP. rewrite Hl.
  destruct (Z.ltb_spec (expiresAt e) now); [lia|].
  destruct (Z.leb_spec 3 (attempts e)); [lia|].
  destruct (String.eqb_spec (otp e) code); [congruence|]. done.
Qed.

Lemma verifyOTP_exhausted now phone code st e :
  st !! formatPhone phone = Some e ->
  now <= expiresAt e -> 3 <= attempts e ->
  verifyOTP now phone code st = (AttemptsExceeded, delete (formatPhone phone) st).
Proof.
  intros Hl Ht Ha. unfold verifyOTP. rewrite Hl.
  destruct (Z.ltb_spec (expiresAt e) now); [lia|].
  destruct (Z.leb_spec 3 (attempts e)); [done|lia].
Qed.

Lemma verifyOTP_correct now phone st e :
  st !! formatPhone phone = Some e ->
  now <= expiresAt e -> attempts e < 3 ->
  verifyOTP now phone (otp e) st = (Verified, delete (formatPhone phone) st).
Proof.
  intros Hl Ht Ha. unfold verifyOTP. rewrite Hl.
  destruct (Z.ltb_spec (expiresAt e) now); [lia|].
  destruct (Z.leb_spec 3 (attempts e)); [lia|].
  by rewrite String.eqb_refl.
Qed.

(** A wrong code on an entry with counter [a < 3] leaves the entry in place
    with counter [a + 1]. *)
Lemma verifyOTP_wrong_lookup now phone code st e :
  st !! formatPhone phone = Some e ->
  now <= expiresAt e -> attempts e < 3 -> code <> otp e ->
  (verifyOTP now phone code st).2 !! formatPhone phone =
    Some (OtpEntry (otp e) (expiresAt e) (attempts e + 1)).
Proof.
  intros Hl Ht Ha Hc. rewrite (verifyOTP_wrong _ _ _ _ _ Hl Ht Ha Hc). simpl.
  apply lookup_insert_eq.
Qed.

(** Whatever the counter of a live entry is, wrong codes raise it one by
    one, and once it has reached 3 the next call is refused. *)
Lemma verify_run_wrong calls phone st e :
  st !! formatPhone phone = Some e ->
  Forall (fun c => c.1 <= expiresAt e /\ c.2 <> otp e) calls ->
  attempts e + Z.of_nat (length calls) <= 3 ->
  verify_run calls phone st !! formatPhone phone =
    Some (OtpEntry (otp e) (expiresAt e) (attempts e + Z.of_nat (length calls))).
Proof.
  revert st e. induction calls as [|[now code] calls IH]; intros st e Hl Hall Hn.
  - simpl. rewrite Z.add_0_r. by destruct e.
  - apply Forall_cons in Hall as [[Ht Hc] Hall]. simpl in Ht, Hc.
    cbn [verify_run].
    assert (Ha : attempts e < 3) by (simpl length in Hn; lia).
    rewrite (IH _ (OtpEntry (otp e) (expiresAt e) (attempts e + 1))).
    + simpl. do 2 f_equal. lia.
    + by apply verifyOTP_wrong_lookup.
    + exact Hall.
    + simpl in *. lia.
Qed.

Lemma verify_run_then_refused calls phone st e now code :
  st !! formatPhone phone = Some e ->
  Forall (fun c => c.1 <= expiresAt e /\ c.2 <> otp e) calls ->
  attempts e + Z.of_nat (length calls) = 3 ->
  now <= expiresAt e ->
  verifyOTP now phone code (verify_run calls phone st) =
    (AttemptsExceeded, delete (formatPhone phone) (verify_run calls phone st)).
Proof.
  intros Hl Hall Hn Ht.
  eapply verifyOTP_exhausted.
  - apply (verify_run_wrong calls phone st e Hl Hall). lia.
  - exact Ht.
  - simpl. lia.
Qed.

(** Four calls on an entry as every send path stores it (counter 0). *)
Lemma three_wrong_then_refused st phone e c1 c2 c3 c4 t1 t2 t3 t4 :
  st !! formatPhone phone = Some e -> attempts e = 0 ->
  t1 <= expiresAt e -> t2 <= expiresAt e -> t3 <= expiresAt e -> t4 <= expiresAt e ->
  c1 <> otp e -> c2 <> otp e -> c3 <> otp e ->
  let v1 := verifyOTP t1 phone c1 st in
  let v2 := verifyOTP t2 phone c2 v1.2 in
  let v3 := verifyOTP t3 phone c3 v2.2 in
  let v4 := verifyOTP t4 phone c4 v3.2 in
  v1.1 = Mismatch 2 /\ attempts <$> (v1.2 !! formatPhone phone) = Some 1 /\
  v2.1 = Mismatch 1 /\ attempts <$> (v2.2 !! formatPhone phone) = Some 2 /\
  v3.1 = Mismatch 0 /\ attempts <$> (v3.2 !! formatPhone phone) = Some 3 /\
  v4.1 = AttemptsExceeded /\ success v4.1 = false /\
  v4.2 !! formatPhone phone = None.
Proof.
  intros Hl Ha H1 H2 H3 H4 N1 N2 N3. cbv zeta.
  assert (A0 : attempts e < 3) by lia.
  pose proof (verifyOTP_wrong t1 phone c1 st e Hl H1 A0 N1) as E1.
  pose proof (verifyOTP_wrong_lookup t1 phone c1 st e Hl H1 A0 N1) as L1.
  set (e1 := OtpEntry (otp e) (expiresAt e) (attempts e + 1)) in *.
  assert (A1 : attempts e1 < 3) by (simpl; lia).
  pose proof (verifyOTP_wrong t2 phone c2 _ e1 L1 H2 A1 N2) as E2.
  pose proof (verifyOTP_wrong_lookup t2 phone c2 _ e1 L1 H2 A1 N2) as L2.
  set (e2 := OtpEntry (otp e1) (expiresAt e1) (attempts e1 + 1)) in *.
  assert (A2 : attempts e2 < 3) by (simpl; lia).
  pose proof (verifyOTP_wrong t3 phone c3 _ e2 L2 H3 A2 N3) as E3.
  pose proof (verifyOTP_wrong_lookup t3 phone c3 _ e2 L2 H3 A2 N3) as L3.
  set (e3 := OtpEntry (otp e2) (expiresAt e2) (attempts e2 + 1)) in *.
  assert (A3 : 3 <= attempts e3) by (simpl; lia).
  pose proof (verifyOTP_exhausted t4 phone c4 _ e3 L3 H4 A3) as E4.
  rewrite E4, L3, L2, L1. rewrite E3, E2, E1. simpl.
  rewrite lookup_delete_eq, Ha. done.
Qed.

(** C3: on a live entry with counter below 3 a wrong code raises the
    counter by exactly 1 and reports 3 minus the new counter as remaining;
    once the wrong calls counted on a live entry have reached 3, the next
    call, whatever code it carries (the correct one included), fails with
    AttemptsExceeded and removes the entry; in particular, from an entry as
    the send paths store it (counter 0), three wrong codes yield Mismatch
    with 2, 1, 0 remaining and the fourth call is refused. *)
Theorem C3_fourth_call_attempts_exceeded :
  (forall now phone code st e,
     st !! formatPhone phone = Some e ->
     now <= expiresAt e -> attempts e < 3 -> code <> otp e ->
     verifyOTP now phone code st =
       (Mismatch (3 - (attempts e + 1)),
        <[formatPhone phone := OtpEntry (otp e) (expiresAt e) (attempts e + 1)]> st)) /\
  (forall calls phone st e now code,
     st !! formatPhone phone = Some e ->
     Forall (fun c => c.1 <= expiresAt e /\ c.2 <> otp e) calls ->
     attempts e + Z.of_nat (length calls) = 3 ->
     now <= expiresAt e ->
     verifyOTP now phone code (verify_run calls phone st) =
       (AttemptsExceeded, delete (formatPhone phone) (verify_run calls phone st))) /\
  (forall st phone e c1 c2 c3 c4 t1 t2 t3 t4,
     st !! formatPhone phone = Some e -> attempts e = 0 ->
     t1 <= expiresAt e -> t2 <= expiresAt e -> t3 <= expiresAt e ->
     t4 <= expiresAt e ->
     c1 <> otp e -> c2 <> otp e -> c3 <> otp e ->
     let v1 := verifyOTP t1 phone c1 st in
     let v2 := verifyOTP t2 phone c2 v1.2 in
     let v3 := verifyOTP t3 phone c3 v2.2 in
     let v4 := verifyOTP t4 phone c4 v3.2 in
     v1.1 = Mismatch 2 /\ attempts <$> (v1.2 !! formatPhone phone) = Some 1 /\
     v2.1 = Mismatch 1 /\ attempts <$> (v2.2 !! formatPhone phone) = Some 2 /\
     v3.1 = Mismatch 0 /\ attempts <$> (v3.2 !! formatPhone phone) = Some 3 /\
     v4.1 = AttemptsExceeded /\ success v4.1 = false /\
     v4.2 !! formatPhone phone = None).
Proof.
  split; [exact verifyOTP_wrong|].
  split; [exact verify_run_then_refused|].
  exact three_wrong_then_refused.
Qed.

(** C4: on a live entry with counter below 3 the stored code verifies and
    consumes the entry; repeating the call with the same code, at any later
    or earlier clock value, reports NotFound and leaves the store as it is. *)
Theorem C4_correct_code_verifies_once st phone e t1 t2 :
  st !! formatPhone phone = Some e ->
  t1 <= expiresAt e -> attempts e < 3 ->
  let v1 := verifyOTP t1 phone (otp e) st in
  let v2 := verifyOTP t2 phone (otp e) v1.2 in
  v1.1 = Verified /\ success v1.1 = true /\ v1.2 !! formatPhone phone = None /\
  v2.1 = NotFound /\ success v2.1 = false /\ v2.2 = v1.2.
Proof.
  intros Hl Ht Ha. cbv zeta.
  rewrite (verifyOTP_correct _ _ _ _ Hl Ht Ha). simpl.
  rewrite verifyOTP_absent by apply lookup_delete_eq.
  simpl. rewrite lookup_delete_eq. done.
Qed.

Lemma C3_witness :
  let v1 := verifyOTP 2000 "+971501234567" "000000" demo_store in
  let v2 := verifyOTP 3000 "+971501234567" "111111" v1.2 in
  let v3 := verifyOTP 4000 "+971501234567" "222222" v2.2 in
  let v4 := verifyOTP 5000 "+971501234567" "123456" v3.2 in
  v1.1 = Mismatch 2 /\ attempts <$> (v1.2 !! formatPhone "+971501234567") = Some 1 /\
  v2.1 = Mismatch 1 /\ attempts <$> (v2.2 !! formatPhone "+971501234567") = Some 2 /\
  v3.1 = Mismatch 0 /\ attempts <$> (v3.2 !! formatPhone "+971501234567") = Some 3 /\
  v4.1 = AttemptsExceeded /\ success v4.1 = false /\
  v4.2 !! formatPhone "+971501234567" = None.
Proof.
  apply (proj2 (proj2 C3_fourth_call_attempts_exceeded) demo_store "+971501234567"
           (OtpEntry "123456" 301000 0) "000000" "111111" "222222" "123456"
           2000 3000 4000 5000);
    first [ reflexivity | simpl; lia | discriminate ].
Defined.

Lemma C4_witness :
  let v1 := verifyOTP 2000 "+971501234567" "123456" demo_store in
  let v2 := verifyOTP 2500 "+971501234567" "123456" v1.2 in
  v1.1 = Verified /\ success v1.1 = true /\
  v1.2 !! formatPhone "+971501234567" = None /\
  v2.1 = NotFound /\ success v2.1 = false /\ v2.2 = v1.2.
Proof.
  apply (C4_correct_code_verifies_once demo_store "+971501234567"
           (OtpEntry "123456" 301000 0) 2000 2500);
    first [ reflexivity | simpl; lia ].
Defined.

End OtpFacts.

Section BookingFacts.
Import Booking.

Lemma zrange_In lo n z : lo <= z < lo + Z.of_nat n -> In z (zrange lo n).
Proof.
  intros H. unfold zrange. apply in_map_iff.
  exists (Z.to_nat (z - lo)). split; [lia|]. apply in_seq. lia.
Qed.

Lemma canonical_unchanged s :
  JS.test canonicalTime s = true -> extractStartTime s = s.
Proof.
  intros H. unfold extractStartTime. rewrite H. by destruct (JS.truthy s).
Qed.

Lemma canonical_accepts_hhmm a b c d :
  JS.is_digit a = true -> JS.is_digit b = true ->
  JS.is_digit c = true -> JS.is_digit d = true ->
  JS.test canonicalTime (hhmm a b c d) = true.
Proof.
  intros Ha Hb Hc Hd. unfold hhmm, canonicalTime, JS.digit, JS.chr, JS.Opt.
  cbn. rewrite Ha. cbn. rewrite Hb. cbn. rewrite Hc. cbn. rewrite Hd. reflexivity.
Qed.

Lemma canonical_accepts_hhmmss a b c d e f :
  JS.is_digit a = true -> JS.is_digit b = true ->
  JS.is_digit c = true -> JS.is_digit d = true ->
  JS.is_digit e = true -> JS.is_digit f = true ->
  JS.test canonicalTime (hhmmss a b c d e f) = true.
Proof.
  intros Ha Hb Hc Hd He Hf. unfold hhmmss, canonicalTime, JS.digit, JS.chr, JS.Opt.
  cbn. rewrite Ha. cbn. rewrite Hb. cbn. rewrite Hc. cbn. rewrite Hd. cbn.
  rewrite He. cbn. rewrite Hf. reflexivity.
Qed.

Lemma display_range_table rest :
  forallb (fun pad => forallb (fun h => forallb (fun m => forallb (fun pm =>
    display_range_ok rest pad h m pm) [true; false]) (zrange 0 60)) (zrange 1 12))
    [true; false] = true.
Proof. vm_compute. reflexivity. Qed.

Lemma display_range_start pad h m pm rest :
  1 <= h <= 12 -> 0 <= m <= 59 ->
  extractStartTime (display_range pad h m pm rest) =
    two_digits (hour24 h pm) +:+ ":" +:+ two_digits m +:+ ":00".
Proof.
  intros Hh Hm. pose proof (display_range_table rest) as T.
  rewrite forallb_forall in T.
  assert (Ip : In pad [true; false]) by (destruct pad; simpl; auto).
  specialize (T pad Ip). rewrite forallb_forall in T.
  specialize (T h (zrange_In 1 12 h ltac:(lia))). rewrite forallb_forall in T.
  specialize (T m (zrange_In 0 60 m ltac:(lia))). rewrite forallb_forall in T.
  assert (Iq : In pm [true; false]) by (destruct pm; simpl; auto).
  specialize (T pm Iq). unfold display_range_ok in T.
  by apply String.eqb_eq in T.
Qed.

(** C5: the normaliser returns every input of the shape two digits, colon,
    two digits, with or without a seconds part, as it is (these are the
    inputs its pattern accepts); from a 12-hour display range it keeps only
    the start, written as HH:MM:00 on the 24-hour clock, where 12 AM is hour
    00, 12 PM stays 12 and every other PM hour gains 12; and the three
    sample inputs give 14:00:00, 00:00:00 and 12:15:00. *)
Theorem C5_extractStartTime_normalises :
  (forall s, JS.test canonicalTime s = true -> extractStartTime s = s) /\
  (forall a b c d,
     JS.is_digit a = true -> JS.is_digit b = true ->
     JS.is_digit c = true -> JS.is_digit d = true ->
     extractStartTime (hhmm a b c d) = hhmm a b c d) /\
  (forall a b c d e f,
     JS.is_digit a = true -> JS.is_digit b = true ->
     JS.is_digit c = true -> JS.is_digit d = true ->
     JS.is_digit e = true -> JS.is_digit f = true ->
     extractStartTime (hhmmss a b c d e f) = hhmmss a b c d e f) /\
  (forall pad h m pm rest,
     1 <= h <= 12 -> 0 <= m <= 59 ->
     extractStartTime (display_range pad h m pm rest) =
       two_digits (hour24 h pm) +:+ ":" +:+ two_digits m +:+ ":00") /\
  extractStartTime "2:00 PM - 2:30 PM" = "14:00:00" /\
  extractStartTime "12:00 AM - 12:30 AM" = "00:00:00" /\
  extractStartTime "12:15 PM - 12:45 PM" = "12:15:00".
Proof.
  split; [exact canonical_unchanged|].
  split; [intros; apply canonical_unchanged, canonical_accepts_hhmm; assumption|].
  split; [intros; apply canonical_unchanged, canonical_accepts_hhmmss; assumption|].
  split; [intros; apply display_range_start; assumption|].
  repeat split; vm_compute; reflexivity.
Qed.

Lemma C5_witness :
  extractStartTime "09:30" = "09:30" /\
  extractStartTime "18:45:10" = "18:45:10" /\
  extractStartTime "7:05 PM - 7:35 PM" = "19:05:00".
Proof.
  destruct C5_extractStartTime_normalises as (H1 & H2 & H3 & H4 & _).
  split; [apply (H2 "0"%char "9"%char "3"%char "0"%char); reflexivity|].
  split; [apply (H3 "1"%char "8"%char "4"%char "5"%char "1"%char "0"%char);
          reflexivity|].
  apply (H4 false 7 5 true "7:35 PM"); lia.
Defined.

End BookingFacts.

Section RegexFacts.
Import JS.

(** The derivative test decides membership in the language of the
    pattern. *)
Lemma nullable_lang r : nullable r = true <-> lang r EmptyString.
Proof.
  split.
  - induction r as [| |p|a IHa b IHb|a IHa b IHb]; simpl; intros Hn; try done.
    + constructor.
    + apply andb_true_iff in Hn as [Ha Hb].
      change EmptyString with (EmptyString +:+ EmptyString). constructor; auto.
    + apply orb_true_iff in Hn as [Ha|Hb];
        [apply lang_alt_l | apply lang_alt_r]; auto.
  - intros Hl. remember EmptyString as s eqn:Es.
    induction Hl as [|p c Hp|a b s1 s2 H1 IH1 H2 IH2|a b s H1 IH1|a b s H1 IH1];
      simpl; try done.
    + destruct s1; [|discriminate]. change (s2 = EmptyString) in Es. subst s2.
      by rewrite IH1, IH2.
    + by rewrite IH1.
    + rewrite IH1 by done. apply orb_true_r.
Qed.

Lemma deriv_lang c r s : lang (deriv c r) s <-> lang r (String c s).
Proof.
  split.
  - revert s. induction r as [| |p|a IHa b IHb|a IHa b IHb]; simpl; intros s Hl.
    + inversion Hl.
    + inversion Hl.
    + destruct (p c) eqn:Hp; inversion Hl; subst. by constructor.
    + assert (Hcat : forall s', lang (Cat (deriv c a) b) s' -> lang (Cat a b) (String c s')).
      { intros s' Hc. inversion Hc as [| |a' b' s1 s2 H1 H2| |]; subst.
        change (String c (s1 +:+ s2)) with (String c s1 +:+ s2).
        constructor; auto. }
      destruct (nullable a) eqn:Na; [|by apply Hcat].
      inversion Hl as [| | |a' b' s' H1|a' b' s' H1]; subst; [by apply Hcat|].
      change (String c s) with (EmptyString +:+ String c s).
      constructor; [by apply nullable_lang | auto].
    + inversion Hl; subst; [apply lang_alt_l | apply lang_alt_r]; auto.
  - intros Hl. remember (String c s) as cs eqn:Ecs. revert c s Ecs.
    induction Hl as [|p c0 Hp|a b s1 s2 H1 IH1 H2 IH2|a b s0 H1 IH1|a b s0 H1 IH1];
      intros c s Ecs; simpl.
    + discriminate.
    + injection Ecs as -> <-. rewrite Hp. constructor.
    + destruct s1 as [|c1 s1'].
      * change (s2 = String c s) in Ecs. subst s2.
        rewrite (proj2 (nullable_lang a) H1). apply lang_alt_r. by apply IH2.
      * change (String c1 (s1' +:+ s2) = String c s) in Ecs.
        injection Ecs as -> <-.
        assert (Hc : lang (Cat (deriv c a) b) (s1' +:+ s2))
          by (constructor; auto).
        destruct (nullable a); [by apply lang_alt_l | done].
    + apply lang_alt_l. by apply IH1.
    + apply lang_alt_r. by apply IH1.
Qed.

Lemma dead_lang r s : dead r = true -> ~ lang r s.
Proof.
  intros Hd Hl.
  induction Hl as [|p c Hp|a b s1 s2 H1 IH1 H2 IH2|a b s H1 IH1|a b s H1 IH1];
    simpl in Hd; try discriminate.
  - apply orb_true_iff in Hd as [Ha|Hb]; auto.
  - apply andb_true_iff in Hd as [Ha _]; auto.
  - apply andb_true_iff in Hd as [_ Hb]; auto.
Qed.

Lemma test_lang r s : test r s = true <-> lang r s.
Proof.
  revert r. induction s as [|c s IH]; intros r; simpl.
  - apply nullable_lang.
  - destruct (dead (deriv c r)) eqn:Hd.
    + split; [discriminate|]. intros Hl. apply deriv_lang in Hl. exfalso.
      exact (dead_lang _ s Hd Hl).
    + rewrite IH. apply deriv_lang.
Qed.

Lemma nullable_maxlen r : nullable r = true -> is_Some (maxlen r).
Proof.
  induction r as [| |p|a IHa b IHb|a IHa b IHb]; simpl; intros Hn; try done; eauto.
  - apply andb_true_iff in Hn as [Ha Hb].
    destruct (IHa Ha) as [x ->], (IHb Hb) as [y ->]. eauto.
  - apply orb_true_iff in Hn as [Ha|Hb].
    + destruct (IHa Ha) as [x ->]. destruct (maxlen b); eauto.
    + destruct (IHb Hb) as [y ->]. destruct (maxlen a); eauto.
Qed.

Lemma deriv_maxlen c r n' :
  maxlen (deriv c r) = Some n' ->
  exists n, maxlen r = Some n /\ (S n' <= n)%nat.
Proof.
  revert n'. induction r as [| |p|a IHa b IHb|a IHa b IHb]; simpl; intros n' Hd.
  - discriminate.
  - discriminate.
  - destruct (p c); simpl in Hd; [|discriminate]. injection Hd as <-. eauto.
  - destruct (nullable a) eqn:Na; simpl in Hd.
    + destruct (nullable_maxlen a Na) as [na Ea]. rewrite Ea.
      destruct (maxlen (deriv c a)) as [x1|] eqn:Eda.
      * destruct (IHa _ eq_refl) as (na' & Ea' & La). rewrite Ea in Ea'.
        injection Ea' as <-.
        destruct (maxlen b) as [y|] eqn:Eb.
        -- destruct (maxlen (deriv c b)) as [z|] eqn:Edb.
           ++ destruct (IHb _ eq_refl) as (nb & Eb' & Lb). injection Eb' as <-.
              injection Hd as <-. eexists; split; [reflexivity|lia].
           ++ injection Hd as <-. eexists; split; [reflexivity|lia].
        -- destruct (maxlen (deriv c b)) as [z|] eqn:Edb.
           ++ destruct (IHb _ eq_refl) as (nb & Eb' & Lb). discriminate.
           ++ discriminate.
      * destruct (maxlen (deriv c b)) as [z|] eqn:Edb; [|discriminate].
        destruct (IHb _ eq_refl) as (nb & Eb' & Lb). rewrite Eb'.
        injection Hd as <-. eexists; split; [reflexivity|lia].
    + destruct (maxlen (deriv c a)) as [x1|] eqn:Eda; [|discriminate].
      destruct (IHa _ eq_refl) as (na & Ea & La). rewrite Ea.
      destruct (maxlen b) as [y|]; [|discriminate].
      injection Hd as <-. eexists; split; [reflexivity|lia].
  - destruct (maxlen (deriv c a)) as [x1|] eqn:Eda.
    + destruct (IHa _ eq_refl) as (na & Ea & La). rewrite Ea.
      destruct (maxlen (deriv c b)) as [z|] eqn:Edb.
      * destruct (IHb _ eq_refl) as (nb & Eb & Lb). rewrite Eb.
        injection Hd as <-. eexists; split; [reflexivity|lia].
      * injection Hd as <-. destruct (maxlen b); eexists; split; try reflexivity; lia.
    + destruct (maxlen (deriv c b)) as [z|] eqn:Edb; [|discriminate].
      destruct (IHb _ eq_refl) as (nb & Eb & Lb). rewrite Eb.
      injection Hd as <-. destruct (maxlen a); eexists; split; try reflexivity; lia.
Qed.

(** An accepted string is no longer than the pattern allows. *)
Lemma test_length r s :
  test r s = true -> exists n, maxlen r = Some n /\ (String.length s <= n)%nat.
Proof.
  revert r. induction s as [|c s IH]; intros r Ht; simpl in Ht.
  - destruct (nullable_maxlen r Ht) as [n En]. exists n. split; [done|simpl; lia].
  - destruct (dead (deriv c r)); [discriminate|].
    destruct (IH _ Ht) as (n' & En' & Ln').
    destruct (deriv_maxlen c r n' En') as (n & En & Ln).
    exists n. split; [done|simpl; lia].
Qed.

Lemma length_zeros n : String.length (zeros n) = n.
Proof. induction n; simpl; congruence. Qed.

Lemma length_app (a b : string) :
  String.length (a +:+ b) = (String.length a + String.length b)%nat.
Proof. induction a as [|c a IH]; simpl; [reflexivity|]. by rewrite IH. Qed.

Lemma length_padStart0 n s : (n <= String.length (padStart0 n s))%nat.
Proof.
  unfold padStart0. rewrite length_app, length_zeros. lia.
Qed.

End RegexFacts.

Section CalendarFacts.
Import Calendar.

(** The date text and the day number convert into each other, for every
    day from 2020-01-01 to 2030-12-31. *)
Lemma date_roundtrip_table :
  forallb date_roundtrip_ok (Booking.zrange 18262 4018) = true.
Proof. vm_compute. reflexivity. Qed.

Lemma date_roundtrip d :
  18262 <= d < 22280 -> date_of_string (format_date d) = Some d.
Proof.
  intros Hd. pose proof date_roundtrip_table as T. rewrite forallb_forall in T.
  specialize (T d (zrange_In 18262 4018 d ltac:(lia))).
  by apply bool_decide_eq_true in T.
Qed.

(** So do a whole minute of the day and its text. *)
Lemma time_roundtrip_table :
  forallb (fun m => time_roundtrip_ok (60 * m)) (Booking.zrange 0 1440) = true.
Proof. vm_compute. reflexivity. Qed.

Lemma time_roundtrip m :
  0 <= m < 1440 -> time_of_string (time_to_string (60 * m)) = Some (60 * m).
Proof.
  intros Hm. pose proof time_roundtrip_table as T. rewrite forallb_forall in T.
  specialize (T m (zrange_In 0 1440 m ltac:(lia))).
  by apply bool_decide_eq_true in T.
Qed.

End CalendarFacts.

Section SlotFacts.
Import Http Slots.
Context `{SqlEngine}.
Implicit Types (t : table) (r : time_slot).

(** The half-open rule implies one of the three tested conditions, for any
    stored row and any bound interval. *)
Lemma tested_of_half_open r s e :
  start_time r < e -> s < end_time r -> tested_overlap r s e = true.
Proof.
  intros H1 H2. unfold tested_overlap.
  destruct (Z.leb_spec (start_time r) s), (Z.ltb_spec s (end_time r)),
    (Z.ltb_spec (start_time r) e), (Z.leb_spec e (end_time r)),
    (Z.leb_spec s (start_time r)), (Z.leb_spec (end_time r) e);
    simpl; try reflexivity; lia.
Qed.

(** Conversely when both intervals are non-empty. *)
Lemma half_open_of_tested r s e :
  start_time r < end_time r -> s < e ->
  tested_overlap r s e = true -> start_time r < e /\ s < end_time r.
Proof.
  intros Hr Hn. unfold tested_overlap.
  destruct (Z.leb_spec (start_time r) s), (Z.ltb_spec s (end_time r)),
    (Z.ltb_spec (start_time r) e), (Z.leb_spec e (end_time r)),
    (Z.leb_spec s (start_time r)), (Z.leb_spec (end_time r) e);
    simpl; intros; try discriminate; lia.
Qed.

Lemma elem_of_select {A} (P : Z -> A -> bool) (m : gmap Z A) k x :
  In (k, x) (select P m) <-> m !! k = Some x /\ P k x = true.
Proof.
  unfold select. rewrite filter_In. simpl.
  rewrite <- list_elem_of_In, elem_of_map_to_list. reflexivity.
Qed.

Lemma select_nil {A} (P : Z -> A -> bool) (m : gmap Z A) :
  select P m = [] <-> forall k x, m !! k = Some x -> P k x = false.
Proof.
  split.
  - intros E k x Hk. destruct (P k x) eqn:HP; [|reflexivity].
    assert (I : In (k, x) (select P m)) by (apply elem_of_select; auto).
    rewrite E in I. destruct I.
  - intros Hall. destruct (select P m) as [|[k x] l] eqn:E; [reflexivity|].
    assert (I : In (k, x) (select P m)) by (rewrite E; left; reflexivity).
    apply elem_of_select in I as [Hk HP]. rewrite (Hall k x Hk) in HP. discriminate.
Qed.

Lemma next_id_bound {A} (m : gmap Z A) k :
  is_Some (m !! k) -> k < next_id m.
Proof.
  unfold next_id. revert k.
  apply (map_fold_weak_ind
    (fun acc (m' : gmap Z A) => forall k, is_Some (m' !! k) -> k < 1 + acc)).
  - intros k [x Hx]. rewrite lookup_empty in Hx. discriminate.
  - intros i x m' acc Hi IH k Hk.
    destruct (decide (i = k)) as [->|Hne]; [lia|].
    rewrite lookup_insert_ne in Hk by done. specialize (IH k Hk). lia.
Qed.

Lemma next_id_fresh {A} (m : gmap Z A) : m !! next_id m = None.
Proof.
  destruct (m !! next_id m) eqn:E; [|reflexivity].
  assert (L : next_id m < next_id m) by (apply next_id_bound; eauto). lia.
Qed.

Lemma same_scope_eq c p : same_scope c p = true <-> c = p.
Proof.
  destruct c as [a|], p as [b|]; simpl; split; intros E; try done.
  - apply Z.eqb_eq in E. by subst.
  - injection E as ->. apply Z.eqb_refl.
Qed.

Lemma no_overlapb_spec t : no_overlapb t = true <-> no_overlap t.
Proof.
  unfold no_overlapb, no_overlap. rewrite forallb_forall. split.
  - intros Hall i j a b Hij Hi Hj Aa Ab Hd Hc [O1 O2].
    assert (Ii : In (i, a) (map_to_list t))
      by (apply list_elem_of_In, elem_of_map_to_list; done).
    assert (Ij : In (j, b) (map_to_list t))
      by (apply list_elem_of_In, elem_of_map_to_list; done).
    specialize (Hall _ Ii). rewrite forallb_forall in Hall.
    specialize (Hall _ Ij). unfold conflictb in Hall. simpl in Hall.
    rewrite Aa, Ab, Hd, Z.eqb_refl, Hc in Hall.
    rewrite bool_decide_eq_true_2 in Hall by done.
    destruct (Z.eqb_spec i j); [done|].
    destruct (Z.ltb_spec (start_time a) (end_time b)); [|lia].
    destruct (Z.ltb_spec (start_time b) (end_time a)); [|lia].
    discriminate.
  - intros Hno [i a] Ii. apply forallb_forall. intros [j b] Ij.
    apply list_elem_of_In, elem_of_map_to_list in Ii.
    apply list_elem_of_In, elem_of_map_to_list in Ij.
    unfold conflictb. simpl.
    destruct (Z.eqb_spec i j) as [|Hij]; [done|]. simpl.
    destruct (available a) eqn:Aa; [|done].
    destruct (available b) eqn:Ab; [|done]. simpl.
    destruct (Z.eqb_spec (date a) (date b)) as [Hd|]; [|done]. simpl.
    destruct (bool_decide_reflect (service_category_id a = service_category_id b))
      as [Hc|]; [|done]. simpl.
    destruct (Z.ltb_spec (start_time a) (end_time b)); [|done].
    destruct (Z.ltb_spec (start_time b) (end_time a)); [|done].
    exfalso. apply (Hno i j a b); try done.
Qed.




(** A TIME value as the driver returns it never passes the slot pattern:
    it is at least eight characters long, the pattern accepts at most five. *)
Lemma rendered_time_rejected z :
  JS.test timeRegex (Calendar.time_to_string z) = false.
Proof.
  destruct (JS.test timeRegex (Calendar.time_to_string z)) eqn:E; [|done].
  apply test_length in E as (n & En & Ln).
  vm_compute in En. injection En as <-.
  unfold Calendar.time_to_string, Calendar.pad in Ln.
  rewrite !length_app in Ln. simpl in Ln.
  pose proof (length_padStart0 2 (JS.number_toString (z / 3600))).
  pose proof (length_padStart0 2 (JS.number_toString (z / 60 mod 60))).
  pose proof (length_padStart0 2 (JS.number_toString (z mod 60))).
  lia.
Qed.







(** The create handler answers with the conflict error exactly when a
    stored slot of the same date and category scope, available, meets one
    of the three tested conditions. *)
Lemma createTimeSlot_conflict_iff b t x y dt cat d s e :
  cb_start_time b = Val x -> cb_end_time b = Val y -> cb_date b = Val dt ->
  JS.truthy x = true -> JS.truthy y = true -> JS.truthy dt = true ->
  JS.test timeRegex x = true -> JS.test timeRegex y = true ->
  JS.str_geb x y = false ->
  bind (cb_service_category_id b) = Some cat ->
  Calendar.date_of_string dt = Some d ->
  Calendar.time_of_string x = Some s -> Calendar.time_of_string y = Some e ->
  (createTimeSlot b t).1 =
     bad_request "Time slot overlaps with existing available slot" <->
  exists k r, t !! k = Some r /\ available r = true /\ date r = d /\
    service_category_id r = cat /\ tested_overlap r s e = true.
Proof.
  intros Ex Ey Ed Tx Ty Td Rx Ry Ho Bc Pd Px Py.
  unfold createTimeSlot. rewrite Ex, Ey, Ed, Tx, Ty, Td. simpl.
  rewrite Rx, Ry, Ho, Bc, Pd, Px, Py. simpl.
  set (P := fun (_ : Z) (r : time_slot) =>
    (date r =? d) && available r && same_scope (service_category_id r) cat &&
    tested_overlap r s e).
  destruct (bool_decide_reflect (select P t = [])) as [E|NE]; simpl.
  - split.
    + repeat case_match; simpl; discriminate.
    + intros (k & r & Hk & Ha & Hd & Hc & Ho').
      pose proof (proj1 (select_nil _ _) E k r Hk) as F. unfold P in F.
      rewrite Hd, Z.eqb_refl, Ha, Ho', (proj2 (same_scope_eq _ _) Hc) in F.
      discriminate.
  - split; [intros _|done].
    destruct (select P t) as [|[k r] l] eqn:E; [done|].
    assert (I : In (k, r) (select P t)) by (rewrite E; left; done).
    apply elem_of_select in I as [Hk HP]. unfold P in HP.
    repeat (apply andb_true_iff in HP as [HP ?]).
    exists k, r. repeat split; try done.
    + by apply Z.eqb_eq.
    + by apply same_scope_eq.
Qed.

(** On non-empty intervals the three tested conditions are the half-open
    rule [s1 < e2 /\ s2 < e1]. *)
Lemma tested_overlap_half_open r s e :
  start_time r < end_time r -> s < e ->
  tested_overlap r s e = true <-> start_time r < e /\ s < end_time r.
Proof.
  intros Hr Hn. split.
  - by apply half_open_of_tested.
  - intros [? ?]. by apply tested_of_half_open.
Qed.

(** Hence, for a request whose start precedes its end as times and a table
    whose rows all do, the conflict error is returned exactly when a stored
    slot of the date and scope, available, overlaps the requested interval
    under the half-open rule. *)
Lemma createTimeSlot_conflict_half_open b t x y dt cat d s e :
  cb_start_time b = Val x -> cb_end_time b = Val y -> cb_date b = Val dt ->
  JS.truthy x = true -> JS.truthy y = true -> JS.truthy dt = true ->
  JS.test timeRegex x = true -> JS.test timeRegex y = true ->
  JS.str_geb x y = false ->
  bind (cb_service_category_id b) = Some cat ->
  Calendar.date_of_string dt = Some d ->
  Calendar.time_of_string x = Some s -> Calendar.time_of_string y = Some e ->
  s < e ->
  (forall k r, t !! k = Some r -> start_time r < end_time r) ->
  (createTimeSlot b t).1 =
     bad_request "Time slot overlaps with existing available slot" <->
  exists k r, t !! k = Some r /\ available r = true /\ date r = d /\
    service_category_id r = cat /\ start_time r < e /\ s < end_time r.
Proof.
  intros Ex Ey Ed Tx Ty Td Rx Ry Ho Bc Pd Px Py Hse Hreg.
  rewrite (createTimeSlot_conflict_iff b t x y dt cat d s e) by assumption.
  split; intros (k & r & Hk & Ha & Hd & Hc & Ht); exists k, r;
    repeat split; try done.
  - by apply (half_open_of_tested r s e (Hreg k r Hk) Hse).
  - by apply (half_open_of_tested r s e (Hreg k r Hk) Hse).
  - destruct Ht. by apply tested_of_half_open.
Qed.

(** *** Requests written with two-digit hours

    For such texts the string order of the handler agrees with the order
    of the times, and the create handler does what the overlap rule asks. *)
Lemma str_ltb_trans a b c :
  JS.str_ltb a b = true -> JS.str_ltb b c = true -> JS.str_ltb a c = true.
Proof.
  revert b c. induction a as [|x a IH]; intros [|y b] [|z c]; simpl; try done.
  destruct (Nat.ltb_spec (nat_of_ascii x) (nat_of_ascii y)),
           (Nat.ltb_spec (nat_of_ascii y) (nat_of_ascii x)),
           (Nat.ltb_spec (nat_of_ascii y) (nat_of_ascii z)),
           (Nat.ltb_spec (nat_of_ascii z) (nat_of_ascii y)),
           (Nat.ltb_spec (nat_of_ascii x) (nat_of_ascii z)),
           (Nat.ltb_spec (nat_of_ascii z) (nat_of_ascii x));
    try done; try lia.
  apply IH.
Qed.

Lemma hhmm_text_table : forallb hhmm_text_ok (Booking.zrange 0 1440) = true.
Proof. vm_compute. reflexivity. Qed.

Lemma hhmm_text_facts m :
  0 <= m < 1440 ->
  JS.truthy (hhmm_text m) = true /\ JS.test timeRegex (hhmm_text m) = true /\
  Calendar.time_of_string (hhmm_text m) = Some (60 * m) /\
  (m < 1439 -> JS.str_ltb (hhmm_text m) (hhmm_text (m + 1)) = true).
Proof.
  intros Hm. pose proof hhmm_text_table as T. rewrite forallb_forall in T.
  specialize (T m (zrange_In 0 1440 m ltac:(lia))). unfold hhmm_text_ok in T.
  apply andb_true_iff in T as [T Hn]. apply andb_true_iff in T as [T Hp].
  apply andb_true_iff in T as [Ht Hr]. apply bool_decide_eq_true in Hp.
  repeat split; try done.
  intros Hlt. destruct (Z.ltb_spec m 1439); [done|lia].
Qed.

Lemma hhmm_text_lt a b :
  0 <= a -> a < b -> b < 1440 ->
  JS.str_ltb (hhmm_text a) (hhmm_text b) = true.
Proof.
  intros Ha Hab Hb.
  replace b with (a + 1 + Z.of_nat (Z.to_nat (b - a - 1))) in * by lia.
  induction (Z.to_nat (b - a - 1)) as [|n IH].
  - rewrite Z.add_0_r. apply hhmm_text_facts; lia.
  - apply (str_ltb_trans _ (hhmm_text (a + 1 + Z.of_nat n))).
    + apply IH; lia.
    + replace (a + 1 + Z.of_nat (S n)) with (a + 1 + Z.of_nat n + 1) by lia.
      apply hhmm_text_facts; lia.
Qed.

Lemma createTimeSlot_two_digit_hours b t m1 m2 dt cat d :
  cb_start_time b = Val (hhmm_text m1) -> cb_end_time b = Val (hhmm_text m2) ->
  cb_date b = Val dt -> JS.truthy dt = true ->
  bind (cb_service_category_id b) = Some cat ->
  Calendar.date_of_string dt = Some d ->
  0 <= m1 -> m1 < m2 -> m2 < 1440 ->
  (forall k r, t !! k = Some r -> start_time r < end_time r) ->
  (createTimeSlot b t).1 =
     bad_request "Time slot overlaps with existing available slot" <->
  exists k r, t !! k = Some r /\ available r = true /\ date r = d /\
    service_category_id r = cat /\
    start_time r < 60 * m2 /\ 60 * m1 < end_time r.
Proof.
  intros Ex Ey Ed Td Bc Pd H0 H12 H2 Hreg.
  destruct (hhmm_text_facts m1 ltac:(lia)) as (T1 & R1 & P1 & _).
  destruct (hhmm_text_facts m2 ltac:(lia)) as (T2 & R2 & P2 & _).
  apply (createTimeSlot_conflict_half_open b t (hhmm_text m1) (hhmm_text m2)
           dt cat d (60 * m1) (60 * m2)); try done.
  - unfold JS.str_geb. by rewrite hhmm_text_lt.
  - lia.
Qed.

End SlotFacts.

Section AvailabilityClaims.
Import Http Slots Sample.
Context `{SqlEngine}.

(** C1, evaluated where the handler departs from it. The create handler
    compares the two time texts with JavaScript's string order although
    its pattern admits one-digit hours. The two examples of the claim
    behave as stated
    (09:15-09:45 next to 09:00-09:30 is a conflict, the touching
    09:30-10:00 is inserted), but "10:00" to "9:00" passes both checks: next
    to 09:00-11:00 it is answered with the conflict error although the
    stored slot does not overlap it under the half-open rule, and on an
    empty table it is stored with its end before its start; "9:15" to
    "10:00", which does overlap 09:00-09:30, is turned away with the
    end-before-start message instead of the conflict error. *)
Theorem C1_create_compares_times_as_text :
  (createTimeSlot (create_req "09:15" "09:45") morning).1 =
    bad_request "Time slot overlaps with existing available slot" /\
  status (createTimeSlot (create_req "09:30" "10:00") morning).1 = 201 /\
  (createTimeSlot (create_req "09:30" "10:00") morning).2 !! 2 =
    Some (slot 34200 36000 true None) /\
  JS.test timeRegex "10:00" = true /\ JS.test timeRegex "9:00" = true /\
  JS.str_geb "10:00" "9:00" = false /\
  (createTimeSlot (create_req "10:00" "9:00") long_morning).1 =
    bad_request "Time slot overlaps with existing available slot" /\
  ~ overlaps (slot 32400 39600 true None) (slot 36000 32400 true None) /\
  createTimeSlot (create_req "10:00" "9:00") ∅ =
    (Response 201 "Time slot created successfully",
     {[ 1 := slot 36000 32400 true None ]}) /\
  (createTimeSlot (create_req "9:15" "10:00") morning).1 =
    bad_request "End time must be after start time" /\
  overlaps (slot 32400 34200 true None) (slot 33300 36000 true None).
Proof.
  repeat split; try (vm_compute; reflexivity).
  unfold overlaps. simpl. lia.
Qed.


End AvailabilityClaims.

Section AvailabilityExamples.
Import Http Slots Sample.



End AvailabilityExamples.

Section AppointmentFacts.
Import Http Appointments.
Context `{SqlEngine}.

Lemma replace_prefix s :
  JS.replace "appointment_" EmptyString ("appointment_" +:+ s) = s.
Proof. reflexivity. Qed.

Lemma replace_absent pat s :
  JS.includes pat s = false -> JS.replace pat EmptyString s = s.
Proof.
  induction s as [|c s IH]; simpl; intros Hi.
  - apply orb_false_iff in Hi as [-> _]. reflexivity.
  - apply orb_false_iff in Hi as [Hs Hr]. rewrite Hs. by rewrite IH.
Qed.

Lemma alter_set_status_twice v k (t : gmap Z appointment) :
  alter (set_status v) k (alter (set_status v) k t) = alter (set_status v) k t.
Proof.
  apply map_eq. intros j. destruct (decide (k = j)) as [->|Hne].
  - rewrite !lookup_alter_eq. by destruct (t !! j).
  - by rewrite !lookup_alter_ne.
Qed.

Lemma add_field_falsy col f acc :
  supplied JS.truthy f = false -> add_field col f acc = acc.
Proof.
  unfold add_field. destruct f as [| |v]; simpl; try done. by intros ->.
Qed.

Lemma confirm_decimal id (t : gmap Z appointment) :
  confirm_appointment (JS.number_toString id) t =
    Some (alter (set_status (Some "confirmed")) id t).
Proof.
  unfold confirm_appointment. by rewrite strict_ok_decimal, int_of_text_decimal.
Qed.

Lemma bind_present {A} (o : option A) : bind (present o) = Some o.
Proof. by destruct o. Qed.

Lemma webhook_completed_for pid id d :
  ziinaWebhook (completed_for pid id) d =
    (Response 200 "Webhook processed successfully",
     Db (default (payments d)
           (update_payment_status (Some "completed") pid (payments d)))
        (alter (set_status (Some "confirmed")) id (appointments d)),
     [UpdatePaymentStatus (Some "completed") pid;
      ConfirmAppointment (JS.number_toString id)]).
Proof.
  unfold ziinaWebhook, completed_for, confirm_appointment.
  cbn [wb_status wb_payment_id wb_order_id]. rewrite bind_present. simpl.
  change (EmptyString +:+ EmptyString +:+ JS.number_toString id)
    with (JS.number_toString id).
  rewrite strict_ok_decimal, int_of_text_decimal. reflexivity.
Qed.

(** C7, in the form the handler satisfies: a notification that carries a
    payment_id (a text or null), status completed and order_id
    appointment_<id> is answered with 200 and leaves appointment <id> with
    status confirmed, whatever its status was; no other appointment
    changes; delivering the same notification again is answered with 200
    and leaves the appointments table as the first delivery left it. *)
Theorem C7_completed_webhook_confirms pid id a d :
  appointments d !! id = Some a ->
  let r1 := ziinaWebhook (completed_for pid id) d in
  let r2 := ziinaWebhook (completed_for pid id) r1.1.2 in
  r1.1.1 = Response 200 "Webhook processed successfully" /\
  appointments r1.1.2 !! id = Some (set_status (Some "confirmed") a) /\
  status <$> (appointments r1.1.2 !! id) = Some (Some "confirmed") /\
  (forall j, j <> id -> appointments r1.1.2 !! j = appointments d !! j) /\
  r2.1.1 = Response 200 "Webhook processed successfully" /\
  appointments r2.1.2 = appointments r1.1.2 /\
  status <$> (appointments r2.1.2 !! id) = Some (Some "confirmed").
Proof.
  intros Ha. cbv zeta. rewrite !webhook_completed_for. simpl.
  rewrite alter_set_status_twice, lookup_alter_eq, Ha. simpl.
  repeat split; try done.
  intros j Hne. by rewrite lookup_alter_ne.
Qed.

(** C9: for an appointment the caller owns, a patch in which status,
    appointment_date and appointment_time are all missing (or otherwise
    falsy) makes the handler assemble a statement without its SET clause;
    the engine refuses it, the request is answered with 500 and the table is
    unchanged. *)
Theorem C9_empty_patch_fails id uid k a p (t : gmap Z appointment) :
  int_of_text id = Some k -> t !! k = Some a -> user_id a = uid ->
  supplied JS.truthy (p_status p) = false ->
  supplied JS.truthy (p_appointment_date p) = false ->
  supplied JS.truthy (p_appointment_time p) = false ->
  (build_update id uid p).1 = "UPDATE appointments SE WHERE id = ? AND user_id = ?" /\
  parse_update (build_update id uid p).1 = None /\
  execute_update (build_update id uid p).1 (build_update id uid p).2 t = None /\
  updateAppointment uid id p t = (Response 500 "Server error", t).
Proof.
  intros Hid Hk Hu Hs Hd Ht.
  assert (B : build_update id uid p =
              ("UPDATE appointments SE WHERE id = ? AND user_id = ?",
               [VText id; VInt uid])).
  { unfold build_update. rewrite !add_field_falsy by assumption. reflexivity. }
  assert (O : select_owned id uid t = Some (k, a)).
  { unfold select_owned. rewrite Hid. simpl. rewrite Hk. simpl.
    by rewrite Hu, Z.eqb_refl. }
  unfold updateAppointment. rewrite O, B. simpl.
  repeat split; reflexivity.
Qed.

(** C10, in the form the handler satisfies: deleting the text
    appointment_ changes nothing when that text does not occur in
    order_id; so for a completed-payment notification that carries a
    payment_id (a text or null) and whose order_id is non-empty and does
    not contain that text, the handler sends the confirmation update with
    the whole order_id as the appointment id, and when the engine reads
    that text as the key of a stored appointment, that appointment is
    confirmed. *)
Theorem C10_whole_order_id_is_used pid o d :
  JS.truthy o = true -> JS.includes "appointment_" o = false ->
  let r := ziinaWebhook (WebhookBody (present pid) (Val "completed") (Val o)) d in
  JS.replace "appointment_" EmptyString o = o /\
  r.2 = [UpdatePaymentStatus (Some "completed") pid; ConfirmAppointment o] /\
  (forall k a, strict_ok o = true -> int_of_text o = Some k ->
     appointments d !! k = Some a ->
     r.1.1 = Response 200 "Webhook processed successfully" /\
     appointments r.1.2 !! k = Some (set_status (Some "confirmed") a)).
Proof.
  intros Ho Hi. cbv zeta. pose proof (replace_absent _ _ Hi) as R.
  unfold ziinaWebhook. cbn [wb_status wb_payment_id wb_order_id].
  rewrite bind_present. simpl. rewrite Ho, R. simpl.
  split; [done|]. unfold confirm_appointment.
  destruct (strict_ok o) eqn:S; simpl; (split; [done|]).
  - intros k a _ Hk Ha. rewrite Hk. simpl. by rewrite lookup_alter_eq, Ha.
  - intros k a Hs. discriminate.
Qed.

End AppointmentFacts.

Section AppointmentExamples.
Import Http Appointments Sample.

Lemma C7_witness :
  let r1 := @ziinaWebhook decimal_engine (completed_for (Some "pay_1") 42)
              (Db ∅ booked) in
  let r2 := @ziinaWebhook decimal_engine (completed_for (Some "pay_1") 42) r1.1.2 in
  r1.1.1 = Response 200 "Webhook processed successfully" /\
  appointments r1.1.2 !! 42 = Some (set_status (Some "confirmed") booking) /\
  status <$> (appointments r1.1.2 !! 42) = Some (Some "confirmed") /\
  (forall j, j <> 42 -> appointments r1.1.2 !! j = appointments (Db ∅ booked) !! j) /\
  r2.1.1 = Response 200 "Webhook processed successfully" /\
  appointments r2.1.2 = appointments r1.1.2 /\
  status <$> (appointments r2.1.2 !! 42) = Some (Some "confirmed").
Proof.
  apply (@C7_completed_webhook_confirms decimal_engine (Some "pay_1") 42 booking
           (Db ∅ booked)).
  reflexivity.
Defined.

(** C7 in its original wording fails: a body with status completed and
    order_id appointment_42 but without payment_id hands [undefined] to the
    first statement; the driver refuses it, nothing is sent, the response
    is 500 and appointment 42 keeps its status. *)
Lemma C7_counterexample :
  @ziinaWebhook decimal_engine
    (WebhookBody Absent (Val "completed") (Val "appointment_42")) (Db ∅ booked) =
    (Response 500 "Internal server error", Db ∅ booked, []) /\
  status <$> (booked !! 42) = Some (Some "pending").
Proof. split; vm_compute; reflexivity. Qed.

Lemma C9_witness :
  (@build_update "42" 5 (Patch Absent Absent Absent)).1 =
    "UPDATE appointments SE WHERE id = ? AND user_id = ?" /\
  parse_update (build_update "42" 5 (Patch Absent Absent Absent)).1 = None /\
  @execute_update decimal_engine (build_update "42" 5 (Patch Absent Absent Absent)).1
    (build_update "42" 5 (Patch Absent Absent Absent)).2 booked = None /\
  @updateAppointment decimal_engine 5 "42" (Patch Absent Absent Absent) booked =
    (Response 500 "Server error", booked).
Proof.
  apply (@C9_empty_patch_fails decimal_engine "42" 5 42 booking
           (Patch Absent Absent Absent) booked); reflexivity.
Defined.

Lemma C10_witness :
  let r := @ziinaWebhook decimal_engine
             (WebhookBody (present (Some "pay_1")) (Val "completed") (Val "42"))
             (Db ∅ booked) in
  JS.replace "appointment_" EmptyString "42" = "42" /\
  r.2 = [UpdatePaymentStatus (Some "completed") (Some "pay_1");
         ConfirmAppointment "42"] /\
  (forall k a, @strict_ok decimal_engine "42" = true ->
     @int_of_text decimal_engine "42" = Some k ->
     appointments (Db ∅ booked) !! k = Some a ->
     r.1.1 = Response 200 "Webhook processed successfully" /\
     appointments r.1.2 !! k = Some (set_status (Some "confirmed") a)).
Proof.
  apply (@C10_whole_order_id_is_used decimal_engine (Some "pay_1") "42"
           (Db ∅ booked)); reflexivity.
Defined.

(** C10 in its original wording fails: an order_id may lack the prefix
    and still contain the text, and then the id sent is not the whole
    order_id; the empty order_id, which has no prefix either, sends no
    confirmation at all; nor does a body without payment_id. *)
Lemma C10_counterexample :
  JS.startsWith "appointment_" "xappointment_42" = false /\
  (@ziinaWebhook decimal_engine
     (WebhookBody (Val "pay_1") (Val "completed") (Val "xappointment_42"))
     (Db ∅ booked)).2 =
    [UpdatePaymentStatus (Some "completed") (Some "pay_1"); ConfirmAppointment "x42"] /\
  "x42" <> "xappointment_42" /\
  JS.startsWith "appointment_" EmptyString = false /\
  (@ziinaWebhook decimal_engine
     (WebhookBody (Val "pay_1") (Val "completed") (Val EmptyString)) (Db ∅ booked)).2 =
    [UpdatePaymentStatus (Some "completed") (Some "pay_1")] /\
  JS.startsWith "appointment_" "42" = false /\
  (@ziinaWebhook decimal_engine
     (WebhookBody Absent (Val "completed") (Val "42")) (Db ∅ booked)).2 = [].
Proof. repeat split; try (vm_compute; reflexivity). discriminate. Qed.

End AppointmentExamples.

Section ListingFacts.
Import Http Slots Sample.
Context `{SqlEngine}.

#[local] Instance by_start_time_total : Total by_start_time.
Proof. intros a b. unfold by_start_time. lia. Qed.

(** The three ways the category parameter is read. An empty text is falsy
    in JavaScript, so the comparison with [''] in the inner test is never
    reached and the parameter counts as omitted. *)
Lemma category_condition_omitted c : category_condition None c = true.
Proof. reflexivity. Qed.

Lemma category_condition_empty c : category_condition (Some EmptyString) c = true.
Proof. reflexivity. Qed.

Lemma category_condition_null c :
  category_condition (Some "null") c = bool_decide (c = None).
Proof. reflexivity. Qed.

Lemma category_condition_id q v c :
  JS.truthy q = true -> q <> "null" -> int_of_text q = Some v ->
  category_condition (Some q) c = bool_decide (c = Some v).
Proof.
  intros Tq Nq Iq. unfold category_condition. rewrite Tq.
  destruct (String.eqb_spec q "null"); [done|].
  destruct (String.eqb_spec q EmptyString); [subst; discriminate|]. simpl.
  rewrite Iq. destruct c as [w|]; [|done].
  destruct (decide (w = v)) as [->|Hne].
  - by rewrite !bool_decide_eq_true_2.
  - rewrite !bool_decide_eq_false_2; congruence.
Qed.

(** The rows the slot listing returns for a date given in plain form. *)
Lemma listAvailableTimeSlots_rows dt cid t d k r :
  JS.truthy dt = true -> JS.includes "T" dt = false ->
  Calendar.date_of_string dt = Some d ->
  In (k, r) (listAvailableTimeSlots (Some dt) cid t).2 <->
  t !! k = Some r /\ date r = d /\ available r = true /\
  category_condition cid (service_category_id r) = true.
Proof.
  intros Td Ti Pd. unfold listAvailableTimeSlots. rewrite Td, Ti, Pd. simpl.
  rewrite <- list_elem_of_In, merge_sort_Permutation, list_elem_of_In.
  rewrite elem_of_select. simpl. rewrite !andb_true_iff, Z.eqb_eq. tauto.
Qed.

Lemma listAvailableTimeSlots_sorted dt cid t :
  Sorted by_start_time (listAvailableTimeSlots dt cid t).2.
Proof.
  unfold listAvailableTimeSlots.
  repeat case_match; simpl; first [apply Sorted_nil | apply Sorted_merge_sort; apply _].
Qed.

Lemma listAvailableDates_rows today cid (t : gmap Z available_date) k r :
  In (k, r) (listAvailableDates today cid t) <->
  t !! k = Some r /\ ad_is_available r = Some true /\ today <= ad_date r /\
  category_condition cid (ad_service_category_id r) = true.
Proof.
  unfold listAvailableDates.
  rewrite <- list_elem_of_In, merge_sort_Permutation, list_elem_of_In.
  rewrite elem_of_select. simpl.
  rewrite !andb_true_iff, bool_decide_eq_true, Z.leb_le. tauto.
Qed.

End ListingFacts.

Section ListingExamples.
Import Http Slots Sample.

(** C6, evaluated where the handlers depart from it. With the parameter
    omitted both listings return the rows of every category, with "null" only the
    uncategorised rows and with "7" only the rows of category 7; but with
    the empty text, which the claim counts as a request for uncategorised
    rows, they return what they return when the parameter is omitted, the
    row of category 7 included. *)
Theorem C6_empty_category_is_not_filtered :
  (@listAvailableTimeSlots decimal_engine (Some day) None mixed).2 =
    [(1, slot 32400 34200 true None); (2, slot 36000 37800 true (Some 7))] /\
  (@listAvailableTimeSlots decimal_engine (Some day) (Some "null") mixed).2 =
    [(1, slot 32400 34200 true None)] /\
  (@listAvailableTimeSlots decimal_engine (Some day) (Some "7") mixed).2 =
    [(2, slot 36000 37800 true (Some 7))] /\
  (@listAvailableTimeSlots decimal_engine (Some day) (Some EmptyString) mixed).2 =
    [(1, slot 32400 34200 true None); (2, slot 36000 37800 true (Some 7))] /\
  @listAvailableDates decimal_engine 20157 (Some "null") dates =
    [(1, AvailableDate 20157 None (Some true) (Some 10))] /\
  @listAvailableDates decimal_engine 20157 (Some EmptyString) dates =
    [(1, AvailableDate 20157 None (Some true) (Some 10));
     (2, AvailableDate 20158 (Some 7) (Some true) (Some 10))] /\
  @listAvailableDates decimal_engine 20157 (Some EmptyString) dates =
    @listAvailableDates decimal_engine 20157 None dates.
Proof. repeat split; vm_compute; reflexivity. Qed.

End ListingExamples.

Section RoundTrip.
Import Http Appointments Sample.
Context `{SqlEngine}.

(** The date shown by an instant text is the date of its day number. *)
Lemma date_part_table rest :
  forallb (Calendar.date_part_ok rest) (Booking.zrange 18261 4019) = true.
Proof. vm_compute. reflexivity. Qed.

Lemma date_part_toISOString ms :
  18261 <= ms / 86400000 < 22280 ->
  Calendar.date_part (Calendar.toISOString ms) =
    Calendar.format_date (ms / 86400000).
Proof.
  intros Hd. pose proof (date_part_table
    (Calendar.pad 2 (ms mod 86400000 / 3600000) +:+ ":" +:+
     Calendar.pad 2 (ms mod 86400000 / 60000 mod 60) +:+ ":" +:+
     Calendar.pad 2 (ms mod 86400000 / 1000 mod 60) +:+ "." +:+
     Calendar.pad 3 (ms mod 86400000 mod 1000) +:+ "Z")) as T.
  rewrite forallb_forall in T.
  specialize (T _ (zrange_In 18261 4019 (ms / 86400000) ltac:(lia))).
  unfold Calendar.date_part_ok in T. apply String.eqb_eq in T. exact T.
Qed.

(** Local midnight falls on the same UTC day at and west of UTC and on the
    day before east of it. *)
Lemma local_midnight_day tz d :
  -1440 < tz <= 1440 ->
  Calendar.local_midnight tz d / 86400000 = if 0 <? tz then d - 1 else d.
Proof.
  intros Hz. unfold Calendar.local_midnight.
  destruct (Z.ltb_spec 0 tz).
  - symmetry. apply (Z.div_unique _ _ _ (86400000 - tz * 60000)); lia.
  - symmetry. apply (Z.div_unique _ _ _ (- tz * 60000)); lia.
Qed.

(** What the create handler stores for a date given as YYYY-MM-DD: that
    date, independently of any zone. *)
Lemma createAppointment_stores_date uid b (t : gmap Z appointment) s d :
  cb_appointment_date b = Val s -> Calendar.date_of_string s = Some d ->
  18262 <= d < 22280 ->
  Http.status (createAppointment uid b t).1 = 201 ->
  exists a, (createAppointment uid b t).2 = <[Slots.next_id t := a]> t /\
            user_id a = uid /\ appointment_date a = d.
Proof.
  intros Es Pd Hd. unfold createAppointment. rewrite Es.
  unfold Calendar.Date_parse. rewrite Pd. cbn [fmap option_fmap option_map].
  rewrite date_part_toISOString by (rewrite Z.div_mul by lia; lia).
  rewrite Z.div_mul by lia. rewrite date_roundtrip by assumption.
  repeat case_match; cbn [fst snd Http.status]; try discriminate; intros _.
  all: eexists; split; [reflexivity|]; split; reflexivity.
Qed.

(** The round trip for every date from 2020 to 2030 and every zone: the
    date read back is the date written at and west of UTC, and the day
    before it east of UTC. *)
Lemma date_round_trip tz uid b (t : gmap Z appointment) s d :
  cb_appointment_date b = Val s -> Calendar.date_of_string s = Some d ->
  18262 <= d < 22280 -> -1440 < tz <= 1440 ->
  Http.status (createAppointment uid b t).1 = 201 ->
  (fun j => Calendar.date_part (j_appointment_date j)) <$>
    (getAppointment tz uid (JS.number_toString (Slots.next_id t))
       (createAppointment uid b t).2).2 =
  Some (Calendar.format_date (if 0 <? tz then d - 1 else d)).
Proof.
  intros Es Pd Hd Hz Hs.
  destruct (createAppointment_stores_date uid b t s d Es Pd Hd Hs)
    as (a & -> & Hu & Ha).
  unfold getAppointment, select_owned. rewrite int_of_text_decimal. simpl.
  rewrite lookup_insert_eq. simpl. rewrite Hu, Z.eqb_refl. simpl.
  rewrite Ha. f_equal.
  rewrite date_part_toISOString; rewrite local_midnight_day by assumption;
    [reflexivity|]. destruct (0 <? tz); lia.
Qed.

(** The two dates differ. *)
Lemma format_date_day_before d :
  18263 <= d < 22280 -> Calendar.format_date (d - 1) <> Calendar.format_date d.
Proof.
  intros Hd E.
  pose proof (date_roundtrip (d - 1) ltac:(lia)) as R1.
  pose proof (date_roundtrip d ltac:(lia)) as R2.
  rewrite E, R2 in R1. injection R1. lia.
Qed.

End RoundTrip.

Section RoundTripExamples.
Import Http Appointments Sample.

(** C8, evaluated where the handlers depart from it. Creating the
    appointment stores the date 2025-03-10 whatever the zone, but the read
    handler returns the DATE column as the instant of local midnight
    printed in UTC: with the server four hours east of UTC the response
    shows 2025-03-09T20:00:00.000Z, a different calendar date; at UTC and
    west of it the date is kept. *)
Theorem C8_read_back_date_depends_on_zone :
  (createAppointment 5 booking_req ∅).1 =
    Response 201 "Appointment created successfully" /\
  appointment_date <$> ((createAppointment 5 booking_req ∅).2 !! 1) = Some 20157 /\
  Calendar.format_date 20157 = "2025-03-10" /\
  j_appointment_date <$>
    (@getAppointment decimal_engine 240 5 "1" (createAppointment 5 booking_req ∅).2).2
    = Some "2025-03-09T20:00:00.000Z" /\
  j_appointment_date <$>
    (@getAppointment decimal_engine 0 5 "1" (createAppointment 5 booking_req ∅).2).2
    = Some "2025-03-10T00:00:00.000Z" /\
  j_appointment_date <$>
    (@getAppointment decimal_engine (-300) 5 "1" (createAppointment 5 booking_req ∅).2).2
    = Some "2025-03-10T05:00:00.000Z".
Proof. repeat split; vm_compute; reflexivity. Qed.

End RoundTripExamples.

(** * Further properties *)

Section OtpSendFacts.
Import Otp OtpSend.
Implicit Types (st : gmap string otp_entry) (e : otp_entry).

Lemma formatPhone_idem p : formatPhone (formatPhone p) = formatPhone p.
Proof.
  unfold formatPhone at 2 3. destruct (JS.startsWith "+" p) eqn:E.
  - unfold formatPhone. by rewrite E.
  - reflexivity.
Qed.

Lemma verifyOTP_formatted now p code st :
  verifyOTP now (formatPhone p) code st = verifyOTP now p code st.
Proof. unfold verifyOTP. by rewrite formatPhone_idem. Qed.


Lemma sendWhatsAppOTP_store now code d phone st :
  (sendWhatsAppOTP now code d phone st).1.2 =
    <[formatPhone phone := OtpEntry code (now + 300000) 0]> st.
Proof. unfold sendWhatsAppOTP. by destruct d. Qed.

Lemma sendSMSOTP_store now code d phone st :
  (sendSMSOTP now code d phone st).1.2 =
    <[formatPhone phone := OtpEntry code (now + 300000) 0]> st.
Proof. unfold sendSMSOTP. by destruct d. Qed.

Lemma verify_fresh_entry now1 now2 code phone st :
  now2 <= now1 + 300000 ->
  verifyOTP now2 phone code (<[formatPhone phone := OtpEntry code (now1 + 300000) 0]> st) =
    (Verified, delete (formatPhone phone) st).
Proof.
  intros Ht.
  rewrite (verifyOTP_correct now2 phone _ (OtpEntry code (now1 + 300000) 0)).
  - simpl. by rewrite delete_insert_eq.
  - apply lookup_insert_eq.
  - simpl. lia.
  - simpl. lia.
Qed.

(** X1: a send stores its code under the phone number with a leading [+],
    whatever the delivery does and whatever was stored for the number
    before (an exhausted entry included). The code then verifies up to and
    including 300000 ms after the send, with the number written either
    way; any later call, whatever its code, is answered Expired. Both
    send functions store alike. *)
Theorem send_then_verify_within_five_minutes now1 now2 code code' d phone st :
  let st1 := (sendWhatsAppOTP now1 code d phone st).1.2 in
  (sendSMSOTP now1 code d phone st).1.2 = st1 /\
  (now2 <= now1 + 300000 ->
     verifyOTP now2 phone code st1 = (Verified, delete (formatPhone phone) st) /\
     verifyOTP now2 (formatPhone phone) code st1 =
       (Verified, delete (formatPhone phone) st)) /\
  (now1 + 300000 < now2 ->
     verifyOTP now2 phone code' st1 = (Expired, delete (formatPhone phone) st)).
Proof.
  cbv zeta. rewrite sendWhatsAppOTP_store, sendSMSOTP_store.
  split; [done|]. split.
  - intros Ht. rewrite verifyOTP_formatted. split; by apply verify_fresh_entry.
  - intros Ht.
    rewrite (verifyOTP_expired now2 phone code' _ (OtpEntry code (now1 + 300000) 0)).
    + by rewrite delete_insert_eq.
    + apply lookup_insert_eq.
    + simpl. lia.
Qed.

Lemma send_then_verify_witness :
  verifyOTP 301000 "971501234567" "123456"
    (sendWhatsAppOTP 1000 "123456" (Rejected "timeout") "971501234567"
       Sample.demo_store).1.2 =
    (Verified, delete "+971501234567" Sample.demo_store) /\
  verifyOTP 301001 "971501234567" "123456"
    (sendWhatsAppOTP 1000 "123456" (Rejected "timeout") "971501234567"
       Sample.demo_store).1.2 =
    (Expired, delete "+971501234567" Sample.demo_store).
Proof.
  pose proof (send_then_verify_within_five_minutes 1000 301000 "123456" "123456"
                (Rejected "timeout") "971501234567" Sample.demo_store) as [_ [H1 _]].
  pose proof (send_then_verify_within_five_minutes 1000 301001 "123456" "123456"
                (Rejected "timeout") "971501234567" Sample.demo_store) as [_ [_ H2]].
  split; [apply H1; lia | apply H2; lia].
Defined.

(** X2: a call for one phone number leaves the entry of every other number
    as it was; this holds for [verifyOTP] and for [sendOTP]. *)
Theorem other_numbers_are_untouched now clock codes wa sms phone code st q :
  q <> formatPhone phone ->
  (verifyOTP now phone code st).2 !! q = st !! q /\
  (sendOTP clock codes wa sms phone st).1.2 !! q = st !! q.
Proof.
  intros Hq. split.
  - unfold verifyOTP. destruct (st !! formatPhone phone) as [e|] eqn:E; [|done].
    repeat case_match; simpl;
      first [ by apply lookup_delete_ne | by apply lookup_insert_ne ].
  - unfold sendOTP, sendWhatsAppOTP, sendSMSOTP. cbn [TEST_MODE]. cbv zeta.
    rewrite !formatPhone_idem.
    destruct wa, sms; simpl; rewrite ?lookup_insert_ne; done.
Qed.

Lemma other_numbers_witness :
  (verifyOTP 2000 "971501234567" "000000"
     (<["+15550100" := OtpEntry "654321" 9000 1]> Sample.demo_store)).2 !! "+15550100" =
    Some (OtpEntry "654321" 9000 1).
Proof.
  destruct (other_numbers_are_untouched 2000 (fun _ => 0) (fun _ => EmptyString)
              (Rejected EmptyString) (Rejected EmptyString) "971501234567" "000000"
              (<["+15550100" := OtpEntry "654321" 9000 1]> Sample.demo_store)
              "+15550100") as [H _].
  - discriminate.
  - rewrite H. reflexivity.
Defined.

Lemma verify_outcomes_absent calls phone st :
  st !! formatPhone phone = None ->
  Forall (fun r => r = NotFound) (verify_outcomes calls phone st).
Proof.
  intros Hn. induction calls as [|[now code] calls IH]; simpl; [constructor|].
  rewrite (verifyOTP_absent _ _ _ _ Hn). simpl. by constructor.
Qed.

Lemma filter_all_false {A} (p : A -> bool) (l : list A) :
  Forall (fun x => p x = false) l -> List.filter p l = [].
Proof.
  induction 1 as [|x l Hx _ IH]; simpl; [done|]. by rewrite Hx.
Qed.

Lemma verify_outcomes_absent_counts calls phone st p :
  st !! formatPhone phone = None -> p NotFound = false ->
  List.filter p (verify_outcomes calls phone st) = [].
Proof.
  intros Hn Hp. apply filter_all_false.
  eapply Forall_impl; [by apply verify_outcomes_absent|].
  by intros r ->.
Qed.

(** X3: in any series of [verifyOTP] calls for one number with no send in
    between, whatever the codes and the clock readings, at most one call
    verifies, and the calls answered "Invalid OTP" are no more than what
    was left of the entry's three attempts (three for an entry as a send
    stores it, none when there is no entry). *)
Theorem a_stored_code_allows_three_guesses calls phone st :
  (length (List.filter is_verified (verify_outcomes calls phone st)) <= 1)%nat /\
  Z.of_nat (length (List.filter is_mismatch (verify_outcomes calls phone st)))
    <= attempts_left phone st.
Proof.
  revert st. induction calls as [|[now code] calls IH]; intros st.
  { simpl. split; [lia|]. unfold attempts_left. case_match; lia. }
  cbn [verify_outcomes]. unfold attempts_left.
  destruct (st !! formatPhone phone) as [e|] eqn:E.
  2:{ rewrite (verifyOTP_absent _ _ _ _ E). cbn [fst snd List.filter is_verified is_mismatch].
      rewrite !verify_outcomes_absent_counts by done. simpl. lia. }
  destruct (Z.ltb_spec (expiresAt e) now) as [Hx|Hx].
  { rewrite (verifyOTP_expired _ _ _ _ _ E Hx).
    cbn [fst snd List.filter is_verified is_mismatch].
    rewrite !verify_outcomes_absent_counts by first [apply lookup_delete_eq | reflexivity].
    simpl. lia. }
  destruct (Z.leb_spec 3 (attempts e)) as [Ha|Ha].
  { rewrite (verifyOTP_exhausted _ _ _ _ _ E Hx Ha).
    cbn [fst snd List.filter is_verified is_mismatch].
    rewrite !verify_outcomes_absent_counts by first [apply lookup_delete_eq | reflexivity].
    simpl. lia. }
  destruct (String.eqb_spec (otp e) code) as [Hc|Hc].
  { subst code. rewrite (verifyOTP_correct _ _ _ _ E Hx Ha).
    cbn [fst snd List.filter is_verified is_mismatch].
    rewrite !verify_outcomes_absent_counts by first [apply lookup_delete_eq | reflexivity].
    simpl. lia. }
  rewrite (verifyOTP_wrong _ _ _ _ _ E Hx Ha (not_eq_sym Hc)).
  cbn [fst snd List.filter is_verified is_mismatch].
  specialize (IH (<[formatPhone phone :=
                     OtpEntry (otp e) (expiresAt e) (attempts e + 1)]> st)).
  unfold attempts_left in IH. rewrite lookup_insert_eq in IH. simpl in IH.
  destruct IH as [IH1 IH2]. split; [exact IH1|].
  cbn [length]. lia.
Qed.

(** X4: the periodic cleaner is transparent to verification. Cleaning at
    the clock reading of a [verifyOTP] call changes neither whether the
    call succeeds nor the store it leaves, up to cleaning; the only
    difference is that an entry that has expired is reported as not found
    instead of expired. *)
Theorem cleaning_is_transparent now phone code st :
  let direct := verifyOTP now phone code st in
  let cleaned := verifyOTP now phone code (cleanExpiredOTPs now st) in
  success cleaned.1 = success direct.1 /\
  cleaned.2 = cleanExpiredOTPs now direct.2 /\
  (cleaned.1 = direct.1 \/ (direct.1 = Expired /\ cleaned.1 = NotFound)).
Proof.
  cbv zeta. unfold cleanExpiredOTPs.
  set (P := fun kv : string * otp_entry => negb (expiresAt kv.2 <? now) = true).
  destruct (st !! formatPhone phone) as [e|] eqn:E.
  2:{ rewrite (verifyOTP_absent _ _ _ st E).
      rewrite verifyOTP_absent; [simpl; auto|].
      apply map_lookup_filter_None. left. exact E. }
  destruct (Z.ltb_spec (expiresAt e) now) as [Hx|Hx].
  { rewrite (verifyOTP_expired _ _ _ st _ E Hx).
    assert (N : filter P st !! formatPhone phone = None).
    { apply map_lookup_filter_None. right. intros e' He'. unfold P. simpl.
      rewrite E in He'. injection He' as <-.
      destruct (Z.ltb_spec (expiresAt e) now); [simpl; congruence|lia]. }
    rewrite (verifyOTP_absent _ _ _ _ N). simpl.
    split; [done|]. split; [|auto].
    rewrite map_filter_delete. symmetry. by apply delete_id. }
  assert (L : filter P st !! formatPhone phone = Some e).
  { apply map_lookup_filter_Some. split; [exact E|]. unfold P. simpl.
    destruct (Z.ltb_spec (expiresAt e) now); [lia|done]. }
  destruct (Z.leb_spec 3 (attempts e)) as [Ha|Ha].
  { rewrite (verifyOTP_exhausted _ _ _ st _ E Hx Ha).
    rewrite (verifyOTP_exhausted _ _ _ _ _ L Hx Ha). simpl.
    rewrite map_filter_delete. auto. }
  destruct (String.eqb_spec (otp e) code) as [Hc|Hc].
  { subst code. rewrite (verifyOTP_correct _ _ st _ E Hx Ha).
    rewrite (verifyOTP_correct _ _ _ _ L Hx Ha). simpl.
    rewrite map_filter_delete. auto. }
  rewrite (verifyOTP_wrong _ _ _ st _ E Hx Ha (not_eq_sym Hc)).
  rewrite (verifyOTP_wrong _ _ _ _ _ L Hx Ha (not_eq_sym Hc)). simpl.
  split; [done|]. split; [|auto].
  rewrite map_filter_insert_True; [done|].
  unfold P. simpl. destruct (Z.ltb_spec (expiresAt e) now); [lia|done].
Qed.

(** What [sendOTP] leaves behind, in one equation per component. *)
Lemma sendOTP_summary clock codes wa sms phone st :
  let sent := sendOTP clock codes wa sms phone st in
  let live := if delivered wa then codes 0%nat else codes 1%nat in
  let at_ := if delivered wa then clock 0%nat else clock 1%nat in
  sr_success sent.1.1 = delivered wa || delivered sms /\
  sent.1.2 = <[formatPhone phone := OtpEntry live (at_ + 300000) 0]> st /\
  exists m, last sent.2 = Some m /\ sm_code m = live.
Proof.
  cbv zeta. unfold sendOTP, sendWhatsAppOTP, sendSMSOTP.
  cbn [TEST_MODE]. cbv zeta. rewrite !formatPhone_idem.
  destruct wa as [sid|err], sms as [sid'|err'];
    cbn [delivered sr_success orb fst snd];
    rewrite ?insert_insert_eq; (split; [done|]); (split; [done|]);
    eexists; (split; [reflexivity|reflexivity]).
Qed.

(** X5: after [sendOTP] the code that verifies is the code of the last
    message handed to the gateway: the WhatsApp code when that delivery
    succeeded, otherwise the code of the fallback SMS. The call reports
    success exactly when one of the two deliveries succeeded, but the entry
    is stored either way: when both fail the SMS code is still live. After
    a fallback the WhatsApp code, if different, counts as a wrong guess. *)
Theorem sendOTP_keeps_the_last_code clock codes wa sms phone st now :
  now <= clock 0%nat + 300000 -> now <= clock 1%nat + 300000 ->
  let sent := sendOTP clock codes wa sms phone st in
  sr_success sent.1.1 = delivered wa || delivered sms /\
  (exists m, last sent.2 = Some m /\
     sm_code m = (if delivered wa then codes 0%nat else codes 1%nat) /\
     verifyOTP now phone (sm_code m) sent.1.2 =
       (Verified, delete (formatPhone phone) st)) /\
  (delivered wa = false -> codes 0%nat <> codes 1%nat ->
     (verifyOTP now phone (codes 0%nat) sent.1.2).1 = Mismatch 2).
Proof.
  intros H0 H1. cbv zeta.
  destruct (sendOTP_summary clock codes wa sms phone st) as (S & E & m & Hl & Hc).
  rewrite E. split; [exact S|]. split.
  - exists m. split; [exact Hl|]. split; [exact Hc|]. rewrite Hc.
    apply verify_fresh_entry. destruct (delivered wa); lia.
  - intros Hw Hne. rewrite Hw.
    rewrite (verifyOTP_wrong now phone _ _ (OtpEntry (codes 1%nat) (clock 1%nat + 300000) 0));
      [reflexivity|apply lookup_insert_eq|simpl; lia|simpl; lia|exact Hne].
Qed.

Lemma sendOTP_witness :
  let sent := sendOTP (fun k => 1000 + Z.of_nat k) (fun k => if k is O then "111111" else "222222")
                      (Rejected "whatsapp down") (Rejected "sms down")
                      "971501234567" ∅ in
  sr_success sent.1.1 = false /\
  verifyOTP 2000 "971501234567" "222222" sent.1.2 = (Verified, delete "+971501234567" ∅) /\
  (verifyOTP 2000 "971501234567" "111111" sent.1.2).1 = Mismatch 2.
Proof.
  destruct (sendOTP_keeps_the_last_code
              (fun k => 1000 + Z.of_nat k) (fun k => if k is O then "111111" else "222222")
              (Rejected "whatsapp down") (Rejected "sms down")
              "971501234567" ∅ 2000) as (S & (m & Hl & Hc & Hv) & Hw);
    [simpl; lia | simpl; lia |].
  split; [exact S|]. split.
  - injection Hl as <-. exact Hv.
  - apply Hw; [reflexivity|discriminate].
Defined.

End OtpSendFacts.

Section RouterFacts.
Import Access Router.

Lemma lower_string_truthy a b :
  lower_string a = lower_string b -> JS.truthy a = JS.truthy b.
Proof. destruct a, b; simpl; congruence. Qed.

Lemma seg_covers_sound p q s :
  seg_covers p q = true -> seg_matches q s = true -> seg_matches p s = true.
Proof.
  unfold seg_covers, seg_matches.
  destruct (is_param p), (is_param q); simpl; try done.
  - intros Hq Hs. apply String.eqb_eq in Hs.
    by rewrite <- (lower_string_truthy _ _ Hs).
  - intros Hp Hs. apply String.eqb_eq in Hp, Hs. apply String.eqb_eq. congruence.
Qed.

Lemma segs_cover_sound p q segs :
  segs_cover p q = true -> segs_match q segs = true -> segs_match p segs = true.
Proof.
  revert q segs. induction p as [|a p IH]; intros [|b q] segs; simpl; try done.
  destruct segs as [|s segs]; [done|].
  intros [Hc Hcs]%andb_true_iff [Hm Hms]%andb_true_iff.
  apply andb_true_iff. split; [by eapply seg_covers_sound|by eapply IH].
Qed.

Lemma covers_sound p q path :
  covers p q = true -> path_matches q path = true -> path_matches p path = true.
Proof.
  unfold covers, path_matches.
  destruct (JS.split "/" p) as [|[|] ps]; try done.
  destruct (JS.split "/" q) as [|[|] qs]; try done.
  destruct (JS.split "/" path) as [|[|] segs]; try done.
  apply segs_cover_sound.
Qed.

Lemma method_eqb_eq a b : method_eqb a b = true <-> a = b.
Proof. destruct a, b; simpl; split; congruence. Qed.

Lemma first_match_spec rs m path i k :
  first_match i rs m path = Some k ->
  (i <= k)%nat /\
  (exists r, rs !! (k - i)%nat = Some r /\ route_matches m path r = true) /\
  (forall j r', (j < k - i)%nat -> rs !! j = Some r' -> route_matches m path r' = false).
Proof.
  revert i. induction rs as [|r rs IH]; intros i; simpl; [done|].
  destruct (route_matches m path r) eqn:E.
  - intros [= <-]. split; [lia|]. rewrite Nat.sub_diag. split.
    + exists r. done.
    + intros j r' Hj. lia.
  - intros H. apply IH in H as (Hle & (r0 & Hr0 & Hm) & Hpre).
    split; [lia|]. split.
    + exists r0. split; [|exact Hm].
      replace (k - i)%nat with (S (k - S i)) by lia. exact Hr0.
    + intros [|j] r' Hj Hl.
      * simpl in Hl. injection Hl as <-. exact E.
      * simpl in Hl. apply (Hpre j r'); [lia|exact Hl].
Qed.

(** A request is served by a registration only if the registration
    matches, nothing was held, and every earlier registration either does
    not match the path or is of another method. *)
Lemma route_loop_served decodes rs m path i pending k :
  route_loop decodes i pending rs m path = Served k ->
  pending = false /\ (i <= k)%nat /\
  (exists r, rs !! (k - i)%nat = Some r /\ route_matches m path r = true) /\
  (forall j r', (j < k - i)%nat -> rs !! j = Some r' -> route_matches m path r' = false).
Proof.
  revert i pending. induction rs as [|r rs IH]; intros i pending; cbn [route_loop].
  { by destruct pending. }
  unfold match_layer, route_matches.
  destruct (path_matches (r_path r) path) eqn:P.
  - destruct (params_decode _ _ _).
    + destruct pending.
      * intros H. by apply IH in H as [? _].
      * destruct (method_eqb (r_method r) m) eqn:M.
        -- intros [= <-]. split; [done|]. split; [lia|]. rewrite Nat.sub_diag. split.
           ++ exists r. split; [done|]. by rewrite M, P.
           ++ intros j r' Hj. lia.
        -- intros H. apply IH in H as (Hp & Hle & (r0 & Hr0 & Hm) & Hpre).
           split; [done|]. split; [lia|]. split.
           ++ exists r0. split; [|exact Hm].
              replace (k - i)%nat with (S (k - S i)) by lia. exact Hr0.
           ++ intros [|j] r' Hj Hl.
              ** simpl in Hl. injection Hl as <-. by rewrite M.
              ** simpl in Hl. apply (Hpre j r'); [lia|exact Hl].
    + intros H. by apply IH in H as [? _].
  - intros H. apply IH in H as (Hp & Hle & (r0 & Hr0 & Hm) & Hpre).
    split; [done|]. split; [lia|]. split.
    + exists r0. split; [|exact Hm].
      replace (k - i)%nat with (S (k - S i)) by lia. exact Hr0.
    + intros [|j] r' Hj Hl.
      * simpl in Hl. injection Hl as <-. by rewrite P, andb_false_r.
      * simpl in Hl. apply (Hpre j r'); [lia|exact Hl].
Qed.

Lemma params_decode_plain decodes pat segs :
  (forall s, JS.includes "%" s = false -> decodes s = true) ->
  forallb (fun s => negb (JS.includes "%" s)) segs = true ->
  params_decode decodes pat segs = true.
Proof.
  intros Hd. revert segs. induction pat as [|p pat IH]; intros [|s segs]; simpl; try done.
  intros [Hs Hr]%andb_true_iff. apply negb_true_iff in Hs.
  rewrite (IH _ Hr), andb_true_r. destruct (is_param p); [by apply Hd|done].
Qed.

(** On a path without a percent sign the loop finds the first
    registration that matches. *)
Lemma route_loop_plain decodes rs m path i :
  (forall s, JS.includes "%" s = false -> decodes s = true) ->
  plain path = true ->
  route_loop decodes i false rs m path =
    match first_match i rs m path with Some k => Served k | None => NotFound end.
Proof.
  intros Hd Hp. revert i. induction rs as [|r rs IH]; intros i; cbn [route_loop first_match].
  { done. }
  unfold match_layer, route_matches.
  destruct (path_matches (r_path r) path) eqn:P.
  - rewrite params_decode_plain; [|exact Hd|].
    + destruct (method_eqb (r_method r) m); simpl; [done|apply IH].
    + unfold plain in Hp. destruct (JS.split "/" path) as [|s0 segs]; [done|].
      simpl in Hp. by apply andb_true_iff in Hp as [_ Hp].
  - rewrite andb_false_r. apply IH.
Qed.

Lemma dispatch_not_shadowed decodes m path i :
  dispatch decodes m path = Served i -> shadowed i = false.
Proof.
  intros H.
  apply route_loop_served in H as (_ & _ & (r & Hr & Hm) & Hpre).
  rewrite Nat.sub_0_r in Hr, Hpre.
  unfold shadowed. rewrite Hr.
  apply not_true_iff_false. intros (j & Hj & He)%existsb_exists.
  apply in_seq in Hj.
  destruct (routes !! j) as [e|] eqn:Ej; [|done].
  apply andb_true_iff in He as [Hme Hc].
  apply andb_true_iff in Hm as [Hmr Hp].
  apply method_eqb_eq in Hme, Hmr.
  assert (route_matches m path e = true) as Hx.
  { unfold route_matches. apply andb_true_iff. split.
    - apply method_eqb_eq. congruence.
    - by eapply covers_sound. }
  rewrite (Hpre j e) in Hx; [done|lia|exact Ej].
Qed.

(** X6: twenty of the 150 route registrations are never served, because
    an earlier registration of the same method matches every path they
    match: the two listings [/api/user/appointments/upcoming] and
    [.../past] (lines 1702 and 1722) come after [/api/user/appointments/:id]
    (line 1676), which serves their requests, and eighteen registrations
    repeat an earlier path. Every other registration is served for at least
    one path. *)
Theorem shadowed_registrations_are_never_served :
  dead = List.filter shadowed (seq 0 (length routes)) /\
  omap (fun i => r_line <$> routes !! i) dead =
    [1702; 1722; 3019; 3041; 3133; 3151; 3183; 3227; 3258; 3275;
     5398; 5424; 5435; 5459; 5481; 5494; 5507; 5518; 5542; 5564] /\
  (forall decodes m path i, dispatch decodes m path = Served i -> ~ In i dead) /\
  (forall decodes i r,
     (forall s, JS.includes "%" s = false -> decodes s = true) ->
     routes !! i = Some r -> ~ In i dead ->
     exists path, dispatch decodes (r_method r) path = Served i) /\
  (forall decodes,
     (forall s, JS.includes "%" s = false -> decodes s = true) ->
     dispatch decodes GET "/api/user/appointments/upcoming" = Served 12 /\
     dispatch decodes GET "/api/user/appointments/past" = Served 12 /\
     r_line <$> routes !! 12%nat = Some 1676).
Proof.
  assert (D : dead = List.filter shadowed (seq 0 (length routes))) by (vm_compute; reflexivity).
  split; [exact D|]. split; [vm_compute; reflexivity|].
  split; [|split].
  - intros decodes m path i H Hin. apply dispatch_not_shadowed in H.
    rewrite D in Hin. apply filter_In in Hin as [_ Hs].
    rewrite H in Hs. discriminate Hs.
  - intros decodes i r Hd Hr Hn.
    assert (T : forallb (fun i => existsb (Nat.eqb i) dead || reaches_itself i)
                        (seq 0 (length routes)) = true) by (vm_compute; reflexivity).
    rewrite forallb_forall in T. specialize (T i).
    assert (Hi : In i (seq 0 (length routes))).
    { apply in_seq. apply lookup_lt_Some in Hr. lia. }
    apply T in Hi. clear T. apply orb_true_iff in Hi as [Hi|Hi].
    + apply existsb_exists in Hi as (j & Hj & E). apply Nat.eqb_eq in E.
      subst j. exact (False_ind _ (Hn Hj)).
    + unfold reaches_itself in Hi. rewrite Hr in Hi.
      apply andb_true_iff in Hi as [Hp Hi].
      apply bool_decide_eq_true in Hi. exists (sample_path (r_path r)).
      rewrite (route_loop_plain _ _ _ _ _ Hd Hp). rewrite Hi. reflexivity.
  - intros decodes Hd.
    rewrite !(route_loop_plain _ _ _ _ _ Hd) by (vm_compute; reflexivity).
    repeat split; vm_compute; reflexivity.
Qed.

Lemma shadowed_registrations_witness :
  dispatch Staff.decodes GET "/api/user/appointments/upcoming" = Served 12 /\
  exists path, dispatch Staff.decodes PUT path = Served 34.
Proof.
  destruct shadowed_registrations_are_never_served as (_ & _ & _ & Hlive & Hup).
  assert (Hd : forall s, JS.includes "%" s = false -> Staff.decodes s = true).
  { intros s Hs. unfold Staff.decodes. by rewrite Hs. }
  split; [exact (proj1 (Hup Staff.decodes Hd))|].
  refine (Hlive Staff.decodes 34%nat
            (Route 2779 PUT "/api/admin/available-time-slots/:id" Admin) Hd _ _).
  - vm_compute. reflexivity.
  - vm_compute. intuition discriminate.
Defined.

End RouterFacts.

Section AccessFacts.
Import Http Access Router.

Lemma rev_append_append a b c :
  JS.rev_append (JS.rev_append a b) c = JS.rev_append b (a +:+ c).
Proof.
  revert b c. induction a as [|x a IH]; intros b c; simpl; [done|].
  rewrite IH. done.
Qed.

Lemma rev_rev_append a : JS.rev (JS.rev_append a EmptyString) = a.
Proof.
  unfold JS.rev. rewrite rev_append_append. cbn [JS.rev_append].
  induction a as [|x a IH]; [done|].
  change (String x a +:+ EmptyString) with (String x (a +:+ EmptyString)).
  by rewrite IH.
Qed.

Lemma split_space_word acc a :
  no_space a ->
  JS.split_aux " " 0 acc a = [JS.rev (JS.rev_append a acc)].
Proof.
  revert acc. induction a as [|c a IH]; intros acc Hn; [done|].
  apply Forall_cons in Hn as [Hc Hn]. cbn [JS.split_aux JS.startsWith].
  destruct (Ascii.eqb_spec " " c) as [E|_]; [congruence|].
  rewrite IH by done. done.
Qed.

Lemma split_space_cons acc a b :
  no_space a ->
  JS.split_aux " " 0 acc (a +:+ String " " b) =
    JS.rev (JS.rev_append a acc) :: JS.split_aux " " 0 EmptyString b.
Proof.
  revert acc. induction a as [|c a IH]; intros acc Hn.
  - done.
  - apply Forall_cons in Hn as [Hc Hn].
    change (String c a +:+ String " " b) with (String c (a +:+ String " " b)).
    cbn [JS.split_aux JS.startsWith].
    destruct (Ascii.eqb_spec " " c) as [E|_]; [congruence|].
    rewrite IH by done. done.
Qed.

(** X7: [authenticateToken] takes the second word of the Authorization
    header as the token and never looks at the first: with any scheme
    word, or none before the blank, the token is verified all the same.
    A header of one word, and a missing header, are answered 401. *)
Theorem the_scheme_word_is_ignored jwt_verify scheme token :
  no_space scheme -> no_space token ->
  token_of (Some (scheme +:+ " " +:+ token)) = Some token /\
  authenticateToken jwt_verify (Some (scheme +:+ " " +:+ token)) =
    authenticateToken jwt_verify (Some ("Bearer " +:+ token)) /\
  authenticateToken jwt_verify (Some scheme) = Reply (Response 401 "Authentication required") /\
  authenticateToken jwt_verify None = Reply (Response 401 "Authentication required").
Proof.
  intros Hs Ht.
  assert (T : forall s, no_space s -> token_of (Some (s +:+ " " +:+ token)) = Some token).
  { intros s Hn. unfold token_of.
    assert (JS.truthy (s +:+ " " +:+ token) = true) as -> by (by destruct s).
    unfold JS.split.
    change (s +:+ " " +:+ token) with (s +:+ String " " token).
    rewrite split_space_cons by done. rewrite split_space_word by done.
    simpl. by rewrite rev_rev_append. }
  split; [by apply T|]. split; [|split].
  - unfold authenticateToken. rewrite (T scheme Hs).
    change ("Bearer " +:+ token) with ("Bearer" +:+ " " +:+ token).
    rewrite (T "Bearer"); [done|]. repeat constructor; discriminate.
  - unfold authenticateToken, token_of. destruct scheme as [|c s]; [done|].
    cbn [JS.truthy]. unfold JS.split. rewrite split_space_word by done. done.
  - done.
Qed.

Lemma the_scheme_word_witness :
  authenticateToken Staff.verify (Some "Basic abc") = Next 7.
Proof.
  destruct (the_scheme_word_is_ignored Staff.verify "Basic" "abc") as (_ & H & _).
  - repeat constructor; discriminate.
  - repeat constructor; discriminate.
  - exact (eq_trans H eq_refl).
Defined.

Lemma authenticateToken_next jwt_verify h id :
  authenticateToken jwt_verify h = Next id ->
  exists token, token_of h = Some token /\ JS.truthy token = true /\
                jwt_verify token = Some id.
Proof.
  unfold authenticateToken. destruct (token_of h) as [t|]; [|done].
  destruct (JS.truthy t) eqn:E; [|done].
  destruct (jwt_verify t) as [i|] eqn:V; [|done].
  intros [= <-]. eauto.
Qed.

Lemma isAdmin_next id pool id' :
  isAdmin id pool = Next id' ->
  id' = id /\ exists users row, pool = Some users /\ users !! id = Some row /\
    (role row = Some "admin" \/ role row = Some "super_admin").
Proof.
  unfold isAdmin. destruct pool as [users|]; [|done].
  destruct (users !! id) as [row|] eqn:E; [|done].
  destruct (decide (role row = Some "admin")) as [Ha|Ha];
    destruct (decide (role row = Some "super_admin")) as [Hs|Hs];
    rewrite ?(bool_decide_eq_true_2 _ Ha), ?(bool_decide_eq_false_2 _ Ha),
            ?(bool_decide_eq_true_2 _ Hs), ?(bool_decide_eq_false_2 _ Hs);
    simpl; try done; intros [= <-]; eauto 10.
Qed.

Lemma isSuperAdmin_next id pool id' :
  isSuperAdmin id pool = Next id' ->
  id' = id /\ exists users row, pool = Some users /\ users !! id = Some row /\
    role row = Some "super_admin".
Proof.
  unfold isSuperAdmin. destruct pool as [users|]; [|done].
  destruct (users !! id) as [row|] eqn:E; [|done].
  destruct (decide (role row = Some "super_admin")) as [Hs|Hs];
    rewrite ?(bool_decide_eq_true_2 _ Hs), ?(bool_decide_eq_false_2 _ Hs);
    simpl; try done; intros [= <-]; eauto 10.
Qed.

(** X8: a handler runs only behind the middleware of its registration.
    When a request reaches the handler of registration [i], a public
    route carries no user; on every other route the token in the header
    verified and gave the user id; on an admin route that user's stored
    role is admin or super_admin, on a super-admin route it is
    super_admin. So whoever passes [isSuperAdmin] passes [isAdmin], and a
    user whose role is user, manager or NULL reaches no admin handler. *)
Theorem handlers_run_behind_their_middleware decodes jwt_verify m path h pool i uid :
  serve decodes jwt_verify m path h pool = Handled i uid ->
  dispatch decodes m path = Served i /\
  exists r, routes !! i = Some r /\
    match r_access r with
    | Public => uid = None
    | LoggedIn =>
      exists id token, uid = Some id /\ token_of h = Some token /\
                       jwt_verify token = Some id
    | Admin =>
      exists id token users row,
        uid = Some id /\ token_of h = Some token /\ jwt_verify token = Some id /\
        pool = Some users /\ users !! id = Some row /\
        (role row = Some "admin" \/ role row = Some "super_admin")
    | SuperAdmin =>
      exists id token users row,
        uid = Some id /\ token_of h = Some token /\ jwt_verify token = Some id /\
        pool = Some users /\ users !! id = Some row /\
        role row = Some "super_admin"
    end.
Proof.
  unfold serve. destruct (dispatch decodes m path) as [k| |] eqn:D; [|done..].
  destruct (routes !! k) as [r|] eqn:R; [|done].
  destruct (guard jwt_verify (r_access r) h pool) as [u|resp] eqn:G; [|done].
  intros [= <- <-]. split; [done|]. exists r. split; [done|].
  unfold guard in G. destruct (r_access r).
  - by injection G as <-.
  - destruct (authenticateToken jwt_verify h) as [id|] eqn:A; [|done].
    injection G as <-. apply authenticateToken_next in A as (t & ? & ? & ?). eauto.
  - destruct (authenticateToken jwt_verify h) as [id|] eqn:A; [|done].
    destruct (isAdmin id pool) as [id'|] eqn:B; [|done].
    injection G as <-. apply authenticateToken_next in A as (t & ? & ? & ?).
    apply isAdmin_next in B as (-> & users & row & ? & ? & ?). eauto 12.
  - destruct (authenticateToken jwt_verify h) as [id|] eqn:A; [|done].
    destruct (isSuperAdmin id pool) as [id'|] eqn:B; [|done].
    injection G as <-. apply authenticateToken_next in A as (t & ? & ? & ?).
    apply isSuperAdmin_next in B as (-> & users & row & ? & ? & ?). eauto 12.
Qed.

Lemma handlers_witness :
  serve Staff.decodes Staff.verify POST "/api/admin/available-time-slots"
        (Some "Bearer abc") (Some Staff.users) = Handled 33 (Some 7) /\
  serve Staff.decodes Staff.verify POST "/api/admin/available-time-slots"
        (Some "Bearer xyz") (Some Staff.users) =
    Refused (Response 403 "Admin access required") /\
  exists r, routes !! 33%nat = Some r /\ r_line r = 2715 /\ r_access r = Admin.
Proof.
  assert (S : serve Staff.decodes Staff.verify POST "/api/admin/available-time-slots"
                (Some "Bearer abc") (Some Staff.users) = Handled 33 (Some 7))
    by (vm_compute; reflexivity).
  split; [exact S|]. split; [vm_compute; reflexivity|].
  destruct (handlers_run_behind_their_middleware _ _ _ _ _ _ _ _ S) as (_ & r & Hr & _).
  exists r. split; [exact Hr|]. vm_compute in Hr. injection Hr as <-. split; reflexivity.
Defined.

End AccessFacts.

Section DynamicApiFacts.
Import Http Slots DynamicApi.
Context `{SqlEngine} `{Json}.

(** X9: for service names that [Object.prototype] does not define,
    within five minutes of the last fill the cached settings are
    returned whatever the table holds by then, and without a pool. The
    time of the last fill is kept once for all services: when a fetch for
    one service fills the cache, an older entry of another service is
    served again for five more minutes, however stale it was. After
    [clearApiConfigCache] the next call reads the table. *)
Theorem cache_lifetime_is_shared now1 now2 a b cfg cfg' pool pool' c c' :
  plain_name a = true -> plain_name b = true ->
  apiConfigCache c !! a = Some cfg -> a <> b ->
  getApiConfig now1 b pool c = (Some cfg', c') ->
  apiConfigCache c !! b = None \/ cacheTimestamp c + 300000 <= now1 ->
  now2 < now1 + 300000 ->
  getApiConfig now2 a pool' c' = (Some cfg, c') /\
  (forall now, now < cacheTimestamp c + 300000 ->
     getApiConfig now a pool' c = (Some cfg, c)) /\
  (forall now, getApiConfig now a None (clearApiConfigCache c') = (None, initial_cache)).
Proof.
  intros _ _ Ha Hab Hb Hmiss Ht.
  assert (C : c' = Cache (<[b := cfg']> (apiConfigCache c)) now1).
  { unfold getApiConfig in Hb.
    assert (F : forall r, (match apiConfigCache c !! b with
                 | Some cached =>
                   if now1 - cacheTimestamp c <? CACHE_DURATION then (Some cached, c) else r
                 | None => r end) = r).
    { intros r. destruct Hmiss as [->|Hx]; [done|].
      destruct (apiConfigCache c !! b); [|done].
      destruct (Z.ltb_spec (now1 - cacheTimestamp c) CACHE_DURATION) as [L|L]; [|done].
      unfold CACHE_DURATION in L. lia. }
    rewrite F in Hb. clear F.
    destruct pool as [t|]; [|done].
    destruct (select_active b t) as [|[k config] l]; [done|].
    destruct (match additional_config config with
              | Some text =>
            if JS.truthy text then JSON_parse (column_text text) else Some empty_object
              | None => Some empty_object end) as [extra|]; [|done].
    by injection Hb as <- <-. }
  split; [|split].
  - subst c'. unfold getApiConfig. cbn [apiConfigCache cacheTimestamp].
    rewrite lookup_insert_ne by done. rewrite Ha.
    destruct (Z.ltb_spec (now2 - now1) CACHE_DURATION) as [L|L]; [done|].
    unfold CACHE_DURATION in L. lia.
  - intros now Hn. unfold getApiConfig. rewrite Ha.
    destruct (Z.ltb_spec (now - cacheTimestamp c) CACHE_DURATION) as [L|L]; [done|].
    unfold CACHE_DURATION in L. lia.
  - intros now. unfold getApiConfig, clearApiConfigCache, initial_cache.
    cbn [apiConfigCache]. by rewrite lookup_empty.
Qed.

Lemma select_active_elem name (t : gmap Z config_row) k r :
  In (k, r) (select_active name t) <->
  t !! k = Some r /\ text_eq (service_name r) name = true /\ status r = Some "active".
Proof.
  unfold select_active. rewrite elem_of_select. simpl.
  rewrite andb_true_iff, bool_decide_eq_true. tauto.
Qed.

(** X10: a configuration saved through POST /api/superadmin/api-configs
    takes effect at once. The handler clears the cache, so the next
    [getApiConfig] for that service reads the table: whatever it returns
    carries the saved key, never an older cached value, and where the
    saved settings text is read back as the settings themselves, it
    carries those settings and, for a service that had no row before, it
    does return them. *)
Theorem saved_settings_take_effect now name key extra (t : gmap Z config_row) c :
  Http.status (saveApiConfig (Val name) (Val key) extra t c).1.1 = 200 ->
  let t' := (saveApiConfig (Val name) (Val key) extra t c).1.2 in
  let c' := (saveApiConfig (Val name) (Val key) extra t c).2 in
  let settings := default empty_object extra in
  c' = initial_cache /\
  (forall cfg, (getApiConfig now name (Some t') c').1 = Some cfg -> cfg_api_key cfg = key) /\
  (JS.truthy (JSON_stringify settings) = true ->
   JSON_parse (column_text (JSON_stringify settings)) = Some settings ->
   (forall cfg, (getApiConfig now name (Some t') c').1 = Some cfg ->
      cfg = ApiConfig key settings) /\
   (select (fun _ r => text_eq (service_name r) name) t = [] ->
    (getApiConfig now name (Some t') c').1 = Some (ApiConfig key settings))).
Proof.
  cbv zeta. unfold saveApiConfig.
  destruct (negb (JS.truthy name) || negb (JS.truthy key)); [simpl; discriminate|].
  set (text := JSON_stringify (default empty_object extra)).
  set (f := fun r : config_row =>
              if text_eq (service_name r) name then set_config key text r else r).
  assert (G : forall t1,
    (forall k r, In (k, r) (select_active name t1) ->
       api_key r = key /\ additional_config r = Some text) ->
    (forall cfg, (getApiConfig now name (Some t1) initial_cache).1 = Some cfg ->
       cfg_api_key cfg = key) /\
    (JS.truthy text = true ->
     JSON_parse (column_text text) = Some (default empty_object extra) ->
     (forall cfg, (getApiConfig now name (Some t1) initial_cache).1 = Some cfg ->
        cfg = ApiConfig key (default empty_object extra)) /\
     (select_active name t1 <> [] ->
      (getApiConfig now name (Some t1) initial_cache).1 =
        Some (ApiConfig key (default empty_object extra))))).
  { intros t1 Hall. unfold getApiConfig. cbn [initial_cache apiConfigCache].
    rewrite lookup_empty.
    destruct (select_active name t1) as [|[k r] l] eqn:E.
    - split; [simpl; discriminate|]. intros _ _. split; [simpl; discriminate|done].
    - destruct (Hall k r) as [Hk He]; [first [by left | rewrite E; by left]|].
      rewrite He, Hk. split.
      + destruct (JS.truthy text); [destruct (JSON_parse (column_text text))|];
          simpl; intros cfg; try discriminate; by intros [= <-].
      + intros Tt Pt. rewrite Tt, Pt. simpl. split; [by intros cfg [= <-]|done]. }
  destruct (select (fun _ r => text_eq (service_name r) name) t) as [|x l] eqn:Ex.
  - destruct ((String.length name <=? 50)%nat && (Z.of_nat (String.length key) <=? 65535));
      [|simpl; discriminate].
    intros _. cbn [fst snd clearApiConfigCache].
    split; [done|].
    pose proof (proj1 (select_nil _ _) Ex) as Hnone.
    destruct (G (<[next_id t := ConfigRow name key (Some text) (Some "active")]> t))
      as [G1 G2].
    { intros k r [Hk [Hn Hs]]%select_active_elem.
      destruct (decide (k = next_id t)) as [->|Hne].
      - rewrite lookup_insert_eq in Hk. by injection Hk as <-.
      - rewrite lookup_insert_ne in Hk by done.
        specialize (Hnone k r Hk). simpl in Hnone. congruence. }
    split; [exact G1|]. intros Tt Pt. destruct (G2 Tt Pt) as [G3 G4].
    split; [exact G3|]. intros _. apply G4.
    intros En.
    assert (I : In (next_id t, ConfigRow name key (Some text) (Some "active"))
                   (select_active name
                      (<[next_id t := ConfigRow name key (Some text) (Some "active")]> t))).
    { apply select_active_elem. rewrite lookup_insert_eq. simpl.
      by rewrite text_eq_refl. }
    rewrite En in I. destruct I.
  - destruct (Z.of_nat (String.length key) <=? 65535); [|simpl; discriminate].
    intros _. cbn [fst snd clearApiConfigCache].
    split; [done|].
    destruct (G (f <$> t)) as [G1 G2].
    { intros k r [Hk [Hn Hs]]%select_active_elem.
      rewrite lookup_fmap in Hk.
      destruct (t !! k) as [r0|]; [|done]. injection Hk as <-.
      unfold f in *. destruct (text_eq (service_name r0) name) eqn:E0; [done|].
      congruence. }
    split; [exact G1|]. intros Tt Pt. destruct (G2 Tt Pt) as [G3 G4].
    split; [exact G3|]. discriminate.
Qed.

End DynamicApiFacts.

Section DynamicApiExamples.
Import Http Slots DynamicApi.

Lemma saved_settings_witness :
  (@getApiConfig decimal_engine unit_json 5000 "google_maps"
     (Some (@saveApiConfig decimal_engine unit_json (Val "google_maps") (Val "new-key")
              None Settings.table Settings.stale).1.2)
     (@saveApiConfig decimal_engine unit_json (Val "google_maps") (Val "new-key") None
              Settings.table Settings.stale).2).1 =
    Some (@ApiConfig unit_json "new-key" tt).
Proof.
  destruct (@saved_settings_take_effect decimal_engine unit_json 5000 "google_maps"
              "new-key" None Settings.table Settings.stale) as (_ & _ & Hnew).
  - vm_compute. reflexivity.
  - destruct Hnew as [_ Hnew]; [reflexivity|reflexivity|].
    apply Hnew. vm_compute. reflexivity.
Defined.

Lemma cache_lifetime_witness :
  @getApiConfig decimal_engine unit_json 1001000 "google_maps" None
    (@getApiConfig decimal_engine unit_json 1000000 "twilio" (Some Settings.table)
       Settings.stale).2 =
    (Some (@ApiConfig unit_json "old-key" tt),
     (@getApiConfig decimal_engine unit_json 1000000 "twilio" (Some Settings.table)
        Settings.stale).2).
Proof.
  refine (proj1 (@cache_lifetime_is_shared decimal_engine unit_json
            1000000 1001000 "google_maps" "twilio"
            (@ApiConfig unit_json "old-key" tt) (@ApiConfig unit_json "AC123" tt)
            (Some Settings.table) None Settings.stale _ _ _ _ _ _ _ _)).
  - reflexivity.
  - reflexivity.
  - reflexivity.
  - discriminate.
  - vm_compute. reflexivity.
  - left. reflexivity.
  - lia.
Defined.

End DynamicApiExamples.

Section OtpRouteFacts.
Import Http Slots Otp OtpSend Access DynamicApi OtpRoutes.
Context `{SqlEngine} `{Json}.

(** X11: POST /api/auth/send-otp stores what [sendOTP] stores, whatever
    the first message through the configured gateway did. The code that
    the handler generates and sends in that first SMS is not the stored
    one: the answer is a success exactly when one of the two later
    deliveries succeeded, the code of the last of them verifies, and the
    code of the first SMS, unless it happens to be the same, counts as a
    wrong guess. *)
Theorem send_otp_route_stores_another_code phone otp now gateway pool clock codes
    wa sms c st t :
  JS.truthy phone = true ->
  t <= clock 0%nat + 300000 -> t <= clock 1%nat + 300000 ->
  let live := if delivered wa then codes 0%nat else codes 1%nat in
  let r := sendOtpRoute (Val phone) otp now gateway pool clock codes wa sms c st in
  r.2 = (sendOTP clock codes wa sms phone st).1.2 /\
  so_status r.1.1 = (if delivered wa || delivered sms then 200 else 500) /\
  verifyOTP t phone live r.2 = (Verified, delete (formatPhone phone) st) /\
  (otp <> live -> (verifyOTP t phone otp r.2).1 = Mismatch 2).
Proof.
  intros Hp Ha Hb. cbv zeta. unfold sendOtpRoute. rewrite Hp. cbn [negb].
  destruct (sendDynamicOTP now gateway phone otp pool c) as [smsResult c'].
  destruct (sendOTP_summary clock codes wa sms phone st) as (S & E & _).
  destruct (sendOTP clock codes wa sms phone st) as [[result st'] out].
  cbn [fst snd] in *. rewrite S.
  assert (R : (if delivered wa || delivered sms
               then (SendOtpResponse 200 (sr_message result) (Some true)
                       (Some (sms_success smsResult)), c', st')
               else (SendOtpResponse 500 (sr_message result) (Some false) None, c', st')).2
              = st') by (by destruct (delivered wa || delivered sms)).
  rewrite R. split; [done|].
  split; [by destruct (delivered wa || delivered sms)|].
  rewrite E. split.
  - apply verify_fresh_entry. destruct (delivered wa); lia.
  - intros Hne.
    rewrite (verifyOTP_wrong t phone otp _
               (OtpEntry (if delivered wa then codes 0%nat else codes 1%nat)
                  ((if delivered wa then clock 0%nat else clock 1%nat) + 300000) 0));
      [reflexivity|apply lookup_insert_eq| | |exact Hne]; simpl.
    + destruct (delivered wa); lia.
    + lia.
Qed.

Lemma verifyOTP_verified now phone otp (st st' : gmap string otp_entry) :
  verifyOTP now phone otp st = (Verified, st') -> st' = delete (formatPhone phone) st.
Proof.
  unfold verifyOTP. destruct (st !! formatPhone phone) as [e|]; [|discriminate].
  repeat case_match; intros [= <-]; done.
Qed.

Lemma verifyOtpRoute_accepted jwt_sign now phone otp users st :
  accepted (verifyOtpRoute jwt_sign now (Val phone) (Val otp) users st).1 = true ->
  verifyOTP now phone otp st = (Verified, delete (formatPhone phone) st) /\
  (verifyOtpRoute jwt_sign now (Val phone) (Val otp) users st).2 =
    delete (formatPhone phone) st.
Proof.
  unfold verifyOtpRoute.
  destruct (negb (JS.truthy phone) || negb (JS.truthy otp)); [simpl; discriminate|].
  destruct (verifyOTP now phone otp st) as [v st'] eqn:E.
  destruct v; cbn [success negb accepted fst]; try discriminate.
  apply verifyOTP_verified in E. subst st'.
  intros _. split; [done|].
  by destruct (select _ users) as [|[id u] l].
Qed.

(** X12: POST /api/auth/verify-otp cannot be replayed. It answers with a
    login or with the registration flag only when [verifyOTP] verified the
    code, which removes the entry; the same request sent again, at any
    time and whatever the user table holds by then, is answered 400 with
    "OTP not found or expired" and changes nothing. *)
Theorem verify_otp_route_is_single_use jwt_sign now now' phone otp users users' st :
  let first := verifyOtpRoute jwt_sign now (Val phone) (Val otp) users st in
  accepted first.1 = true ->
  verifyOTP now phone otp st = (Verified, first.2) /\
  verifyOtpRoute jwt_sign now' (Val phone) (Val otp) users' first.2 =
    (OtpRejected "OTP not found or expired", first.2).
Proof.
  cbv zeta. intros Hacc.
  destruct (verifyOtpRoute_accepted _ _ _ _ _ _ Hacc) as [Hv Hs].
  rewrite Hs. split; [exact Hv|].
  assert (T : negb (JS.truthy phone) || negb (JS.truthy otp) = false).
  { revert Hacc. unfold verifyOtpRoute.
    destruct (negb (JS.truthy phone) || negb (JS.truthy otp)); [simpl; discriminate|done]. }
  unfold verifyOtpRoute. rewrite T.
  rewrite verifyOTP_absent by apply lookup_delete_eq. reflexivity.
Qed.

End OtpRouteFacts.

Section OtpRouteExamples.
Import Http Slots Otp OtpSend Access DynamicApi OtpRoutes.

Lemma send_otp_route_witness :
  let r := @sendOtpRoute decimal_engine unit_json (Val "971501234567") "999999" 900
             (Settings.gateway true) (Some Settings.table)
             (fun k => 1000 + Z.of_nat k)
             (fun k => if k is O then "111111" else "222222")
             (Delivered "WA1") (Rejected "unused") DynamicApi.initial_cache ∅ in
  so_status r.1.1 = 200 /\
  so_usingDynamicConfig r.1.1 = Some true /\
  verifyOTP 2000 "971501234567" "111111" r.2 = (Verified, delete "+971501234567" ∅) /\
  (verifyOTP 2000 "971501234567" "999999" r.2).1 = Mismatch 2.
Proof.
  destruct (@send_otp_route_stores_another_code decimal_engine unit_json
              "971501234567" "999999" 900 (Settings.gateway true) (Some Settings.table)
              (fun k => 1000 + Z.of_nat k)
              (fun k => if k is O then "111111" else "222222")
              (Delivered "WA1") (Rejected "unused") DynamicApi.initial_cache ∅ 2000)
    as (_ & S & V & W); [reflexivity | simpl; lia | simpl; lia |].
  split; [exact S|]. split; [vm_compute; reflexivity|].
  split; [exact V|]. apply W. discriminate.
Defined.

Lemma verify_otp_route_witness :
  let first := @verifyOtpRoute decimal_engine JS.number_toString 2000
                 (Val "971501234567") (Val "123456") Staff.users Sample.demo_store in
  first.1 = PhoneVerified "971501234567" /\
  @verifyOtpRoute decimal_engine JS.number_toString 2500
    (Val "971501234567") (Val "123456") Staff.users first.2 =
    (OtpRejected "OTP not found or expired", first.2).
Proof.
  split; [vm_compute; reflexivity|].
  refine (proj2 (@verify_otp_route_is_single_use decimal_engine JS.number_toString
            2000 2500 "971501234567" "123456" Staff.users Staff.users
            Sample.demo_store _)).
  vm_compute. reflexivity.
Defined.

End OtpRouteExamples.

Section RegistryFacts.
Import Http Slots Registry.
Context `{SqlEngine}.
Implicit Types (t : table) (r : time_slot).

(** X13: an update cannot change one time of a slot alone. When the
    request carries only one of [start_time] and [end_time], the other is
    taken from the stored row in the HH:MM:SS form in which the driver
    returns it, the HH:MM pattern rejects that, and the request is
    answered 400 with the format message; the table stays as it was. *)
Theorem one_time_alone_is_refused id k cur b t :
  int_of_text id = Some k -> t !! k = Some cur ->
  xorb (supplied JS.truthy (ub_start_time b)) (supplied JS.truthy (ub_end_time b)) = true ->
  updateTimeSlot id b t = (bad_request "Invalid time format. Use HH:MM format", t).
Proof.
  intros Hid Hk Hx. unfold updateTimeSlot. rewrite Hid. simpl. rewrite Hk. simpl.
  unfold revalidate.
  destruct (supplied JS.truthy (ub_start_time b)) eqn:S,
           (supplied JS.truthy (ub_end_time b)) eqn:E; try discriminate; simpl.
  - assert (or_else (ub_end_time b) (Calendar.time_to_string (end_time cur)) =
            Calendar.time_to_string (end_time cur)) as ->.
    { unfold or_else. destruct (ub_end_time b) as [| |y]; try done.
      simpl in E. by rewrite E. }
    by rewrite rendered_time_rejected, orb_true_r.
  - assert (or_else (ub_start_time b) (Calendar.time_to_string (start_time cur)) =
            Calendar.time_to_string (start_time cur)) as ->.
    { unfold or_else. destruct (ub_start_time b) as [| |y]; try done.
      simpl in S. by rewrite S. }
    by rewrite rendered_time_rejected.
Qed.

Lemma unique_key_free (self : option Z) row t :
  unique_key_taken self row t = false ->
  forall k x, t !! k = Some x -> Some k <> self ->
    date x = date row -> start_time x = start_time row -> end_time x = end_time row ->
    False.
Proof.
  unfold unique_key_taken. intros E k x Hk Hs Hd Hst Hen.
  apply negb_false_iff, bool_decide_eq_true in E.
  pose proof (proj1 (select_nil _ _) E k x Hk) as F. simpl in F.
  rewrite bool_decide_eq_false_2 in F by done.
  rewrite Hd, Hst, Hen, !Z.eqb_refl in F. discriminate.
Qed.

Lemma unique_slots_insert t k row :
  unique_slots t ->
  (forall k' x, k' <> k -> t !! k' = Some x ->
     date x = date row -> start_time x = start_time row -> end_time x = end_time row ->
     False) ->
  unique_slots (<[k := row]> t).
Proof.
  intros Hu Hnew i j a b Hij Hi Hj Hd Hs He.
  destruct (decide (i = k)) as [->|Hik], (decide (j = k)) as [->|Hjk]; [done| | |].
  - rewrite lookup_insert_eq in Hi. injection Hi as <-.
    rewrite lookup_insert_ne in Hj by done.
    apply (Hnew j b); done.
  - rewrite lookup_insert_eq in Hj. injection Hj as <-.
    rewrite lookup_insert_ne in Hi by done.
    apply (Hnew i a); done.
  - rewrite lookup_insert_ne in Hi by done. rewrite lookup_insert_ne in Hj by done.
    apply (Hu i j a b); done.
Qed.

Lemma createTimeSlot_fresh_key b t :
  status (createTimeSlot b t).1 = 201 ->
  exists row,
    (createTimeSlot b t).2 = <[next_id t := row]> t /\
    forall k x, t !! k = Some x ->
      date x = date row -> start_time x = start_time row -> end_time x = end_time row ->
      False.
Proof.
  unfold createTimeSlot.
  repeat case_match; simpl; try discriminate; intros _.
  all: eexists; split; [reflexivity|].
  all: intros k x Hk; eapply unique_key_free; [eassumption|exact Hk|discriminate].
Qed.

Lemma createTimeSlot_unchanged b t :
  status (createTimeSlot b t).1 <> 201 -> (createTimeSlot b t).2 = t.
Proof.
  unfold createTimeSlot. repeat case_match; simpl; try done.
Qed.

Lemma updateTimeSlot_shape id b t :
  (updateTimeSlot id b t).2 = t \/
  exists k row, (updateTimeSlot id b t).2 = <[k := row]> t /\
                unique_key_taken (Some k) row t = false.
Proof.
  unfold updateTimeSlot.
  destruct (int_of_text id ≫= _) as [[k cur]|]; [|by left].
  destruct (revalidate k cur b t); [by left|].
  repeat case_match; simpl; first [by left | right; eauto].
Qed.

(** X14: one date holds an interval only once. Every successful create
    stores its row under a new key and only if no stored row, of whatever
    category and whether available or not, has the same date, start and
    end; a request that repeats such a row is never answered 201. Create,
    update and delete all keep the table free of two rows that agree on
    date, start and end, and an unsuccessful create leaves the table as it
    was. *)
Theorem an_interval_exists_once_per_date :
  (forall b t, status (createTimeSlot b t).1 = 201 ->
     exists row,
       (createTimeSlot b t).2 = <[next_id t := row]> t /\ t !! next_id t = None /\
       forall k x, t !! k = Some x ->
         ~ (date x = date row /\ start_time x = start_time row /\
            end_time x = end_time row)) /\
  (forall b t, status (createTimeSlot b t).1 <> 201 -> (createTimeSlot b t).2 = t) /\
  (forall b t, unique_slots t -> unique_slots (createTimeSlot b t).2) /\
  (forall id b t, unique_slots t -> unique_slots (updateTimeSlot id b t).2) /\
  (forall id t, unique_slots t -> unique_slots (deleteTimeSlot id t).2).
Proof.
  split; [|split; [|split; [|split]]].
  - intros b t Hs. destruct (createTimeSlot_fresh_key b t Hs) as (row & E & F).
    exists row. split; [exact E|]. split; [apply next_id_fresh|].
    intros k x Hk (Hd & Hst & Hen). by apply (F k x).
  - apply createTimeSlot_unchanged.
  - intros b t Hu.
    destruct (decide (status (createTimeSlot b t).1 = 201)) as [Hs|Hs].
    + destruct (createTimeSlot_fresh_key b t Hs) as (row & -> & F).
      apply unique_slots_insert; [done|]. intros k' x _ Hk. by apply (F k' x).
    + by rewrite createTimeSlot_unchanged.
  - intros id b t Hu.
    destruct (updateTimeSlot_shape id b t) as [->|(k & row & -> & F)]; [done|].
    apply unique_slots_insert; [done|]. intros k' x Hne Hk.
    apply (unique_key_free _ _ _ F k' x Hk). congruence.
  - intros id t Hu. unfold deleteTimeSlot.
    destruct (strict_ok id); [|done]. simpl.
    destruct (int_of_text id) as [k|]; [|done].
    intros i j a b Hij [_ Hi]%lookup_delete_Some [_ Hj]%lookup_delete_Some.
    by apply (Hu i j a b).
Qed.

#[local] Instance by_date_desc_start_total : Total by_date_desc_start.
Proof. intros a b. unfold by_date_desc_start. lia. Qed.

#[local] Instance by_start_time_total' : Total by_start_time.
Proof. intros a b. unfold by_start_time. lia. Qed.

(** The rows of the public listing are rows of the table, available, and
    all of one date. *)
Lemma listed_rows dt cid t :
  exists d, forall k r, In (k, r) (listAvailableTimeSlots dt cid t).2 ->
    t !! k = Some r /\ date r = d /\ available r = true /\
    category_condition cid (service_category_id r) = true.
Proof.
  unfold listAvailableTimeSlots.
  destruct dt as [dt|]; [|exists 0; intros k r []].
  destruct (negb (JS.truthy dt)); [exists 0; intros k r []|].
  destruct (Calendar.date_of_string _) as [d|]; [|exists 0; intros k r []].
  exists d. intros k r. cbn [snd].
  rewrite <- list_elem_of_In, merge_sort_Permutation, list_elem_of_In.
  rewrite elem_of_select. simpl. rewrite !andb_true_iff, Z.eqb_eq. tauto.
Qed.

(** X15: deleting a slot by its decimal id answers 200 whether or not the
    row exists, removes that row and no other, keeps the no-overlap
    invariant, and the row is in no public listing afterwards. *)
Theorem a_deleted_slot_is_gone k t :
  let r := deleteTimeSlot (JS.number_toString k) t in
  r.1 = Response 200 "Time slot deleted successfully" /\
  r.2 = delete k t /\
  (t !! k = None -> r.2 = t) /\
  (no_overlap t -> no_overlap r.2) /\
  (forall dt cid row, ~ In (k, row) (listAvailableTimeSlots dt cid r.2).2).
Proof.
  cbv zeta. unfold deleteTimeSlot.
  rewrite strict_ok_decimal, int_of_text_decimal. cbn [fst snd].
  split; [done|]. split; [done|]. split; [|split].
  - intros Hn. by apply delete_id.
  - intros Hno i j a b Hij [_ Hi]%lookup_delete_Some [_ Hj]%lookup_delete_Some.
    by apply (Hno i j a b).
  - intros dt cid row Hin.
    destruct (listed_rows dt cid (delete k t)) as [d Hd].
    destruct (Hd k row Hin) as [Hk _]. by rewrite lookup_delete_eq in Hk.
Qed.

(** X16: what customers are shown never overlaps within a category. On a
    table that satisfies the no-overlap invariant, the public listing of a
    date is sorted by start time, shows available rows of one date only,
    and no two of its rows of one category overlap; with a category
    parameter that names a category or is "null", no two rows overlap at
    all. *)
Theorem listed_slots_do_not_overlap dt cid t :
  no_overlap t ->
  let rows := (listAvailableTimeSlots dt cid t).2 in
  Sorted by_start_time rows /\
  (forall k1 r1 k2 r2, In (k1, r1) rows -> In (k2, r2) rows -> k1 <> k2 ->
     service_category_id r1 = service_category_id r2 -> ~ overlaps r1 r2) /\
  (forall q, cid = Some q -> JS.truthy q = true ->
     forall k1 r1 k2 r2, In (k1, r1) rows -> In (k2, r2) rows -> k1 <> k2 ->
       ~ overlaps r1 r2).
Proof.
  intros Hno. cbv zeta.
  destruct (listed_rows dt cid t) as [d Hd].
  assert (P : forall k1 r1 k2 r2,
            In (k1, r1) (listAvailableTimeSlots dt cid t).2 ->
            In (k2, r2) (listAvailableTimeSlots dt cid t).2 -> k1 <> k2 ->
            service_category_id r1 = service_category_id r2 -> ~ overlaps r1 r2).
  { intros k1 r1 k2 r2 H1 H2 Hne Hc.
    destruct (Hd _ _ H1) as (L1 & D1 & A1 & _).
    destruct (Hd _ _ H2) as (L2 & D2 & A2 & _).
    apply (Hno k1 k2 r1 r2); try done. congruence. }
  split; [|split; [exact P|]].
  - unfold listAvailableTimeSlots.
    repeat case_match; simpl; first [apply Sorted_nil | apply Sorted_merge_sort; apply _].
  - intros q -> Tq k1 r1 k2 r2 H1 H2 Hne. apply (P k1 r1 k2 r2 H1 H2 Hne).
    destruct (Hd _ _ H1) as (_ & _ & _ & C1).
    destruct (Hd _ _ H2) as (_ & _ & _ & C2).
    unfold category_condition in C1, C2. rewrite Tq in C1, C2.
    destruct (String.eqb q "null" || String.eqb q EmptyString).
    + apply bool_decide_eq_true in C1, C2. congruence.
    + destruct (service_category_id r1) as [v1|]; [|done].
      destruct (service_category_id r2) as [v2|]; [|done].
      apply bool_decide_eq_true in C1, C2. congruence.
Qed.

Lemma with_time_table rest :
  forallb (with_time_ok rest) (Booking.zrange 18262 4018) = true.
Proof. vm_compute. reflexivity. Qed.

Lemma date_part_table' rest :
  forallb (Calendar.date_part_ok rest) (Booking.zrange 18262 4018) = true.
Proof. vm_compute. reflexivity. Qed.

(** X17: the public slot listing cuts a time of day off its date
    parameter. For every date from 2020-01-01 to 2030-12-31, the date
    followed by [T] and anything gives the listing of the plain date,
    which holds exactly the available rows of that day that pass the
    category condition. *)
Theorem the_listing_cuts_the_time_of_day d rest cid t :
  18262 <= d < 22280 ->
  listAvailableTimeSlots (Some (Calendar.format_date d +:+ "T" +:+ rest)) cid t =
    listAvailableTimeSlots (Some (Calendar.format_date d)) cid t /\
  (listAvailableTimeSlots (Some (Calendar.format_date d)) cid t).1 = Response 200 EmptyString /\
  forall k r,
    In (k, r) (listAvailableTimeSlots (Some (Calendar.format_date d)) cid t).2 <->
    t !! k = Some r /\ date r = d /\ available r = true /\
    category_condition cid (service_category_id r) = true.
Proof.
  intros Hd.
  pose proof (with_time_table rest) as T. rewrite forallb_forall in T.
  specialize (T d (zrange_In 18262 4018 d ltac:(lia))).
  unfold with_time_ok in T. apply andb_true_iff in T as [T T3].
  apply andb_true_iff in T as [T1 T2]. apply negb_true_iff in T2.
  pose proof (date_part_table' rest) as P. rewrite forallb_forall in P.
  specialize (P d (zrange_In 18262 4018 d ltac:(lia))).
  unfold Calendar.date_part_ok, Calendar.date_part in P. apply String.eqb_eq in P.
  pose proof (date_roundtrip d Hd) as R.
  assert (T0 : JS.truthy (Calendar.format_date d +:+ "T" +:+ rest) = true).
  { destruct (Calendar.format_date d); [discriminate|reflexivity]. }
  split; [|split].
  - unfold listAvailableTimeSlots. rewrite T0, T1, T2, T3, P. reflexivity.
  - unfold listAvailableTimeSlots. rewrite T1, T2, R. reflexivity.
  - intros k r. apply listAvailableTimeSlots_rows; assumption.
Qed.

Lemma category_condition_admin cid c :
  category_condition cid c = true -> admin_category_condition cid c = true.
Proof.
  unfold category_condition, admin_category_condition.
  destruct cid as [q|]; [|done]. destruct (JS.truthy q); [|done].
  destruct (String.eqb q "null" || String.eqb q EmptyString).
  - intros E. apply bool_decide_eq_true in E. by rewrite E.
  - by destruct c.
Qed.

(** X18: the admin listing hides nothing. Without parameters it is a
    rearrangement of the whole table, sorted by date descending and then
    by start time; with a plain date and any category parameter it
    contains every row that the public listing returns for the same
    parameters, and unlike the public listing it also shows the rows that
    are switched off and, next to a category, the uncategorised ones. *)
Theorem the_admin_listing_hides_nothing :
  (forall t, (listTimeSlotsAdmin None None t).2 ≡ₚ map_to_list t) /\
  (forall dt cid t, Sorted by_date_desc_start (listTimeSlotsAdmin dt cid t).2) /\
  (forall dt cid t k r,
     JS.includes "T" dt = false ->
     In (k, r) (listAvailableTimeSlots (Some dt) cid t).2 ->
     In (k, r) (listTimeSlotsAdmin (Some dt) cid t).2) /\
  (forall dt cid t d k r,
     JS.truthy dt = true -> Calendar.date_of_string dt = Some d ->
     (In (k, r) (listTimeSlotsAdmin (Some dt) cid t).2 <->
      t !! k = Some r /\ date r = d /\
      admin_category_condition cid (service_category_id r) = true)).
Proof.
  split; [|split; [|split]].
  - intros t. unfold listTimeSlotsAdmin. cbn [snd fmap option_fmap option_map].
    rewrite merge_sort_Permutation. unfold select. cbn [admin_category_condition andb].
    induction (map_to_list t) as [|x l IH]; [done|]. cbn [List.filter]. by rewrite IH.
  - intros dt cid t. unfold listTimeSlotsAdmin.
    destruct (if match dt with Some d => JS.truthy d | None => false end
              then Some <$> Calendar.date_of_string (default EmptyString dt)
              else Some None) as [day|];
      cbn [snd]; [apply Sorted_merge_sort; apply _|apply Sorted_nil].
  - intros dt cid t k r Ti. unfold listAvailableTimeSlots, listTimeSlotsAdmin.
    change (default EmptyString (Some dt)) with dt.
    destruct (JS.truthy dt) eqn:Td; [|intros []]. cbn [negb]. rewrite Ti.
    destruct (Calendar.date_of_string dt) as [d|]; [|intros []].
    cbn [snd fmap option_fmap option_map].
    rewrite <- !list_elem_of_In, !merge_sort_Permutation, !list_elem_of_In.
    rewrite !elem_of_select. cbn [fst snd].
    rewrite !andb_true_iff. intros (Hk & ((Hd & _) & Hc)).
    split; [exact Hk|]. split; [exact Hd|]. by apply category_condition_admin.
  - intros dt cid t d k r Td Pd. unfold listTimeSlotsAdmin.
    change (default EmptyString (Some dt)) with dt. rewrite Td, Pd. cbn [snd fmap option_fmap option_map].
    rewrite <- list_elem_of_In, merge_sort_Permutation, list_elem_of_In.
    rewrite elem_of_select. cbn [fst snd]. rewrite andb_true_iff, Z.eqb_eq. tauto.
Qed.

(** X19: what POST /api/admin/available-dates stores when fields are
    left out. For a date the engine accepts, a capacity within the INT
    range and a category that is left out, null, zero or the id of a
    stored category, the date is added, and: the capacity is never 0, a
    missing, null or zero [max_appointments] becomes 10; a category id of
    0 is stored as no category; a missing [is_available] becomes TRUE, but
    an explicit null is stored as NULL, and such a date is in no public
    listing: the new date is listed to the public exactly when it is not
    in the past and [is_available] was missing or true. A category id
    that names no category and a capacity outside the INT range are
    answered 500, and nothing is stored. *)
Theorem a_new_date_gets_defaults today categories b (t : gmap Z available_date) s d :
  db_date b = Val s -> JS.truthy s = true -> Calendar.date_of_string s = Some d ->
  ((forall v, db_max_appointments b = Val v -> int_column v = true) ->
   (forall c, db_service_category_id b = Val c -> c <> 0 ->
      int_column c = true /\ c ∈ categories) ->
   exists row,
     createAvailableDate categories b t =
       (Response 201 "Available date added successfully", <[next_id t := row]> t) /\
     ad_date row = d /\
     (exists m, ad_max_appointments row = Some m /\ m <> 0 /\
        (db_max_appointments b = Val m \/ m = 10)) /\
     (ad_service_category_id row <> Some 0) /\
     (forall c, ad_service_category_id row = Some c -> c ∈ categories) /\
     (In (next_id t, row)
         (listAvailableDates today None (createAvailableDate categories b t).2) <->
      today <= d /\ (db_is_available b = Absent \/ db_is_available b = Val true))) /\
  (forall c, db_service_category_id b = Val c -> c <> 0 -> c ∉ categories ->
     createAvailableDate categories b t = (Response 500 "Server error", t)) /\
  (forall v, db_max_appointments b = Val v -> int_column v = false ->
     createAvailableDate categories b t = (Response 500 "Server error", t)).
Proof.
  intros Es Ts Pd. unfold createAvailableDate. rewrite Es, Ts, Pd. cbn [negb].
  cbv zeta. split; [|split].
  - intros Hm Hc.
    assert (M : int_column (match db_max_appointments b with
                            | Val v => if v =? 0 then 10 else v
                            | _ => 10 end) = true).
    { destruct (db_max_appointments b) as [| |v] eqn:E; try reflexivity.
      destruct (Z.eqb_spec v 0); [reflexivity|]. by apply Hm. }
    assert (R : match (match db_service_category_id b with
                       | Val v => if v =? 0 then None else Some v
                       | _ => None end) with
                | Some c => int_column c && bool_decide (c ∈ categories)
                | None => true end = true).
    { destruct (db_service_category_id b) as [| |c] eqn:E; try reflexivity.
      destruct (Z.eqb_spec c 0) as [|Hne]; [reflexivity|].
      destruct (Hc c eq_refl Hne) as [Hi Hin]. rewrite Hi. cbn [andb].
      by apply bool_decide_eq_true. }
    rewrite M, R. cbn [andb].
    eexists. split; [reflexivity|].
    cbn [ad_date ad_max_appointments ad_service_category_id].
    split; [reflexivity|]. split; [|split; [|split]].
    + destruct (db_max_appointments b) as [| |v];
        [exists 10; split; [done|split; [done|by right]]..|].
      destruct (Z.eqb_spec v 0) as [->|Hv].
      * exists 10. split; [done|]. split; [done|by right].
      * exists v. split; [done|]. split; [done|by left].
    + destruct (db_service_category_id b) as [| |v]; try done.
      destruct (Z.eqb_spec v 0); congruence.
    + intros c Ec. destruct (db_service_category_id b) as [| |v] eqn:E; try done.
      destruct (Z.eqb_spec v 0) as [|Hne]; [done|]. injection Ec as <-.
      by destruct (Hc v eq_refl Hne).
    + cbn [snd]. rewrite listAvailableDates_rows. rewrite lookup_insert_eq.
      cbn [ad_is_available ad_date ad_service_category_id category_condition].
      destruct (db_is_available b) as [| |[|]]; split; intros; try tauto;
        repeat match goal with H : _ /\ _ |- _ => destruct H | H : _ \/ _ |- _ => destruct H end;
        try discriminate; try done; repeat split; try done.
  - intros c Ec Hne Hout. rewrite Ec.
    destruct (Z.eqb_spec c 0) as [|_]; [done|].
    rewrite (bool_decide_eq_false_2 _ Hout). by rewrite !andb_false_r.
  - intros v Ev Hv. rewrite Ev.
    destruct (Z.eqb_spec v 0) as [->|_]; [done|]. by rewrite Hv.
Qed.

End RegistryFacts.

Section RegistryExamples.
Import Http Slots Registry Sample.

Lemma one_time_alone_witness :
  @updateTimeSlot decimal_engine "1" (UpdateBody (Val "09:10") Null Null Null Null) morning =
    (bad_request "Invalid time format. Use HH:MM format", morning).
Proof.
  apply (@one_time_alone_is_refused decimal_engine "1" 1 (slot 32400 34200 true None));
    reflexivity.
Defined.

(** The interval of [morning] again, for category 7: outside the scope
    of the overlap check, and refused by the unique key. *)
Lemma an_interval_witness :
  status (createTimeSlot
            (CreateBody (Val "09:00") (Val "09:30") (Val true) Absent (Val day) (Val 7))
            morning).1 = 500 /\
  exists row,
    (createTimeSlot (create_req "09:30" "10:00") morning).2 = <[2 := row]> morning /\
    morning !! 2 = None.
Proof.
  split; [vm_compute; reflexivity|].
  destruct (proj1 (@an_interval_exists_once_per_date decimal_engine)
              (create_req "09:30" "10:00") morning) as (row & E & F & _).
  - vm_compute. reflexivity.
  - exists row. split; [exact E|exact F].
Defined.

Lemma listed_slots_witness :
  Sorted by_start_time (@listAvailableTimeSlots decimal_engine (Some day) None mixed).2.
Proof.
  refine (proj1 (@listed_slots_do_not_overlap decimal_engine (Some day) None mixed _)).
  apply no_overlapb_spec. vm_compute. reflexivity.
Defined.

Lemma the_listing_witness :
  @listAvailableTimeSlots decimal_engine
    (Some (Calendar.format_date 20157 +:+ "T" +:+ "10:00:00.000Z")) None mixed =
  @listAvailableTimeSlots decimal_engine (Some (Calendar.format_date 20157)) None mixed.
Proof.
  refine (proj1 (@the_listing_cuts_the_time_of_day decimal_engine 20157
                   "10:00:00.000Z" None mixed _)). lia.
Defined.

Lemma the_admin_listing_witness :
  In (2, slot 36000 37800 true (Some 7))
     (@listTimeSlotsAdmin decimal_engine (Some day) (Some "7") mixed).2.
Proof.
  apply (proj1 (proj2 (proj2 (@the_admin_listing_hides_nothing decimal_engine)))).
  - reflexivity.
  - vm_compute. auto.
Defined.

(** Category 7 is stored, category 8 is not. *)
Lemma a_new_date_witness :
  (exists row,
     createAvailableDate {[7]} (DateBody (Val day) Absent (Val 0) (Val 7)) dates =
       (Response 201 "Available date added successfully", <[next_id dates := row]> dates) /\
     ad_max_appointments row = Some 10) /\
  createAvailableDate {[7]} (DateBody (Val day) Absent (Val 0) (Val 8)) dates =
    (Response 500 "Server error", dates).
Proof.
  split.
  - destruct (@a_new_date_gets_defaults decimal_engine 20157 {[7]}
                (DateBody (Val day) Absent (Val 0) (Val 7))
                dates day 20157 eq_refl eq_refl eq_refl) as (Hok & _ & _).
    destruct Hok as (row & E & _ & (m & Hm & Hne & [Hv|Hv]) & _).
    + intros v [= <-]. reflexivity.
    + intros c [= <-] _. split; [reflexivity|]. by apply elem_of_singleton.
    + injection Hv as <-. done.
    + exists row. split; [exact E|]. by rewrite Hm, Hv.
  - refine (proj1 (proj2 (@a_new_date_gets_defaults decimal_engine 20157 {[7]}
                (DateBody (Val day) Absent (Val 0) (Val 8))
                dates day 20157 eq_refl eq_refl eq_refl)) 8 eq_refl _ _).
    + discriminate.
    + rewrite elem_of_singleton. discriminate.
Defined.

End RegistryExamples.

Section ScheduleFacts.
Import Http Appointments Schedule.
Context `{SqlEngine}.
Implicit Types (t : gmap Z appointment).

Lemma range24_table rest :
  forallb (fun h => forallb (range24_ok rest h) (Booking.zrange 0 60))
          (Booking.zrange 0 24) = true.
Proof. vm_compute. reflexivity. Qed.

(** X20: a range on the 24-hour clock is cut to its start like a 12-hour
    one, but the hour 12 is always rewritten to 00 before the AM/PM word is
    looked at: [HH:MM - ...] gives [HH:MM:00] for every hour except 12, and
    [12:MM - ...] gives [00:MM:00], so a booking for 12:30 - 13:00 is
    stored at half past midnight. *)
Theorem a_24_hour_range_starting_at_12_becomes_midnight h m rest :
  0 <= h <= 23 -> 0 <= m <= 59 ->
  Booking.extractStartTime (range24 h m rest) =
    Booking.two_digits (if h =? 12 then 0 else h) +:+ ":" +:+
    Booking.two_digits m +:+ ":00".
Proof.
  intros Hh Hm. pose proof (range24_table rest) as T.
  rewrite forallb_forall in T.
  specialize (T h (zrange_In 0 24 h ltac:(lia))). rewrite forallb_forall in T.
  specialize (T m (zrange_In 0 60 m ltac:(lia))).
  unfold range24_ok in T. by apply String.eqb_eq in T.
Qed.

Lemma a_24_hour_range_witness :
  Booking.extractStartTime "12:30 - 13:00" = "00:30:00" /\
  Booking.extractStartTime "13:30 - 14:00" = "13:30:00".
Proof.
  split.
  - apply (a_24_hour_range_starting_at_12_becomes_midnight 12 30 "13:00"); lia.
  - apply (a_24_hour_range_starting_at_12_becomes_midnight 13 30 "14:00"); lia.
Defined.

Lemma clock_text_table :
  forallb (fun h => forallb (clock_text_ok h) (Booking.zrange 0 60))
          (Booking.zrange 0 24) = true.
Proof. vm_compute. reflexivity. Qed.

Lemma clock_text_facts h m :
  0 <= h <= 23 -> 0 <= m <= 59 ->
  Calendar.time_of_string (clock_text h m) = Some (3600 * h + 60 * m) /\
  Calendar.time_to_string (3600 * h + 60 * m) = clock_text h m.
Proof.
  intros Hh Hm. pose proof clock_text_table as T.
  rewrite forallb_forall in T.
  specialize (T h (zrange_In 0 24 h ltac:(lia))). rewrite forallb_forall in T.
  specialize (T m (zrange_In 0 60 m ltac:(lia))).
  unfold clock_text_ok in T. apply andb_true_iff in T as [T1 T2].
  apply bool_decide_eq_true in T1. apply String.eqb_eq in T2. done.
Qed.

(** X21: the time of a booking survives the round trip through the
    table on the 24-hour clock. An appointment created with a 12-hour
    display range as its time is read back by GET
    /api/user/appointments/:id with the start of the range as HH:MM:00,
    where 12 AM is hour 00 and the PM hours but 12 gain 12. *)
Theorem a_booked_time_reads_back_on_the_24_hour_clock tz uid b t pad h m pm rest :
  cb_appointment_time b = Val (Booking.display_range pad h m pm rest) ->
  1 <= h <= 12 -> 0 <= m <= 59 ->
  Http.status (createAppointment uid b t).1 = 201 ->
  j_appointment_time <$>
    (getAppointment tz uid (JS.number_toString (Slots.next_id t))
       (createAppointment uid b t).2).2 =
  Some (clock_text (Booking.hour24 h pm) m).
Proof.
  intros Et Hh Hm.
  assert (H24 : 0 <= Booking.hour24 h pm <= 23).
  { unfold Booking.hour24. pose proof (Z.mod_pos_bound h 12 ltac:(lia)).
    destruct pm; lia. }
  destruct (clock_text_facts _ _ H24 Hm) as [Tof Tto].
  unfold createAppointment. rewrite Et. cbn [formatted_time].
  rewrite display_range_start by assumption.
  change (Booking.two_digits (Booking.hour24 h pm) +:+ ":" +:+
          Booking.two_digits m +:+ ":00") with (clock_text (Booking.hour24 h pm) m).
  cbn [bind mbind option_bind]. rewrite Tof.
  repeat case_match; cbn [fst snd Http.status]; try discriminate; intros _.
  all: unfold getAppointment, select_owned; rewrite int_of_text_decimal;
    cbn [mbind option_bind]; rewrite lookup_insert_eq; cbn [mbind option_bind user_id];
    rewrite Z.eqb_refl; cbn [snd fmap option_fmap option_map to_json j_appointment_time
                              appointment_time];
    by rewrite Tto.
Qed.

Lemma select_owned_some id uid t k a :
  select_owned id uid t = Some (k, a) -> t !! k = Some a /\ user_id a = uid.
Proof.
  unfold select_owned. destruct (int_of_text id) as [k'|]; [|done]. simpl.
  destruct (t !! k') as [a'|] eqn:E; [|done]. simpl.
  destruct (Z.eqb_spec (user_id a') uid); [|done]. by intros [= <- <-].
Qed.

Lemma assign_keeps_owner col v (a a' : appointment) :
  assign col v a = Some a' ->
  user_id a' = user_id a /\ service a' = service a /\ location a' = location a /\
  price a' = price a.
Proof.
  unfold assign. destruct v as [x|z]; [|done].
  repeat case_match; try done.
  - by intros [= <-].
  - destruct (Calendar.date_of_string x); [|done]. by intros [= <-].
  - destruct (Calendar.time_of_string x); [|done]. by intros [= <-].
Qed.

Lemma assign_all_keeps_owner cols vals (a a' : appointment) :
  assign_all cols vals a = Some a' ->
  user_id a' = user_id a /\ service a' = service a /\ location a' = location a /\
  price a' = price a.
Proof.
  revert vals a. induction cols as [|c cols IH]; intros vals a; simpl.
  - by intros [= <-].
  - destruct vals as [|v vals]; [done|].
    destruct (assign c v a) as [a1|] eqn:E; [|done]. simpl. intros Hall.
    apply assign_keeps_owner in E as (? & ? & ? & ?).
    apply IH in Hall as (? & ? & ? & ?). repeat split; congruence.
Qed.

Lemma skipn_two_at_end {A} n (l : list A) x y a b :
  skipn n (l ++ [x; y]) = [a; b] -> x = a /\ y = b.
Proof.
  intros E.
  assert (L : (l ++ [x; y])%list = (firstn n (l ++ [x; y]) ++ [a; b])%list)
    by (rewrite <- E; symmetry; apply firstn_skipn).
  change [x; y] with ([x] ++ [y])%list in L.
  change [a; b] with ([a] ++ [b])%list in L.
  rewrite !app_assoc in L.
  apply app_inj_tail in L as [L ->]. apply app_inj_tail in L as [_ ->]. done.
Qed.

Lemma build_update_values id uid p :
  exists l, (build_update id uid p).2 = (l ++ [VText id; VInt uid])%list.
Proof. unfold build_update. eexists. reflexivity. Qed.

(** What a request to PUT /api/user/appointments/:id can do to the table:
    nothing, or replace one row that the caller owns by a row with the
    same owner, service, location and price. *)
Lemma updateAppointment_shape uid id p t :
  (updateAppointment uid id p t).2 = t \/
  exists k a a', t !! k = Some a /\ user_id a = uid /\
    (updateAppointment uid id p t).2 = <[k := a']> t /\
    user_id a' = uid /\ service a' = service a /\ location a' = location a /\
    price a' = price a.
Proof.
  unfold updateAppointment.
  destruct (select_owned id uid t) as [[k0 a0]|]; [|by left].
  destruct (build_update_values id uid p) as [l Hl].
  destruct (build_update id uid p) as [q vals]. cbn [snd] in Hl. subst vals.
  unfold execute_update.
  destruct (parse_update q) as [cols|]; [|by left]. cbn [mbind option_bind].
  destruct (skipn (length cols) (l ++ [VText id; VInt uid])) as [|v1 l1] eqn:E;
    [by left|].
  destruct v1 as [id'|]; [|by left].
  destruct l1 as [|v2 l2]; [by left|].
  destruct v2 as [|uid']; [by left|].
  destruct l2 as [|v3 l3]; [|by left].
  apply skipn_two_at_end in E as [[= <-] [= <-]].
  destruct (strict_ok id); [|by left].
  destruct (select_owned id uid t) as [[k a]|] eqn:O; [|by left].
  destruct (assign_all cols (l ++ [VText id; VInt uid]) a) as [a'|] eqn:A; [|by left].
  cbn [fmap option_fmap option_map snd].
  apply select_owned_some in O as [Hk Hu].
  apply assign_all_keeps_owner in A as (? & ? & ? & ?).
  right. exists k, a, a'. repeat split; try done. congruence.
Qed.

(** X22: a customer can change only appointments of its own. Whatever
    id and fields a request to PUT /api/user/appointments/:id carries, the
    appointments of every other user are left as they were, no row is
    added or removed, and the one row that may change keeps its owner,
    service, location and price. *)
Theorem a_customer_changes_only_its_own_appointments uid id p t :
  let t' := (updateAppointment uid id p t).2 in
  (forall k a, t !! k = Some a -> user_id a <> uid -> t' !! k = Some a) /\
  (forall k, is_Some (t' !! k) <-> is_Some (t !! k)) /\
  (forall k a a', t !! k = Some a -> t' !! k = Some a' ->
     user_id a' = user_id a /\ service a' = service a /\
     location a' = location a /\ price a' = price a).
Proof.
  cbv zeta.
  destruct (updateAppointment_shape uid id p t)
    as [->|(k0 & a0 & a1 & Hk & Hu & -> & Hu' & Hs & Hl & Hp)].
  { split; [done|]. split; [done|]. intros k a a' Ha Ha'. by simplify_eq. }
  split; [|split].
  - intros k a Ha Hne. rewrite lookup_insert_ne; [done|]. intros <-. congruence.
  - intros k. destruct (decide (k = k0)) as [->|Hne].
    + rewrite lookup_insert_eq, Hk. split; eauto.
    + by rewrite lookup_insert_ne.
  - intros k a a' Ha Ha'. destruct (decide (k = k0)) as [->|Hne].
    + rewrite lookup_insert_eq in Ha'. simplify_eq. repeat split; congruence.
    + rewrite lookup_insert_ne in Ha' by done. by simplify_eq.
Qed.

Lemma alter_as_insert {A} (f : A -> A) k (m : gmap Z A) x :
  m !! k = Some x -> alter f k m = <[k := f x]> m.
Proof.
  intros Hk. apply map_eq. intros j. destruct (decide (k = j)) as [->|Hne].
  - by rewrite lookup_alter_eq, lookup_insert_eq, Hk.
  - by rewrite lookup_alter_ne, lookup_insert_ne.
Qed.

(** X23: over the status of its own appointment a customer has the power
    of the admin. A request to PUT /api/user/appointments/:id that carries
    only a status stores any status of the column's list, spelled as the
    list spells it, confirmed and completed included, and leaves the table
    as the admin's PUT /api/admin/appointments/:id/status leaves it. The
    list is tested in JavaScript at the admin's route only: there any
    other text is answered 400 and the table stays as it was. The admin's
    route answers 200 also when no row has the id. *)
Theorem a_customer_sets_any_status uid k a s t :
  t !! k = Some a -> user_id a = uid -> JS.truthy s = true ->
  let id := JS.number_toString k in
  let mine := updateAppointment uid id (Patch (Val s) Absent Absent) t in
  let admins := adminUpdateStatus id (Val s) t in
  (member s appointment_statuses = true ->
     mine = (Response 200 "Appointment updated successfully",
             <[k := set_status (Some s) a]> t) /\
     admins = (Response 200 "Appointment status updated successfully",
               <[k := set_status (Some s) a]> t)) /\
  (member s appointment_statuses = false ->
     admins = (Response 400 "Invalid status", t)) /\
  (forall j, t !! j = None -> member s appointment_statuses = true ->
     adminUpdateStatus (JS.number_toString j) (Val s) t =
       (Response 200 "Appointment status updated successfully", t)).
Proof.
  intros Hk Hu Ts. cbv zeta.
  assert (O : select_owned (JS.number_toString k) uid t = Some (k, a)).
  { unfold select_owned. rewrite int_of_text_decimal. simpl. rewrite Hk. simpl.
    by rewrite Hu, Z.eqb_refl. }
  assert (B : build_update (JS.number_toString k) uid (Patch (Val s) Absent Absent) =
              ("UPDATE appointments SET status = ? WHERE id = ? AND user_id = ?",
               [VText s; VText (JS.number_toString k); VInt uid])).
  { unfold build_update, add_field. cbn [p_status p_appointment_date p_appointment_time].
    rewrite Ts. reflexivity. }
  assert (M : updateAppointment uid (JS.number_toString k) (Patch (Val s) Absent Absent) t =
              if member s appointment_statuses
              then (Response 200 "Appointment updated successfully",
                    <[k := set_status (Some s) a]> t)
              else (Response 500 "Server error", t)).
  { unfold updateAppointment. rewrite O, B. unfold execute_update.
    change (parse_update "UPDATE appointments SET status = ? WHERE id = ? AND user_id = ?")
      with (Some ["status"]).
    cbn [mbind option_bind length skipn]. rewrite strict_ok_decimal, O.
    cbn [assign_all assign String.eqb Ascii.eqb Bool.eqb mbind option_bind].
    change ("status" =? "status")%string with true. cbn iota.
    by destruct (member s appointment_statuses). }
  assert (A : adminUpdateStatus (JS.number_toString k) (Val s) t =
              if member s appointment_statuses
              then (Response 200 "Appointment status updated successfully",
                    <[k := set_status (Some s) a]> t)
              else (Response 400 "Invalid status", t)).
  { unfold adminUpdateStatus. rewrite Ts. cbn [negb].
    destruct (member s appointment_statuses); [|done]. cbn [negb].
    rewrite strict_ok_decimal, int_of_text_decimal. by rewrite (alter_as_insert _ _ _ a). }
  rewrite M, A. split; [|split].
  - by intros ->.
  - by intros ->.
  - intros j Hj Hm. unfold adminUpdateStatus. rewrite Ts, Hm. cbn [negb].
    rewrite strict_ok_decimal, int_of_text_decimal. f_equal.
    apply map_eq. intros i. destruct (decide (j = i)) as [->|Hne].
    + by rewrite lookup_alter_eq, Hj.
    + by rewrite lookup_alter_ne.
Qed.



Lemma is_upcoming_spec today now a :
  is_upcoming today now a = true <->
  ~ (appointment_date a < today \/
     (appointment_date a = today /\ appointment_time a < now)) /\
  exists s, status a = Some s /\ s <> "completed" /\ s <> "cancelled".
Proof.
  unfold is_upcoming.
  rewrite andb_true_iff, orb_true_iff, andb_true_iff, Z.ltb_lt, Z.eqb_eq, Z.leb_le.
  assert (S : match status a with
              | Some s => negb (String.eqb s "completed" || String.eqb s "cancelled")
              | None => false
              end = true <->
              exists s, status a = Some s /\ s <> "completed" /\ s <> "cancelled").
  { destruct (status a) as [s|].
    - destruct (String.eqb_spec s "completed") as [Hc|Hc],
               (String.eqb_spec s "cancelled") as [Hx|Hx]; simpl; split;
        try discriminate; try (intros (s' & [= <-] & ? & ?); done).
      intros _. exists s. done.
    - split; [discriminate|]. by intros (s' & ? & _). }
  rewrite S. split; intros [D E]; (split; [lia|exact E]).
Qed.

Lemma is_past_spec today now a :
  is_past today now a = true <->
  (appointment_date a < today \/
   (appointment_date a = today /\ appointment_time a < now)) \/
  status a = Some "completed".
Proof.
  unfold is_past.
  rewrite !orb_true_iff, andb_true_iff, Z.ltb_lt, Z.eqb_eq, Z.ltb_lt,
    bool_decide_eq_true. tauto.
Qed.

(** X25: the two dated listings of a customer, read off their queries.
    Both hold rows of the caller only. An appointment is among the
    upcoming ones when it is not yet over and its status is neither
    completed nor cancelled nor NULL, and among the past ones when it is
    over or completed; so none is in both, and one is in neither exactly
    when it is not yet over and cancelled or without status. *)
Theorem upcoming_and_past_listings uid today now t k a :
  t !! k = Some a -> user_id a = uid ->
  let before := appointment_date a < today \/
                (appointment_date a = today /\ appointment_time a < now) in
  let up := In (k, a) (listUpcoming uid today now t) in
  let past := In (k, a) (listPast uid today now t) in
  (up <-> ~ before /\ exists s, status a = Some s /\ s <> "completed" /\ s <> "cancelled") /\
  (past <-> before \/ status a = Some "completed") /\
  ~ (up /\ past) /\
  (~ up /\ ~ past <-> ~ before /\ (status a = Some "cancelled" \/ status a = None)) /\
  (forall j x, In (j, x) (listUpcoming uid today now t) \/
               In (j, x) (listPast uid today now t) -> user_id x = uid).
Proof.
  intros Hk Hu. cbv zeta.
  assert (U : In (k, a) (listUpcoming uid today now t) <-> is_upcoming today now a = true).
  { unfold listUpcoming.
    rewrite <- list_elem_of_In, merge_sort_Permutation, list_elem_of_In.
    rewrite elem_of_select. cbn [fst snd]. rewrite Hu, Z.eqb_refl. simpl. tauto. }
  assert (P : In (k, a) (listPast uid today now t) <-> is_past today now a = true).
  { unfold listPast.
    rewrite <- list_elem_of_In, merge_sort_Permutation, list_elem_of_In.
    rewrite elem_of_select. cbn [fst snd]. rewrite Hu, Z.eqb_refl. simpl. tauto. }
  rewrite U, P, is_upcoming_spec, is_past_spec.
  set (before := appointment_date a < today \/
                 (appointment_date a = today /\ appointment_time a < now)).
  assert (Db : before \/ ~ before) by (unfold before; lia).
  split; [done|]. split; [done|]. split; [|split].
  - intros [[Hn (s & Es & Hc & _)] [Hb|Hc']]; [done|]. congruence.
  - split.
    + intros [Hnu Hnp]. destruct Db as [Hb|Hb]; [tauto|]. split; [done|].
      destruct (status a) as [s|] eqn:Es; [|by right]. left.
      destruct (decide (s = "cancelled")) as [->|Hx]; [done|].
      destruct (decide (s = "completed")) as [->|Hc]; [tauto|].
      exfalso. apply Hnu. split; [done|]. exists s. done.
    + intros [Hb Hs]. split.
      * intros [_ (s & Es & Hc & Hx)]. destruct Hs as [Hs|Hs]; congruence.
      * intros [Hb'|Hc]; [done|]. destruct Hs as [Hs|Hs]; congruence.
  - intros j x [Hin|Hin]; revert Hin; unfold listUpcoming, listPast;
      rewrite <- list_elem_of_In, merge_sort_Permutation, list_elem_of_In;
      rewrite elem_of_select; cbn [fst snd]; rewrite andb_true_iff, Z.eqb_eq; tauto.
Qed.

Lemma payments_keep_their_keys st pid (ps ps' : gmap Z payment) :
  update_payment_status st pid ps = Some ps' ->
  forall k, (ps' !! k = None <-> ps !! k = None) /\
    forall p', ps' !! k = Some p' ->
      exists p, ps !! k = Some p /\ order_id p' = order_id p /\
                payment_id p' = payment_id p.
Proof.
  unfold update_payment_status.
  destruct (match st with Some x => member x payment_statuses | None => true end);
    [|done].
  intros [= <-] k. destruct pid as [x|].
  - rewrite lookup_fmap. destruct (ps !! k) as [p|]; simpl.
    + split; [done|]. intros p' [= <-]. exists p. split; [done|].
      by destruct (text_eq (payment_id p) x).
    + split; [done|]. done.
  - split; [done|]. intros p' Hp'. exists p'. done.
Qed.

(** X26: only a completed payment touches an appointment. A notification
    whose status is not the text completed, or whose order_id is missing,
    null or empty, leaves every appointment as it was, whatever else it
    carries; and no notification adds or removes a payment row or changes
    the order or payment id of one. *)
Theorem only_a_completed_payment_confirms b d :
  (wb_status b <> Val "completed" \/ supplied JS.truthy (wb_order_id b) = false ->
   appointments (ziinaWebhook b d).1.2 = appointments d) /\
  (forall k,
     (payments (ziinaWebhook b d).1.2 !! k = None <-> payments d !! k = None) /\
     forall p', payments (ziinaWebhook b d).1.2 !! k = Some p' ->
       exists p, payments d !! k = Some p /\ order_id p' = order_id p /\
                 payment_id p' = payment_id p).
Proof.
  unfold ziinaWebhook.
  destruct (bind (wb_status b)) as [st|]; [|split; [done|intros k; split; [done|eauto]]].
  destruct (bind (wb_payment_id b)) as [pid|];
    [|split; [done|intros k; split; [done|eauto]]].
  destruct (update_payment_status st pid (payments d)) as [ps|] eqn:E;
    [|split; [done|intros k; split; [done|eauto]]].
  pose proof (payments_keep_their_keys _ _ _ _ E) as K.
  split.
  - intros Hno. destruct (wb_status b) as [| |s]; try done.
    destruct (wb_order_id b) as [| |o]; try done.
    destruct (String.eqb_spec s "completed") as [->|Hs].
    + destruct Hno as [Hno|Hno]; [done|]. simpl in Hno. by rewrite Hno.
    + done.
  - intros k.
    destruct (wb_status b) as [| |s]; try exact (K k).
    destruct (wb_order_id b) as [| |o]; try exact (K k).
    destruct (String.eqb s "completed" && JS.truthy o); [|exact (K k)].
    destruct (confirm_appointment _ _); exact (K k).
Qed.

End ScheduleFacts.

Section ScheduleExamples.
Import Http Appointments Schedule Sample.

Lemma a_booked_time_witness :
  j_appointment_time <$>
    (@getAppointment decimal_engine 240 5
       (JS.number_toString (Slots.next_id (∅ : gmap Z appointment)))
       (createAppointment 5 booking_req ∅).2).2 = Some "14:00:00".
Proof.
  apply (@a_booked_time_reads_back_on_the_24_hour_clock decimal_engine 240 5
           booking_req ∅ false 2 0 true "2:30 PM"); first [reflexivity | lia].
Defined.

Lemma a_customer_sets_any_status_witness :
  @updateAppointment decimal_engine 5 "42" (Patch (Val "completed") Absent Absent) booked =
    (Response 200 "Appointment updated successfully",
     <[42 := set_status (Some "completed") booking]> booked).
Proof.
  refine (proj1 (proj1 (@a_customer_sets_any_status decimal_engine 5 42 booking
                          "completed" booked _ _ _) _)); reflexivity.
Defined.

Lemma upcoming_and_past_witness :
  In (42, booking) (listUpcoming 5 20157 0 booked) /\
  ~ In (42, booking) (listPast 5 20157 0 booked).
Proof.
  destruct (@upcoming_and_past_listings 5 20157 0 booked 42 booking eq_refl eq_refl)
    as (Hu & Hp & Hno & _).
  assert (U : In (42, booking) (listUpcoming 5 20157 0 booked)).
  { apply Hu. split.
    - simpl. lia.
    - exists "pending". repeat split; discriminate. }
  split; [exact U|]. intros P. apply Hno. split; assumption.
Defined.

End ScheduleExamples.

Section SeedFacts.
Import Slots Seed.
Context `{SqlEngine}.

Lemma zrange_elem lo n z : In z (Booking.zrange lo n) <-> lo <= z < lo + Z.of_nat n.
Proof.
  split; [|apply zrange_In].
  unfold Booking.zrange. intros (i & <- & Hi%in_seq)%in_map_iff. lia.
Qed.

Lemma holds_insert_fresh {A} (t : gmap Z A) (x row : A) :
  holds (<[next_id t := x]> t) row <-> holds t row \/ row = x.
Proof.
  unfold holds. split.
  - intros [k Hk]. destruct (decide (k = next_id t)) as [->|Hne].
    + rewrite lookup_insert_eq in Hk. right. congruence.
    + rewrite lookup_insert_ne in Hk by done. left. eauto.
  - intros [[k Hk]| ->].
    + exists k. rewrite lookup_insert_ne; [done|].
      intros <-. by rewrite next_id_fresh in Hk.
    + exists (next_id t). apply lookup_insert_eq.
Qed.

Lemma insert_dates_rows days (t : gmap Z available_date) :
  Forall (fun o => forall s, o = Some s -> is_Some (Calendar.date_of_string s)) days ->
  (insert_dates days t).2 = true /\
  forall row, holds (insert_dates days t).1 row <->
    holds t row \/
    exists s d, In (Some s) days /\ Calendar.date_of_string s = Some d /\
                row = AvailableDate d None (Some true) (Some 10).
Proof.
  revert t. induction days as [|[s|] days IH]; intros t Hall.
  - split; [done|]. intros row. simpl. split; [auto|].
    intros [?|(s & d & [] & _)]; done.
  - apply Forall_cons in Hall as [Hs Hall].
    destruct (Hs s eq_refl) as [d Hd]. cbn [insert_dates]. rewrite Hd.
    destruct (IH (<[next_id t := AvailableDate d None (Some true) (Some 10)]> t) Hall)
      as [F R].
    split; [exact F|]. intros row. rewrite R, holds_insert_fresh. split.
    + intros [[?| ->]|(s' & d' & Hin & Hd' & ->)]; [by left| |].
      * right. exists s, d. split; [by left|done].
      * right. exists s', d'. split; [by right|done].
    + intros [?|(s' & d' & [[= ->]|Hin] & Hd' & ->)]; [by left; left| |].
      * left. right. congruence.
      * right. eauto.
  - apply Forall_cons in Hall as [_ Hall]. cbn [insert_dates].
    destruct (IH t Hall) as [F R]. split; [exact F|].
    intros row. rewrite R. split.
    + intros [?|(s' & d' & Hin & Hd' & ->)]; [by left|].
      right. exists s', d'. split; [by right|done].
    + intros [?|(s' & d' & [[=]|Hin] & Hd' & ->)]; [by left|]. right. eauto.
Qed.

Lemma seed_date_spec tz now i :
  18262 <= now / 86400000 -> now / 86400000 + 30 < 22280 -> 0 <= i < 30 ->
  local_day tz (now + i * 86400000) = local_day tz now + i /\
  Calendar.date_part (Calendar.toISOString (now + i * 86400000)) =
    Calendar.format_date (now / 86400000 + i) /\
  Calendar.date_of_string (Calendar.format_date (now / 86400000 + i)) =
    Some (now / 86400000 + i).
Proof.
  intros Hlo Hhi Hi.
  assert (D : (now + i * 86400000) / 86400000 = now / 86400000 + i)
    by (apply Z.div_add; lia).
  split; [|split].
  - unfold local_day.
    replace (now + i * 86400000 + tz * 60000) with (now + tz * 60000 + i * 86400000) by lia.
    apply Z.div_add. lia.
  - rewrite date_part_toISOString; rewrite D; [done|lia].
  - apply date_roundtrip. lia.
Qed.

Lemma unique_key_not_taken row (t : table) :
  (forall k x, t !! k = Some x ->
     date x = date row -> start_time x = start_time row -> end_time x = end_time row ->
     False) ->
  unique_key_taken None row t = false.
Proof.
  intros Hfree. unfold unique_key_taken.
  apply negb_false_iff, bool_decide_eq_true, select_nil. intros k x Hk. cbv beta.
  destruct (Z.eqb_spec (date x) (date row)) as [Hd|];
    [|by rewrite andb_false_r].
  destruct (Z.eqb_spec (start_time x) (start_time row)) as [Hs|];
    [|by rewrite andb_false_r].
  destruct (Z.eqb_spec (end_time x) (end_time row)) as [He|];
    [|by rewrite andb_false_r].
  destruct (Hfree k x Hk Hd Hs He).
Qed.

Lemma insert_slots_rows ds d slots : forall times (t : table),
  Calendar.date_of_string ds = Some d ->
  times_of slots = Some times ->
  NoDup times ->
  (forall k x, t !! k = Some x -> date x = d -> ~ In (start_time x, end_time x) times) ->
  (insert_slots ds slots t).2 = true /\
  forall row, holds (insert_slots ds slots t).1 row <->
    holds t row \/
    exists s e, In (s, e) times /\ row = TimeSlot s e (Some true) (Some 0) d None.
Proof.
  induction slots as [|sl slots IH]; intros times t Hd Ht Hnd Hfree.
  - injection Ht as <-. split; [done|]. intros row. simpl. split; [auto|].
    intros [?|(s & e & [] & _)]. done.
  - cbn [times_of] in Ht.
    destruct (Calendar.time_of_string sl.1) as [s|] eqn:Es; [|done].
    destruct (Calendar.time_of_string sl.2) as [e|] eqn:Ee; [|done].
    destruct (times_of slots) as [rest|] eqn:Er; [|done].
    injection Ht as <-.
    apply NoDup_cons in Hnd as [Hnew Hnd]. rewrite list_elem_of_In in Hnew.
    cbn [insert_slots]. unfold insert_slot. rewrite Es, Ee, Hd.
    rewrite unique_key_not_taken; last first.
    { intros k x Hk Hdx Hs He. apply (Hfree k x Hk Hdx). left.
      simpl in Hs, He. congruence. }
    destruct (IH rest (<[next_id t := TimeSlot s e (Some true) (Some 0) d None]> t)
                Hd eq_refl Hnd) as [F R].
    { intros k x Hk Hdx Hin. destruct (decide (k = next_id t)) as [->|Hne].
      - rewrite lookup_insert_eq in Hk. injection Hk as <-. by apply Hnew.
      - rewrite lookup_insert_ne in Hk by done.
        apply (Hfree k x Hk Hdx). by right. }
    split; [exact F|]. intros row. rewrite R, holds_insert_fresh. split.
    + intros [[?| ->]|(s' & e' & Hin & ->)]; [by left| |].
      * right. exists s, e. split; [by left|done].
      * right. exists s', e'. split; [by right|done].
    + intros [?|(s' & e' & [[= <- <-]|Hin] & ->)]; [by left; left| |].
      * by left; right.
      * right. eauto.
Qed.

Lemma plain_date_table :
  forallb plain_date_ok (Booking.zrange 18262 4018) = true.
Proof. vm_compute. reflexivity. Qed.

(** X27: the dates seeded at start-up are the next thirty days in UTC,
    with those left out whose day in the server's zone is a Sunday. The
    loop reads the weekday in local time and writes the date in UTC, so
    the days left out are the Sundays only when the local date of the
    start-up is the UTC date; when the local date is already the next day
    (a zone east of UTC, shortly after local midnight), the Saturdays are
    left out and the Sundays are seeded. The statement covers start-ups
    from 2020 to 2030. *)
Theorem seeded_dates_skip_the_local_sunday tz now :
  18262 <= now / 86400000 -> now / 86400000 + 30 < 22280 ->
  let today := now / 86400000 in
  let shift := local_day tz now - today in
  (seedDates tz now ∅).2 = true /\
  (forall row, holds (seedDates tz now ∅).1 row <->
     exists d, row = AvailableDate d None (Some true) (Some 10) /\
               today <= d < today + 30 /\ day_of_week (d + shift) <> 0) /\
  (shift = 0 ->
     forall d, holds (seedDates tz now ∅).1 (AvailableDate d None (Some true) (Some 10)) ->
       day_of_week d <> 0) /\
  (shift = 1 ->
     forall d, today <= d < today + 30 ->
       (day_of_week d = 0 ->
        holds (seedDates tz now ∅).1 (AvailableDate d None (Some true) (Some 10))) /\
       (day_of_week d = 6 ->
        ~ holds (seedDates tz now ∅).1 (AvailableDate d None (Some true) (Some 10)))).
Proof.
  intros Hlo Hhi. cbv zeta.
  unfold seedDates. rewrite map_to_list_empty.
  set (days := map (seed_date tz now) (Booking.zrange 0 30)).
  assert (Hdays : forall s, In (Some s) days <->
            exists i, 0 <= i < 30 /\
              day_of_week (local_day tz now + i) <> 0 /\
              s = Calendar.format_date (now / 86400000 + i)).
  { intros s. unfold days. rewrite in_map_iff. split.
    - intros (i & Hs & Hi%zrange_elem).
      destruct (seed_date_spec tz now i Hlo Hhi ltac:(lia)) as (L & P & _).
      unfold seed_date in Hs. rewrite L, P in Hs.
      destruct (Z.eqb_spec (day_of_week (local_day tz now + i)) 0); [done|].
      injection Hs as <-. exists i. repeat split; try done; lia.
    - intros (i & Hi & Hw & ->). exists i. split; [|apply zrange_elem; lia].
      destruct (seed_date_spec tz now i Hlo Hhi Hi) as (L & P & _).
      unfold seed_date. rewrite L, P.
      by destruct (Z.eqb_spec (day_of_week (local_day tz now + i)) 0). }
  assert (Hok : Forall (fun o => forall s, o = Some s ->
                          is_Some (Calendar.date_of_string s)) days).
  { apply Forall_forall. intros o Ho%list_elem_of_In s ->.
    apply Hdays in Ho as (i & Hi & _ & ->).
    destruct (seed_date_spec tz now i Hlo Hhi Hi) as (_ & _ & R). rewrite R. eauto. }
  destruct (insert_dates_rows days ∅ Hok) as [F R].
  assert (Rows : forall row, holds (insert_dates days ∅).1 row <->
            exists d, row = AvailableDate d None (Some true) (Some 10) /\
              now / 86400000 <= d < now / 86400000 + 30 /\
              day_of_week (d + (local_day tz now - now / 86400000)) <> 0).
  { intros row. rewrite R. split.
    - intros [[k Hk]|(s & d & Hin & Hd & ->)]; [by rewrite lookup_empty in Hk|].
      apply Hdays in Hin as (i & Hi & Hw & ->).
      destruct (seed_date_spec tz now i Hlo Hhi Hi) as (_ & _ & Rt).
      rewrite Rt in Hd. injection Hd as <-.
      exists (now / 86400000 + i). split; [done|]. split; [lia|].
      by replace (now / 86400000 + i + (local_day tz now - now / 86400000))
        with (local_day tz now + i) by lia.
    - intros (d & -> & Hd & Hw). right.
      exists (Calendar.format_date d), d.
      destruct (seed_date_spec tz now (d - now / 86400000) Hlo Hhi ltac:(lia))
        as (_ & _ & Rt).
      replace (now / 86400000 + (d - now / 86400000)) with d in Rt by lia.
      split; [|done]. apply Hdays. exists (d - now / 86400000).
      split; [lia|]. split.
      + by replace (local_day tz now + (d - now / 86400000))
          with (d + (local_day tz now - now / 86400000)) by lia.
      + f_equal. lia. }
  split; [exact F|]. split; [exact Rows|]. split.
  - intros Hs d (d' & [= <-] & _ & Hw)%Rows. by rewrite Hs, Z.add_0_r in Hw.
  - intros Hs d Hd. split.
    + intros Hw. apply Rows. exists d. split; [done|]. split; [done|].
      rewrite Hs. unfold day_of_week in *.
      replace (d + 1 + 4) with (d + 4 + 1) by lia.
      rewrite Z.add_mod, Hw by lia. done.
    + intros Hw (d' & [= <-] & _ & Hw')%Rows. apply Hw'.
      rewrite Hs. unfold day_of_week in *.
      replace (d + 1 + 4) with (d + 4 + 1) by lia.
      rewrite Z.add_mod, Hw by lia. done.
Qed.

(** X28: the slots seeded at start-up are the six half hours, all on the
    UTC date of the start-up and open to every category; the block runs
    only on an empty table, so no later start-up adds to them. The public
    listing of slots is therefore empty for every other date, among them
    the other dates seeded as available, until a manager creates slots. *)
Theorem seeded_slots_are_for_the_first_day_only now :
  18262 <= now / 86400000 -> now / 86400000 < 22280 ->
  let today := now / 86400000 in
  let t := (seedTimeSlots now (∅ : table)).1 in
  (seedTimeSlots now (∅ : table)).2 = true /\
  (forall row, holds t row <->
     exists s e, In (s, e) seeded_times /\
                 row = TimeSlot s e (Some true) (Some 0) today None) /\
  seedTimeSlots (now + 86400000) t = (t, true) /\
  (forall d categoryId, 18262 <= d < 22280 -> d <> today ->
     listAvailableTimeSlots (Some (Calendar.format_date d)) categoryId t =
       (Http.Response 200 EmptyString, [])).
Proof.
  intros Hlo Hhi. cbv zeta.
  assert (E : seedTimeSlots now ∅ =
              insert_slots (Calendar.format_date (now / 86400000)) timeSlots ∅).
  { unfold seedTimeSlots. rewrite map_to_list_empty.
    by rewrite date_part_toISOString by lia. }
  rewrite E.
  destruct (insert_slots_rows (Calendar.format_date (now / 86400000))
              (now / 86400000) timeSlots seeded_times ∅) as [F R].
  { apply date_roundtrip. lia. }
  { vm_compute. reflexivity. }
  { unfold seeded_times. repeat (apply NoDup_cons; split;
      [rewrite list_elem_of_In; simpl; intuition congruence|]). apply NoDup_nil_2. }
  { intros k x Hk. by rewrite lookup_empty in Hk. }
  assert (Rows : forall row,
            holds (insert_slots (Calendar.format_date (now / 86400000)) timeSlots ∅).1 row <->
            exists s e, In (s, e) seeded_times /\
              row = TimeSlot s e (Some true) (Some 0) (now / 86400000) None).
  { intros row. rewrite R. split; [|by right].
    intros [[k Hk]|?]; [by rewrite lookup_empty in Hk|done]. }
  split; [exact F|]. split; [exact Rows|]. split.
  - unfold seedTimeSlots.
    destruct (map_to_list _) as [|kr l] eqn:El; [|done].
    apply map_to_list_empty_iff in El.
    assert (Hh : holds (insert_slots (Calendar.format_date (now / 86400000)) timeSlots ∅).1
                   (TimeSlot 32400 34200 (Some true) (Some 0) (now / 86400000) None)).
    { apply Rows. exists 32400, 34200. split; [by left|done]. }
    destruct Hh as [k Hk]. by rewrite El, lookup_empty in Hk.
  - intros d categoryId Hd Hne.
    pose proof plain_date_table as T. rewrite forallb_forall in T.
    specialize (T d (zrange_In 18262 4018 d ltac:(lia))).
    apply andb_true_iff in T as [Tt Ti%negb_true_iff].
    unfold listAvailableTimeSlots. rewrite Tt, Ti. cbn [negb].
    rewrite date_roundtrip by lia.
    rewrite (proj2 (select_nil _ _)); [done|].
    intros k x Hk. simpl.
    assert (Hx : holds (insert_slots (Calendar.format_date (now / 86400000)) timeSlots ∅).1 x)
      by (by exists k).
    apply Rows in Hx as (s & e & _ & ->). simpl.
    by destruct (Z.eqb_spec (now / 86400000) d).
Qed.

End SeedFacts.

Section SeedExamples.
Import Slots Seed.

(** A start-up on Friday 2025-03-07 at 21:00 UTC, which is Saturday 01:00
    at four hours east: Sunday 2025-03-09 is seeded, Saturday 2025-03-08
    is not. *)
Lemma seeded_dates_witness :
  holds (seedDates 240 1741381200000 ∅).1 (AvailableDate 20156 None (Some true) (Some 10)) /\
  ~ holds (seedDates 240 1741381200000 ∅).1 (AvailableDate 20155 None (Some true) (Some 10)) /\
  Calendar.format_date 20156 = "2025-03-09" /\ day_of_week 20156 = 0.
Proof.
  destruct (seeded_dates_skip_the_local_sunday 240 1741381200000)
    as (_ & _ & _ & Heast);
    [vm_compute; discriminate | reflexivity |].
  split; [|split; [|split; reflexivity]].
  - refine (proj1 (Heast eq_refl 20156 _) eq_refl).
    vm_compute. split; [discriminate|reflexivity].
  - refine (proj2 (Heast eq_refl 20155 _) eq_refl).
    vm_compute. split; [discriminate|reflexivity].
Defined.

(** A start-up on 2025-03-07: nothing is listed for 2025-03-10. *)
Lemma seeded_slots_witness :
  @listAvailableTimeSlots decimal_engine (Some "2025-03-10") None
    (seedTimeSlots 1741381200000 (∅ : table)).1 =
    (Http.Response 200 EmptyString, []).
Proof.
  refine (proj2 (proj2 (proj2 (@seeded_slots_are_for_the_first_day_only decimal_engine 1741381200000 _ _)))
            20158 None _ _).
  - vm_compute. discriminate.
  - reflexivity.
  - vm_compute. split; [discriminate|reflexivity].
  - vm_compute. discriminate.
Defined.

End SeedExamples.
